(** * easy2acl: a shallow embedding of [easy2acl.py] and its properties

    The script converts an EasyChair export (the files [meta], [accepted],
    [submissions], an optional [submission.csv] and a directory of PDFs) into
    the layout expected by ACLPUB.  It is one straight-line program; the
    embedding follows it statement by statement.

    Conventions of the embedding.
    - A Python [str] is a [string]; a character is a code point below 256
      (Latin-1).  Whitespace, digits and upper-case letters are those of
      Python on that range.
    - A text file is the list of lines its iterator yields (each line with
      its line terminator, if it has one); a file that cannot be opened is
      [None].
    - The console, the file system and the process status are explicit: the
      program runs in a monad over a [world] that records every observable
      action in order, and it ends by returning, by [sys.exit] or by an
      uncaught exception.
    - The three external libraries ([unicode_tex], [pybtex], [csv]) and
      [glob] are parameters. *)

From Stdlib Require Import ZArith NArith Ascii String List Lia Bool.
From Stdlib Require Import DecimalString DecimalNat.
From stdpp Require Import base option list gmap strings.

Local Open Scope Z_scope.
Local Open Scope nat_scope.

(* ===================================================================== *)
(** * Part I: definitions                                                 *)
(* ===================================================================== *)

(** ** Python's string methods, as far as the script uses them *)

Module Py.

Definition code (c : ascii) : nat := nat_of_ascii c.

(** [str.isspace] on one character: the ASCII blanks and separators, NEL and
    the no-break space. *)
Definition isspace (c : ascii) : bool :=
  let n := code c in
  ((9 <=? n) && (n <=? 13)) || ((28 <=? n) && (n <=? 32))
  || (n =? 133) || (n =? 160).

(** [\d] of [re] on a [str] pattern: a decimal digit. *)
Definition isdigit (c : ascii) : bool :=
  let n := code c in (48 <=? n) && (n <=? 57).

(** The class [[A-Z]]. *)
Definition isupper (c : ascii) : bool :=
  let n := code c in (65 <=? n) && (n <=? 90).


Definition is_empty (s : string) : bool :=
  match s with EmptyString => true | String _ _ => false end.

(** Puts a character in front of the first string of a list. *)
Definition cons_head (c : ascii) (l : list string) : list string :=
  match l with
  | [] => [String c ""]
  | w :: ws => String c w :: ws
  end.

(** [sep.join(l)] *)
Fixpoint join (sep : string) (l : list string) : string :=
  match l with
  | [] => ""
  | [w] => w
  | w :: ws => w +:+ sep +:+ join sep ws
  end.

(** [s.replace(old, new)] for a non-empty [old]: occurrences are found from
    the left and do not overlap.  [skip] counts the characters of a match
    still to be passed over. *)
Fixpoint replace_go (old new : string) (skip : nat) (s : string) : string :=
  match s with
  | EmptyString => ""
  | String c s' =>
      match skip with
      | S k => replace_go old new k s'
      | O =>
          if String.prefix old s
          then new +:+ replace_go old new (String.length old - 1) s'
          else String c (replace_go old new 0 s')
      end
  end.

(** With an empty [old], Python puts [new] before every character and at the
    end. *)
Fixpoint intersperse_all (new s : string) : string :=
  match s with
  | EmptyString => new
  | String c s' => new +:+ String c (intersperse_all new s')
  end.

Definition replace (old new s : string) : string :=
  if is_empty old then intersperse_all new s else replace_go old new 0 s.

(** [s.split(sep)] for a non-empty [sep] (an empty one raises [ValueError];
    the script never passes one).  The result is never empty. *)
Fixpoint split_go (sep : string) (skip : nat) (s : string) : list string :=
  match s with
  | EmptyString => [""]
  | String c s' =>
      match skip with
      | S k => split_go sep k s'
      | O =>
          if String.prefix sep s
          then "" :: split_go sep (String.length sep - 1) s'
          else cons_head c (split_go sep 0 s')
      end
  end.

Definition split_sep (sep s : string) : list string := split_go sep 0 s.

(** [s.split()]: the maximal runs of non-blank characters. *)
Fixpoint split (s : string) : list string :=
  match s with
  | EmptyString => []
  | String c s' =>
      if isspace c then split s'
      else match s' with
           | EmptyString => [String c ""]
           | String c' _ =>
               if isspace c' then String c "" :: split s'
               else cons_head c (split s')
           end
  end.

Fixpoint lstrip (s : string) : string :=
  match s with
  | EmptyString => ""
  | String c s' => if isspace c then lstrip s' else s
  end.

(** [s.rstrip()] *)
Fixpoint rstrip (s : string) : string :=
  match s with
  | EmptyString => ""
  | String c s' =>
      match rstrip s' with
      | EmptyString => if isspace c then "" else String c ""
      | r => String c r
      end
  end.

(** The first run of non-blank characters of [s] and what follows it. *)
Fixpoint span_token (s : string) : string * string :=
  match s with
  | EmptyString => ("", "")
  | String c s' =>
      if isspace c then ("", s)
      else let (t, r) := span_token s' in (String c t, r)
  end.

(** [s.split(maxsplit=1)]: the first token and, if anything but blanks
    follows, the rest of the string from its first non-blank character
    (trailing blanks kept). *)
Definition split_max1 (s : string) : list string :=
  match lstrip s with
  | EmptyString => []
  | s1 =>
      let (t, r) := span_token s1 in
      match lstrip r with
      | EmptyString => [t]
      | r' => [t; r']
      end
  end.

(** [str(n)] for a non-negative [int]. *)
Definition str_of_nat (n : nat) : string :=
  NilEmpty.string_of_uint (Nat.to_uint n).

(** The value of a run of decimal digits, as [int] computes it. *)
Definition digit_val (c : ascii) : N := N.of_nat (code c - 48).

Fixpoint int_of_digits_go (acc : N) (s : string) : N :=
  match s with
  | EmptyString => acc
  | String c s' => int_of_digits_go (10 * acc + digit_val c)%N s'
  end.

Definition int_of_digits (s : string) : N := int_of_digits_go 0%N s.

Fixpoint zeros (n : nat) : string :=
  match n with
  | O => ""
  | S k => String "0" (zeros k)
  end.

(** [PY_SSIZE_T_MAX] of a 64-bit build: the largest width a format
    specification may name. *)
Definition ssize_t_max : N := 9223372036854775807%N.

(** ['{n:0{width}d}'.format(n=n, width=width)] where [width] is a [str] of
    decimal digits: the specification is ["0" + width + "d"], that is, the
    zero flag followed by the width.  A width above [PY_SSIZE_T_MAX] makes
    the specification invalid ([ValueError]); that a width below it can
    still ask for more memory than there is is not modelled. *)
Definition format_0d (width : string) (n : nat) : option string :=
  let w := int_of_digits width in
  if (ssize_t_max <? w)%N then None
  else
    let d := str_of_nat n in
    Some (zeros (N.to_nat w - String.length d) +:+ d).

(** [posixpath.dirname] and [posixpath.basename]: the path is cut after its
    last slash; [dirname] then drops the trailing slashes of the head unless
    the head is slashes only. *)
Fixpoint cut_last_slash (s : string) : option (string * string) :=
  match s with
  | EmptyString => None
  | String c s' =>
      match cut_last_slash s' with
      | Some (h, t) => Some (String c h, t)
      | None => if Ascii.eqb c "/" then Some ("/", s') else None
      end
  end.

Fixpoint all_slashes (s : string) : bool :=
  match s with
  | EmptyString => true
  | String c s' => Ascii.eqb c "/" && all_slashes s'
  end.

Fixpoint rstrip_slashes (s : string) : string :=
  match s with
  | EmptyString => ""
  | String c s' =>
      match rstrip_slashes s' with
      | EmptyString => if Ascii.eqb c "/" then "" else String c ""
      | r => String c r
      end
  end.

Definition dirname (p : string) : string :=
  match cut_last_slash p with
  | None => ""
  | Some (h, _) => if all_slashes h then h else rstrip_slashes h
  end.

Definition basename (p : string) : string :=
  match cut_last_slash p with
  | None => p
  | Some (_, t) => t
  end.

End Py.

(** ** The part of [re] that the script's one pattern needs

    A pattern is a sequence of items: a literal character, [.], one
    character of a class, a greedy [+] over a class, and the parentheses of
    a capturing group (groups are not nested).  [rmatch] is [re.match]: the
    pattern is anchored at the start of the string only, a greedy [+] gives
    characters back when what follows does not match, and the result is the
    tuple of [groups()]. *)

Module Re.

Inductive item : Type :=
| Chr (c : ascii)
| Dot
| Cls (p : ascii -> bool)
| Plus (p : ascii -> bool)
| Open
| Close.

Record caps : Type := { closed : list string; cur : option string }.

Definition start : caps := {| closed := []; cur := None |}.

Definition open (st : caps) : caps := {| closed := closed st; cur := Some "" |}.

Definition close (st : caps) : caps :=
  match cur st with
  | Some g => {| closed := closed st ++ [g]; cur := None |}
  | None => st
  end.

Definition push (c : ascii) (st : caps) : caps :=
  match cur st with
  | Some g => {| closed := closed st; cur := Some (g +:+ String c "") |}
  | None => st
  end.

Definition accepts (i : item) (c : ascii) : bool :=
  match i with
  | Chr a => Ascii.eqb a c
  | Dot => negb (Ascii.eqb c "010")
  | Cls p => p c
  | Plus p => p c
  | Open | Close => false
  end.

(** The rest of a greedy [+]: take as many characters of the class as
    possible, then continue with [k]; on failure give one back. *)
Fixpoint many (p : ascii -> bool) (k : caps -> string -> option (list string))
    (st : caps) (s : string) : option (list string) :=
  match s with
  | EmptyString => k st s
  | String c s' =>
      if p c then
        match many p k (push c st) s' with
        | Some r => Some r
        | None => k st s
        end
      else k st s
  end.

Fixpoint rmatch_from (re : list item) (st : caps) (s : string)
    : option (list string) :=
  match re with
  | [] => Some (closed st)
  | Open :: re' => rmatch_from re' (open st) s
  | Close :: re' => rmatch_from re' (close st) s
  | Plus p :: re' =>
      match s with
      | EmptyString => None
      | String c s' =>
          if p c then many p (rmatch_from re') (push c st) s' else None
      end
  | i :: re' =>
      match s with
      | EmptyString => None
      | String c s' =>
          if accepts i c then rmatch_from re' (push c st) s' else None
      end
  end.

Definition rmatch (re : list item) (s : string) : option (list string) :=
  rmatch_from re start s.

Fixpoint lit (s : string) : list item :=
  match s with
  | EmptyString => []
  | String c s' => Chr c :: lit s'
  end.

End Re.

(** ** The world the script runs in *)

Inductive exn : Type :=
| ValueError
| IndexError
| KeyError
| TypeError
| FileNotFoundError
| OtherError.

(** What the script does that can be observed from outside, in order. *)
Inductive event : Type :=
| Stdout (text : string)
| Stderr (text : string)
| MakeDirs (path : string)
| CopyFile (src dst : string)
| WriteFile (path content : string).

(** [paths] is the set of paths that exist, which [os.path.exists] reads and
    which creating a directory or a file extends.  Writing, copying and
    creating directories are taken to succeed (permissions and disk space
    are not modelled). *)
Record world : Type := { trace : list event; paths : gset string }.

(** How a computation ends: with a value, by [sys.exit(code)], or by an
    exception nobody catches (the interpreter then prints a traceback and the
    process status is 1). *)
Inductive result (A : Type) : Type :=
| Ret (a : A)
| Exit (code : Z)
| Raise (e : exn).
Arguments Ret {A} a.
Arguments Exit {A} code.
Arguments Raise {A} e.

Definition M (A : Type) : Type := world -> result A * world.

#[global] Instance M_ret : MRet M := fun A a w => (Ret a, w).

#[global] Instance M_bind : MBind M := fun A B f m w =>
  match m w with
  | (Ret a, w') => f a w'
  | (Exit c, w') => (Exit c, w')
  | (Raise e, w') => (Raise e, w')
  end.

Definition sys_exit {A} (code : Z) : M A := fun w => (Exit code, w).

Definition raise {A} (e : exn) : M A := fun w => (Raise e, w).

Definition emit (e : event) : M unit := fun w =>
  (Ret tt, {| trace := trace w ++ [e]; paths := paths w |}).

(** [print(a, b, ...)] and [print(a, b, ..., file=sys.stderr)]: the arguments,
    already converted to [str], separated by one space and followed by a
    newline. *)
Definition newline : string := String "010" "".

Definition print (args : list string) : M unit :=
  emit (Stdout (Py.join " " args +:+ newline)).

Definition print_stderr (args : list string) : M unit :=
  emit (Stderr (Py.join " " args +:+ newline)).

Definition path_exists (p : string) : M bool := fun w =>
  (Ret (bool_decide (p ∈ paths w)), w).

Definition add_paths (ps : list string) : M unit := fun w =>
  (Ret tt, {| trace := trace w; paths := list_to_set ps ∪ paths w |}).

(** The directories [os.makedirs(p)] makes sure exist: [p] and every
    non-empty proper prefix of [p] that ends before a slash. *)
Fixpoint dir_chain (acc s : string) : list string :=
  match s with
  | EmptyString => [acc]
  | String c s' =>
      if Ascii.eqb c "/"
      then (if Py.all_slashes acc then [] else [acc])
             ++ dir_chain (acc +:+ "/") s'
      else dir_chain (acc +:+ String c "") s'
  end.

(** [os.makedirs(p)] where it succeeds.  The world does not tell files from
    directories, so the failures of [os.makedirs] (a parent that is a
    regular file, for instance) are not part of the model. *)
Definition makedirs (p : string) : M unit :=
  emit (MakeDirs p);; add_paths (dir_chain "" p).

(** [shutil.copy(src, dst)] *)
Definition copy (src dst : string) : M unit :=
  emit (CopyFile src dst);; add_paths [dst].

(** [with open(path, 'w') as f: print(text, file=f)] *)
Definition write_file (path text : string) : M unit :=
  emit (WriteFile path (text +:+ newline));; add_paths [path].

(** [for x in l: s = body(s, x)], the loop variable state threaded through. *)
Fixpoint foldM {A S : Type} (body : S -> A -> M S) (l : list A) (s : S) : M S :=
  match l with
  | [] => mret s
  | x :: l' => s' ← body s x; foldM body l' s'
  end.

Definition forM {A : Type} (l : list A) (body : A -> M unit) : M unit :=
  foldM (fun _ x => body x) l tt.

(** ** The script *)

(** The value of [metadata].  The key ['chairs'] is bound to a list from the
    start and is only ever appended to; every other key is bound to a
    [str].  The record keeps the two apart: [chairs] is the list under
    ['chairs'], [fields] holds the other keys. *)
Record Metadata : Type := { chairs : list string; fields : gmap string string }.

(** A [pybtex] entry: its type and its fields in insertion order.  A field
    value is a [str] or Python's [None]. *)
Record Entry : Type := { bib_type : string; bib_fields : list (string * option string) }.

(** What [BibliographyData(...).to_string('bibtex')] does: it returns the
    text or raises. *)
Inductive encoded : Type :=
| Encoded (text : string)
| EncodeRaises (e : exn).

(** What the script reads.  [submission_csv] is the sequence of rows
    [csv.DictReader] yields for [submission.csv] (a row maps a column name to
    a cell or to [None], the filler of a short row); [glob] is [glob.glob];
    [existing] is the set of paths that exist when the script starts. *)
Record inputs : Type := {
  meta_file : option (list string);
  accepted_file : option (list string);
  submissions_file : option (list string);
  submission_csv : list (gmap string (option string));
  glob : string -> list string;
  existing : gset string
}.

Definition submission : Type := string * string * list string.

Definition dquote : string := String "034" "".

(** [with open(name) as f]: the lines of the file, or [FileNotFoundError]. *)
Definition open_read (f : option (list string)) : M (list string) :=
  match f with
  | Some lines => mret lines
  | None => raise FileNotFoundError
  end.

(** [key in metadata] *)
Definition metadata_has (md : Metadata) (key : string) : bool :=
  String.eqb key "chairs" || bool_decide (is_Some (fields md !! key)).

(** [metadata[key]] for a key other than ['chairs'] *)
Definition metadata_get (md : Metadata) (key : string) : M string :=
  match fields md !! key with
  | Some v => mret v
  | None => raise KeyError
  end.

(** Lines 34-41. *)
Definition metadata_line (md : Metadata) (line : string) : M Metadata :=
  match Py.split_max1 (Py.rstrip line) with
  | [key; value] =>
      if String.eqb key "chairs"
      then mret {| chairs := chairs md ++ [value]; fields := fields md |}
      else mret {| chairs := chairs md; fields := <[key := value]> (fields md) |}
  | _ => raise ValueError
  end.

Definition read_metadata (inp : inputs) : M Metadata :=
  lines ← open_read (meta_file inp);
  foldM metadata_line lines {| chairs := []; fields := ∅ |}.

(** Lines 43-46. *)
Definition required_keys : list string :=
  Py.split "abbrev title booktitle month year location publisher chairs bib_url".

Definition check_required_keys (md : Metadata) : M unit :=
  forM required_keys (fun key =>
    if negb (metadata_has md key)
    then print ["Fatal: missing key " +:+ dquote +:+ key +:+ dquote
                  +:+ " from " +:+ dquote +:+ "meta" +:+ dquote +:+ " file"];;
         sys_exit 1%Z
    else mret tt).

(** Line 48: [https://www.aclweb.org/anthology/([A-Z])(\d\d)-(\d+)%0(\d+)d] *)
Definition bib_url_re : list Re.item :=
  Re.lit "https://www" ++ [Re.Dot] ++ Re.lit "aclweb" ++ [Re.Dot]
  ++ Re.lit "org/anthology/"
  ++ [Re.Open; Re.Cls Py.isupper; Re.Close]
  ++ [Re.Open; Re.Cls Py.isdigit; Re.Cls Py.isdigit; Re.Close]
  ++ Re.lit "-"
  ++ [Re.Open; Re.Plus Py.isdigit; Re.Close]
  ++ Re.lit "%0"
  ++ [Re.Open; Re.Plus Py.isdigit; Re.Close]
  ++ Re.lit "d".

(** The four values taken from [bib_url]: [anthology_collection],
    [anthology_year], [anthology_volume], [anthology_paper_width]. *)
Record Anthology : Type := {
  anthology_collection : string;
  anthology_year : string;
  anthology_volume : string;
  anthology_paper_width : string
}.

(** Lines 48-52. *)
Definition parse_bib_url (md : Metadata) : M Anthology :=
  bib_url ← metadata_get md "bib_url";
  match Re.rmatch bib_url_re bib_url with
  | None =>
      print_stderr ["Fatal: bib_url field (" +:+ bib_url
                      +:+ ") in 'meta' file has wrong pattern"];;
      sys_exit 1%Z
  | Some [c; y; v; w] =>
      mret {| anthology_collection := c; anthology_year := y;
              anthology_volume := v; anthology_paper_width := w |}
  | Some _ => raise ValueError
  end.

(** Lines 57-69. *)
Definition accepted_line (accepted : list (string * string)) (line : string)
    : M (list (string * string)) :=
  let entry := Py.split_sep (String "009" "") (Py.rstrip line) in
  match last entry with
  | None => raise IndexError
  | Some decision =>
      if String.eqb decision "ACCEPT" then
        match entry with
        | submission_id :: title :: _ => mret (accepted ++ [(submission_id, title)])
        | _ => raise IndexError
        end
      else mret accepted
  end.

Definition read_accepted (inp : inputs) : M (list (string * string)) :=
  lines ← open_read (accepted_file inp);
  accepted ← foldM accepted_line lines [];
  print ["Found "; Py.str_of_nat (length accepted); " accepted files"];;
  mret accepted.

(** Line 80: [entry[1].replace(' and', ',').split(', ')] *)
Definition split_authors (field : string) : list string :=
  Py.split_sep ", " (Py.replace " and" "," field).

(** Lines 74-84. *)
Definition submissions_line (submissions : list submission) (line : string)
    : M (list submission) :=
  let entry := Py.split_sep (String "009" "") (Py.rstrip line) in
  match entry with
  | submission_id :: authors :: title :: _ =>
      mret (submissions ++ [(submission_id, title, split_authors authors)])
  | _ => raise IndexError
  end.

Definition read_submissions (inp : inputs) : M (list submission) :=
  lines ← open_read (submissions_file inp);
  submissions ← foldM submissions_line lines [];
  print ["Found "; Py.str_of_nat (length submissions); " submitted files"];;
  mret submissions.

(** Lines 87-93.  In [abstracts[row['#']] = row['abstract']] the right-hand
    side is evaluated first. *)
Definition abstracts_row (abstracts : gmap (option string) (option string))
    (row : gmap string (option string))
    : M (gmap (option string) (option string)) :=
  match row !! "abstract" with
  | None => raise KeyError
  | Some abstract =>
      match row !! "#" with
      | None => raise KeyError
      | Some id => mret (<[id := abstract]> abstracts)
      end
  end.

Definition read_abstracts (inp : inputs)
    : M (gmap (option string) (option string)) :=
  present ← path_exists "submission.csv";
  if (present : bool) then
    abstracts ← foldM abstracts_row (submission_csv inp) ∅;
    print ["Found "; Py.str_of_nat (size abstracts); "abstracts"];;
    mret abstracts
  else mret ∅.

(** Lines 100-111: the two PDFs that must exist. *)
Definition full_pdf_file (md_abbrev md_year : string) : string :=
  "pdf/" +:+ md_abbrev +:+ "_" +:+ md_year +:+ ".pdf".

Definition frontmatter_pdf_file (md_abbrev md_year : string) : string :=
  "pdf/" +:+ md_abbrev +:+ "_" +:+ md_year +:+ "_frontmatter.pdf".

Definition check_full_pdf (path : string) : M unit :=
  present ← path_exists path;
  if (present : bool) then mret tt
  else print ["Fatal: could not find full volume PDF '" +:+ path +:+ "'"];;
       sys_exit 1%Z.

Definition check_frontmatter_pdf (path : string) : M unit :=
  present ← path_exists path;
  if (present : bool) then mret tt
  else print ["Fatal: could not find frontmatter PDF file '" +:+ path +:+ "'"];;
       sys_exit 1%Z.

(** Lines 114-117.  [paper_pdf_id] is [pdf_file.split('_')[-1].replace('.pdf', '')]. *)
Definition paper_pdf_id (pdf_file : string) : string :=
  Py.replace ".pdf" "" (default "" (last (Py.split_sep "_" pdf_file))).

Definition paper_pdf_pattern (md_abbrev md_year : string) : string :=
  "pdf/" +:+ md_abbrev +:+ "_" +:+ md_year +:+ "_paper_*.pdf".

Definition pdfs (frontmatter : string) (found : list string) : gmap string string :=
  foldl (fun m pdf_file => <[paper_pdf_id pdf_file := pdf_file]> m)
        {[ "0" := frontmatter ]} found.

(** Lines 120-126. *)
Fixpoint first_match (a : string * string) (submissions : list submission)
    : option submission :=
  match submissions with
  | [] => None
  | s :: rest =>
      if String.eqb s.1.1 a.1 && String.eqb s.1.2 a.2 then Some s
      else first_match a rest
  end.

Definition final_papers (md_booktitle : string) (md_chairs : list string)
    (accepted : list (string * string)) (submissions : list submission)
    : list submission :=
  foldl (fun final a =>
           match first_match a submissions with
           | Some s => final ++ [s]
           | None => final
           end)
        [("0", md_booktitle, md_chairs)] accepted.

(** Lines 133-136.  [ensure_dir d] is
    [if not os.path.exists(d): os.makedirs(d)]. *)
Definition ensure_dir (dest_dir : string) : M unit :=
  present ← path_exists dest_dir;
  if (present : bool) then mret tt else makedirs dest_dir.

Definition make_dest_dirs : M unit :=
  forM ["bib"; "pdf"] (fun dir => ensure_dir ("proceedings/cdrom" +:+ "/" +:+ dir)).

(** The strings the loop of lines 144-191 builds for one paper. *)
Definition dest_path (anth : Anthology) (formatted_id : string) : string :=
  "proceedings/cdrom/pdf/" +:+ anthology_collection anth
    +:+ anthology_year anth +:+ "-" +:+ anthology_volume anth
    +:+ formatted_id +:+ ".pdf".

Definition bib_path (dest : string) : string := Py.replace "pdf" "bib" dest.

Definition anthology_id (dest : string) : string :=
  Py.replace ".pdf" "" (Py.basename dest).

Section Script.

(** [unicode_tex.unicode_to_tex] and the [pybtex] serialisation of the
    one-entry bibliography [{ anthology_id: bib_entry }]. *)
Variable unicode_to_tex : string -> string.
Variable to_bibtex : string -> Entry -> encoded.

(** Lines 23-28. *)
Definition texify (s : string) : string :=
  Py.join " " (map unicode_to_tex (Py.split s)).

(** Lines 165-181: the entry of one paper.  The only way this can fail is a
    [KeyError] of [metadata[...]], which is [None] here. *)
Definition bib_entry (md : Metadata)
    (abstracts : gmap (option string) (option string))
    (entry : submission) : option Entry :=
  let '(submission_id, paper_title, authors) := entry in
  let authors := Py.join " and " authors in
  let type := if String.eqb submission_id "0"
              then "proceedings" else "inproceedings" in
  md_year ← fields md !! "year";
  md_month ← fields md !! "month";
  md_location ← fields md !! "location";
  md_publisher ← fields md !! "publisher";
  let fields0 :=
    [("author", Some (texify authors));
     ("title", Some paper_title);
     ("year", Some md_year);
     ("month", Some md_month);
     ("address", Some md_location);
     ("publisher", Some md_publisher)] in
  let fields1 :=
    match abstracts !! Some submission_id with
    | Some abstract => fields0 ++ [("abstract", abstract)]
    | None => fields0
    end in
  fields2 ←
    (if String.eqb type "inproceedings"
     then md_booktitle ← fields md !! "booktitle";
          Some (fields1 ++ [("booktitle", Some md_booktitle)])
     else Some fields1);
  Some {| bib_type := type; bib_fields := fields2 |}.

(** The body of the loop of lines 144-191 for one entry of [final_papers];
    the loop state is [(paper_id, final_bibs)]. *)
Definition emit_paper (md : Metadata) (anth : Anthology)
    (abstracts : gmap (option string) (option string))
    (registry : gmap string string)
    (st : nat * list string) (entry : submission) : M (nat * list string) :=
  let '(paper_id, final_bibs) := st in
  let submission_id := entry.1.1 in
  match registry !! submission_id with
  | None =>
      print_stderr ["Fatal: no PDF found for paper"; Py.str_of_nat paper_id];;
      sys_exit 1%Z
  | Some pdf_path =>
      match Py.format_0d (anthology_paper_width anth) paper_id with
      | None => raise ValueError
      | Some formatted_id =>
          let dest := dest_path anth formatted_id in
          let paper_id := S paper_id in
          copy pdf_path dest;;
          print_stderr ["COPYING"; pdf_path; "->"; dest];;
          present ← path_exists (Py.dirname (bib_path dest));
          (if (present : bool) then mret tt
           else makedirs (Py.dirname (bib_path dest)));;
          match bib_entry md abstracts entry with
          | None => raise KeyError
          | Some e =>
              match to_bibtex (anthology_id dest) e with
              | EncodeRaises TypeError =>
                  print_stderr ["Fatal: Error in BibTeX-encoding paper"; submission_id];;
                  sys_exit 1%Z
              | EncodeRaises err => raise err
              | Encoded bib_string =>
                  write_file (bib_path dest) bib_string;;
                  print ["CREATED"; bib_path dest];;
                  mret (paper_id, final_bibs ++ [bib_string])
              end
          end
      end
  end.

(** Lines 194-203. *)
Definition dest_bib (md_abbrev md_year : string) : string :=
  "proceedings/cdrom/" +:+ md_abbrev +:+ "-" +:+ md_year +:+ ".bib".

Definition dest_pdf (md_abbrev md_year : string) : string :=
  Py.replace "bib" "pdf" (dest_bib md_abbrev md_year).

Definition emit_volume (md_abbrev md_year full_pdf : string)
    (final_bibs : list string) : M unit :=
  write_file (dest_bib md_abbrev md_year) (Py.join newline final_bibs);;
  print ["CREATED"; dest_bib md_abbrev md_year];;
  print_stderr ["COPYING"; full_pdf; "->"; dest_pdf md_abbrev md_year];;
  copy full_pdf (dest_pdf md_abbrev md_year).

(** The variables of the script when it reaches line 142. *)
Record Loaded : Type := {
  metadata : Metadata;
  anthology : Anthology;
  accepted : list (string * string);
  submissions : list submission;
  abstracts : gmap (option string) (option string);
  md_abbrev : string;
  md_year : string;
  registry : gmap string string;
  final : list submission
}.

(** Lines 34-140. *)
Definition load (inp : inputs) : M Loaded :=
  md ← read_metadata inp;
  check_required_keys md;;
  anth ← parse_bib_url md;
  acc ← read_accepted inp;
  subs ← read_submissions inp;
  abs ← read_abstracts inp;
  abbrev ← metadata_get md "abbrev";
  year ← metadata_get md "year";
  check_full_pdf (full_pdf_file abbrev year);;
  check_frontmatter_pdf (frontmatter_pdf_file abbrev year);;
  let reg := pdfs (frontmatter_pdf_file abbrev year)
                  (glob inp (paper_pdf_pattern abbrev year)) in
  booktitle ← metadata_get md "booktitle";
  let fin := final_papers booktitle (chairs md) acc subs in
  make_dest_dirs;;
  print_stderr ["COPYING meta -> proceedings/meta"];;
  copy "meta" "proceedings/meta";;
  mret {| metadata := md; anthology := anth; accepted := acc;
          submissions := subs; abstracts := abs; md_abbrev := abbrev;
          md_year := year; registry := reg; final := fin |}.

(** Lines 142-191. *)
Definition emit_papers (l : Loaded) : M (nat * list string) :=
  foldM (emit_paper (metadata l) (anthology l) (abstracts l) (registry l))
        (final l) (0, []).

(** The whole script, top to bottom. *)
Definition script (inp : inputs) : M unit :=
  l ← load inp;
  st ← emit_papers l;
  emit_volume (md_abbrev l) (md_year l)
              (full_pdf_file (md_abbrev l) (md_year l)) st.2.

Definition init (inp : inputs) : world :=
  {| trace := []; paths := existing inp |}.

Definition run (inp : inputs) : result unit * world := script inp (init inp).

End Script.

(** ** Notions used to state the properties *)

(** An accepted decision [(id, title)] and a submission agree on both. *)
Definition agrees (a : string * string) (s : submission) : Prop :=
  s.1.1 = a.1 /\ s.1.2 = a.2.

Fixpoint all_chars (p : ascii -> bool) (s : string) : bool :=
  match s with
  | EmptyString => true
  | String c s' => p c && all_chars p s'
  end.

(** A non-empty run of characters of the class [safe] none of which is a
    blank; an ASCII token is one over the class of ASCII characters. *)
Definition token_of (safe : ascii -> bool) (t : string) : bool :=
  negb (Py.is_empty t)
  && all_chars (fun c => safe c && negb (Py.isspace c)) t.


(** [w'] is [w] after some more observable actions. *)
Definition extends (w w' : world) : Prop :=
  (exists evs, trace w' = trace w ++ evs) /\ paths w ⊆ paths w'.

(** The observable actions of one completed iteration of the loop of lines
    144-191: [pdf] is copied to [dest], and the entry serialised as
    [bib_string] is written next to it; [dir_present] tells whether the
    directory of the bibliography file was there. *)
Definition paper_events (pdf dest bib_string : string) (dir_present : bool)
    : list event :=
  [CopyFile pdf dest;
   Stderr (Py.join " " ["COPYING"; pdf; "->"; dest] +:+ newline)]
  ++ (if dir_present then [] else [MakeDirs (Py.dirname (bib_path dest))])
  ++ [WriteFile (bib_path dest) (bib_string +:+ newline);
      Stdout (Py.join " " ["CREATED"; bib_path dest] +:+ newline)].

(** The message of line 148. *)
Definition no_pdf_message (paper_id : nat) : event :=
  Stderr (Py.join " " ["Fatal: no PDF found for paper"; Py.str_of_nat paper_id]
            +:+ newline).

(** The capture state after the characters of [p] have been consumed. *)
Fixpoint pushes (p : string) (st : Re.caps) : Re.caps :=
  match p with
  | EmptyString => st
  | String c p' => pushes p' (Re.push c st)
  end.

(** What a [bib_url] accepted by line 48 looks like: the fixed prefix, in
    which each of the two dots of the pattern stands for any character but a
    newline, then one upper-case letter [c], two digits [y], a hyphen, the
    digits [v], [%0], the digits [wd], the letter [d], and anything after
    that. *)
Definition bib_url_shape (url c y v wd : string) : Prop :=
  exists d1 d2 rest,
    url = "https://www" +:+ String d1 ("aclweb" +:+ String d2
            ("org/anthology/" +:+ c +:+ y +:+ "-" +:+ v +:+ "%0" +:+ wd
               +:+ "d" +:+ rest))
    /\ d1 <> "010"%char /\ d2 <> "010"%char
    /\ String.length c = 1 /\ all_chars Py.isupper c = true
    /\ String.length y = 2 /\ all_chars Py.isdigit y = true
    /\ v <> "" /\ all_chars Py.isdigit v = true
    /\ wd <> "" /\ all_chars Py.isdigit wd = true.

(** The message of line 45, and the first required key that [metadata]
    lacks. *)
Definition missing_key_message (key : string) : event :=
  Stdout (Py.join " " ["Fatal: missing key " +:+ dquote +:+ key +:+ dquote
                         +:+ " from " +:+ dquote +:+ "meta" +:+ dquote
                         +:+ " file"] +:+ newline).

Definition first_missing_key (md : Metadata) : option string :=
  List.find (fun key => negb (metadata_has md key)) required_keys.

(** The characters of an Anthology identifier: upper-case letters, digits
    and the hyphen. *)
Definition stem_char (c : ascii) : bool :=
  Py.isupper c || Py.isdigit c || Ascii.eqb c "-".

(** The file name, without extension, that the loop gives to the paper
    with the formatted identifier [formatted_id]. *)
Definition stem (anth : Anthology) (formatted_id : string) : string :=
  anthology_collection anth +:+ anthology_year anth +:+ "-"
    +:+ anthology_volume anth +:+ formatted_id.

(** The identifier of the paper at position [i]: the decimal numeral of [i]
    with zeros in front up to the width named by [bib_url]. *)
Definition output_id (anth : Anthology) (i : nat) : string :=
  Py.zeros (N.to_nat (Py.int_of_digits (anthology_paper_width anth))
            - String.length (Py.str_of_nat i))
    +:+ Py.str_of_nat i.

(** The number a string of decimal digits denotes. *)
Definition decimal_value (s : string) : option nat :=
  Nat.of_uint <$> NilEmpty.uint_of_string s.

(** The copies among a sequence of actions, as [(source, destination)]. *)
Definition copies_of (evs : list event) : list (string * string) :=
  omap (fun e => match e with CopyFile src dst => Some (src, dst) | _ => None end)
       evs.


(** The observable actions of lines 194-203. *)
Definition volume_events (md_abbrev md_year full_pdf : string)
    (final_bibs : list string) : list event :=
  [WriteFile (dest_bib md_abbrev md_year)
             (Py.join newline final_bibs +:+ newline);
   Stdout (Py.join " " ["CREATED"; dest_bib md_abbrev md_year] +:+ newline);
   Stderr (Py.join " " ["COPYING"; full_pdf; "->"; dest_pdf md_abbrev md_year]
             +:+ newline);
   CopyFile full_pdf (dest_pdf md_abbrev md_year)].

(** The author rule in the words of the specification: the conjunction
    " and " is rewritten to the delimiter ", ", then the field is split on
    ", ". *)
Definition split_authors_by_conjunction (field : string) : list string :=
  Py.split_sep ", " (Py.replace " and " ", " field).

(** The author field of a submission with the given authors, as EasyChair
    writes it: "A", "A and B", "A, B and C", ... *)
Fixpoint serial (names : list string) : string :=
  match names with
  | [] => ""
  | [a] => a
  | [a; b] => a +:+ " and " +:+ b
  | a :: rest => a +:+ ", " +:+ serial rest
  end.

(** [pat] occurs in [s]. *)
Fixpoint occurs (pat s : string) : bool :=
  String.prefix pat s
  || match s with
     | EmptyString => false
     | String _ s' => occurs pat s'
     end.

(** A name the rule of line 80 can carry: it has no comma, " and" does not
    occur in it, and it does not begin with "and". *)
Definition plain_name (n : string) : bool :=
  all_chars (fun c => negb (Ascii.eqb c ",")) n
  && negb (occurs " and" n)
  && negb (String.prefix "and" n).

(** What may follow a name in an author field: nothing, or a character
    other than the letters of "and". *)
Definition safe_rest (rest : string) : bool :=
  match rest with
  | EmptyString => true
  | String c _ =>
      negb (Ascii.eqb c "a") && negb (Ascii.eqb c "n") && negb (Ascii.eqb c "d")
  end.

(** No occurrence of [old] in [m +:+ rest] starts inside [m]. *)
Fixpoint no_match_in (old m rest : string) : bool :=
  match m with
  | EmptyString => true
  | String _ m' =>
      negb (String.prefix old (m +:+ rest)) && no_match_in old m' rest
  end.

(** Puts a string in front of the first string of a list. *)
Definition prepend (m : string) (l : list string) : list string :=
  match l with
  | [] => [m]
  | w :: ws => (m +:+ w) :: ws
  end.

(** ** Sample inputs *)

Definition tab : string := String "009" "".

(** A symbol table that changes no character, and an encoder that writes an
    entry's type and key only. *)
Definition sample_unicode_to_tex (s : string) : string := s.


Definition sample_to_bibtex (key : string) (e : Entry) : encoded :=
  Encoded ("@" +:+ bib_type e +:+ "{" +:+ key +:+ "}" +:+ newline).

Definition sample_meta : list string :=
  map (fun s => s +:+ newline)
    ["abbrev X"; "title T"; "booktitle Proceedings of X"; "month June";
     "year 2019"; "location Here"; "publisher ACL"; "chairs Ann Chair";
     "chairs Bob Chair";
     "bib_url https://www.aclweb.org/anthology/W19-0%02d"].

(** One accepted paper, one rejected, both submitted, all PDFs present. *)
Definition sample : inputs := {|
  meta_file := Some sample_meta;
  accepted_file :=
    Some ["1" +:+ tab +:+ "T" +:+ tab +:+ "ACCEPT" +:+ newline;
          "2" +:+ tab +:+ "U" +:+ tab +:+ "REJECT" +:+ newline];
  submissions_file :=
    Some ["1" +:+ tab +:+ "A and B" +:+ tab +:+ "T" +:+ newline;
          "2" +:+ tab +:+ "C" +:+ tab +:+ "U" +:+ newline];
  submission_csv := [];
  glob := fun _ => ["pdf/X_2019_paper_1.pdf"; "pdf/X_2019_paper_2.pdf"];
  existing := {[ "pdf/X_2019.pdf"; "pdf/X_2019_frontmatter.pdf" ]}
|}.

(** The variables of the script at line 142 on the sample, and the world
    at that point. *)
Definition sample_loaded : Loaded := {|
  metadata :=
    {| chairs := ["Ann Chair"; "Bob Chair"];
       fields :=
         list_to_map
           [("abbrev", "X"); ("title", "T");
            ("booktitle", "Proceedings of X"); ("month", "June");
            ("year", "2019"); ("location", "Here"); ("publisher", "ACL");
            ("bib_url", "https://www.aclweb.org/anthology/W19-0%02d")] |};
  anthology :=
    {| anthology_collection := "W"; anthology_year := "19";
       anthology_volume := "0"; anthology_paper_width := "2" |};
  accepted := [("1", "T")];
  submissions := [("1", "T", ["A"; "B"]); ("2", "U", ["C"])];
  abstracts := ∅;
  md_abbrev := "X";
  md_year := "2019";
  registry :=
    list_to_map
      [("0", "pdf/X_2019_frontmatter.pdf"); ("1", "pdf/X_2019_paper_1.pdf");
       ("2", "pdf/X_2019_paper_2.pdf")];
  final :=
    [("0", "Proceedings of X", ["Ann Chair"; "Bob Chair"]);
     ("1", "T", ["A"; "B"])]
|}.

Definition sample_world : world := {|
  trace :=
    [Stdout ("Found  1  accepted files" +:+ newline);
     Stdout ("Found  2  submitted files" +:+ newline);
     MakeDirs "proceedings/cdrom/bib";
     MakeDirs "proceedings/cdrom/pdf";
     Stderr ("COPYING meta -> proceedings/meta" +:+ newline);
     CopyFile "meta" "proceedings/meta"];
  paths :=
    list_to_set
      ["proceedings"; "proceedings/cdrom"; "proceedings/cdrom/bib";
       "proceedings/cdrom/pdf"; "proceedings/meta";
       "pdf/X_2019.pdf"; "pdf/X_2019_frontmatter.pdf"]
|}.

(** The same with a blank line in [meta]. *)
Definition sample_blank_line : inputs := {|
  meta_file := Some (sample_meta ++ [newline]);
  accepted_file := accepted_file sample;
  submissions_file := submissions_file sample;
  submission_csv := [];
  glob := glob sample;
  existing := existing sample
|}.

(** The sample with the PDF of the accepted paper missing, and the
    variables of the script at line 142 on it. *)
Definition sample_missing_pdf : inputs := {|
  meta_file := meta_file sample;
  accepted_file := accepted_file sample;
  submissions_file := submissions_file sample;
  submission_csv := [];
  glob := fun _ => ["pdf/X_2019_paper_2.pdf"];
  existing := existing sample
|}.

Definition sample_missing_pdf_loaded : Loaded := {|
  metadata := metadata sample_loaded;
  anthology := anthology sample_loaded;
  accepted := accepted sample_loaded;
  submissions := submissions sample_loaded;
  abstracts := ∅;
  md_abbrev := "X";
  md_year := "2019";
  registry :=
    list_to_map
      [("0", "pdf/X_2019_frontmatter.pdf"); ("2", "pdf/X_2019_paper_2.pdf")];
  final := final sample_loaded
|}.

(** The sample [meta] without its [abbrev] line. *)
Definition sample_no_abbrev : inputs := {|
  meta_file := Some (tail sample_meta);
  accepted_file := accepted_file sample;
  submissions_file := submissions_file sample;
  submission_csv := [];
  glob := glob sample;
  existing := existing sample
|}.

(** A metadata record whose [bib_url] names another host. *)
Definition metadata_other_host : Metadata := {|
  chairs := [];
  fields := {[ "bib_url" := "https://host/anthology/W19-0%02d" ]}
|}.

(** ** Notions used to state further properties *)

(** The key and the value that line 37 unpacks a line of [meta] into, if it
    can. *)
Definition meta_pair (line : string) : option (string * string) :=
  match Py.split_max1 (Py.rstrip line) with
  | [key; value] => Some (key, value)
  | _ => None
  end.

(** The values given to [key] by a sequence of [(key, value)] pairs, in
    order. *)
Definition values_of (key : string) (kvs : list (string * string))
    : list string :=
  omap (fun kv => if String.eqb kv.1 key then Some kv.2 else None) kvs.

(** A string that neither begins nor ends with a blank and is not empty. *)
Definition trimmed (s : string) : Prop :=
  s <> "" /\ Py.lstrip s = s /\ Py.rstrip s = s.

(** A line of a tab-separated file with the given fields. *)
Definition tsv_line (row : list string) : string :=
  Py.join tab row +:+ newline.

Definition no_tab (s : string) : bool :=
  all_chars (fun c => negb (Ascii.eqb c "009")) s.

(** A row whose line is read back as the same fields: it has at least one
    field, no field contains a tab, and its last field is not empty and
    does not end with a blank. *)
Definition clean_row (row : list string) : Prop :=
  Forall (fun f => no_tab f = true) row
  /\ exists l, last row = Some l /\ l <> "" /\ Py.rstrip l = l.

(** What lines 64-68 keep of a row of the accepted-decisions file. *)
Definition accepted_of_row (row : list string) : option (string * string) :=
  match last row, row with
  | Some decision, id :: title :: _ =>
      if String.eqb decision "ACCEPT" then Some (id, title) else None
  | _, _ => None
  end.

(** Console output, as opposed to an action on the file system. *)
Definition is_print (e : event) : bool :=
  match e with
  | Stdout _ | Stderr _ => true
  | MakeDirs _ | CopyFile _ _ | WriteFile _ _ => false
  end.

(** Between [w] and [w'] the script has only printed: the same paths exist
    and the actions added are console output. *)
Definition only_printed (w w' : world) : Prop :=
  paths w' = paths w
  /\ exists evs, trace w' = trace w ++ evs
                 /\ Forall (fun e => is_print e = true) evs.

(** How a computation failed, if it did: the status of [sys.exit] or the
    uncaught exception. *)
Definition failure {A : Type} (r : result A) : option (Z + exn) :=
  match r with
  | Ret _ => None
  | Exit c => Some (inl c)
  | Raise e => Some (inr e)
  end.

(** A step that only prints, and that calls [sys.exit] with status 1 if it
    calls it at all. *)
Definition tame {A : Type} (m : M A) : Prop :=
  forall w r w',
    m w = (r, w') ->
    only_printed w w' /\ forall c, failure r = Some (inl c) -> c = 1%Z.

(** The entry lines 165-181 build for a paper, given the values of
    [metadata] it uses and the paper's abstract, if the table has one. *)
Definition expected_entry (unicode_to_tex : string -> string)
    (year month location publisher booktitle : string)
    (abstract : option (option string)) (entry : submission) : Entry :=
  {| bib_type := if String.eqb entry.1.1 "0" then "proceedings"
                 else "inproceedings";
     bib_fields :=
       [("author", Some (texify unicode_to_tex (Py.join " and " entry.2)));
        ("title", Some entry.1.2);
        ("year", Some year);
        ("month", Some month);
        ("address", Some location);
        ("publisher", Some publisher)]
       ++ match abstract with Some a => [("abstract", a)] | None => [] end
       ++ (if String.eqb entry.1.1 "0" then []
           else [("booktitle", Some booktitle)]) |}.

(** A row of [submission.csv] that has both columns the script reads. *)
Definition complete_row (row : gmap string (option string)) : Prop :=
  is_Some (row !! "#") /\ is_Some (row !! "abstract").

(** The two directories of lines 133-136. *)
Definition bib_dir : string := "proceedings/cdrom/bib".
Definition pdf_dir : string := "proceedings/cdrom/pdf".



(* ===================================================================== *)
(** * Part II: properties                                                 *)
(* ===================================================================== *)

(** ** The joiner (lines 120-126) *)

Lemma first_match_agrees a subs s :
  first_match a subs = Some s -> agrees a s.
Proof.
  induction subs as [|s0 rest IH]; simpl; [discriminate|].
  destruct (String.eqb_spec s0.1.1 a.1) as [E1|N1]; simpl.
  - destruct (String.eqb_spec s0.1.2 a.2) as [E2|N2]; [|exact IH].
    intros [= <-]. split; assumption.
  - exact IH.
Qed.

Lemma first_match_Some_iff a subs s :
  first_match a subs = Some s <->
  exists pre post, subs = pre ++ s :: post /\ agrees a s /\
                   Forall (fun s' => ~ agrees a s') pre.
Proof.
  split.
  - induction subs as [|s0 rest IH]; simpl; [discriminate|].
    destruct (String.eqb_spec s0.1.1 a.1) as [E1|N1]; simpl;
      [destruct (String.eqb_spec s0.1.2 a.2) as [E2|N2]|].
    + intros [= <-]. exists [], rest. repeat split; auto.
    + intros H. destruct (IH H) as (pre & post & -> & Ha & Hpre).
      exists (s0 :: pre), post. repeat split; try apply Ha.
      constructor; [|exact Hpre]. intros [_ ?]. contradiction.
    + intros H. destruct (IH H) as (pre & post & -> & Ha & Hpre).
      exists (s0 :: pre), post. repeat split; try apply Ha.
      constructor; [|exact Hpre]. intros [? _]. contradiction.
  - intros (pre & post & -> & [H1 H2] & Hpre).
    induction Hpre as [|s0 pre Hs0 _ IH]; simpl.
    + rewrite H1, H2, !String.eqb_refl. reflexivity.
    + destruct (String.eqb_spec s0.1.1 a.1) as [E1|N1]; simpl; [|exact IH].
      destruct (String.eqb_spec s0.1.2 a.2) as [E2|N2]; [|exact IH].
      exfalso. apply Hs0. split; assumption.
Qed.

Lemma first_match_None_iff a subs :
  first_match a subs = None <-> Forall (fun s' => ~ agrees a s') subs.
Proof.
  induction subs as [|s0 rest IH]; simpl.
  - split; [constructor|reflexivity].
  - destruct (String.eqb_spec s0.1.1 a.1) as [E1|N1]; simpl;
      [destruct (String.eqb_spec s0.1.2 a.2) as [E2|N2]|].
    + split; [discriminate|]. intros H. inversion H as [|? ? Hs0 _]; subst.
      exfalso. apply Hs0. split; assumption.
    + rewrite IH. split; [|intros H; inversion H; assumption].
      intros H. constructor; [|exact H]. intros [_ ?]. contradiction.
    + rewrite IH. split; [|intros H; inversion H; assumption].
      intros H. constructor; [|exact H]. intros [? _]. contradiction.
Qed.

Lemma final_papers_foldl subs accepted init :
  foldl (fun final a =>
           match first_match a subs with
           | Some s => final ++ [s]
           | None => final
           end) init accepted
  = init ++ omap (fun a => first_match a subs) accepted.
Proof.
  revert init. induction accepted as [|a rest IH]; intros init; simpl.
  - symmetry. apply app_nil_r.
  - rewrite IH. destruct (first_match a subs) as [s|]; [|reflexivity].
    rewrite <- app_assoc. reflexivity.
Qed.

Lemma final_papers_eq booktitle chairs accepted subs :
  final_papers booktitle chairs accepted subs
  = ("0", booktitle, chairs) :: omap (fun a => first_match a subs) accepted.
Proof. unfold final_papers. rewrite final_papers_foldl. reflexivity. Qed.

(** ** Strings *)

Lemma app_cons c s t : String c s +:+ t = String c (s +:+ t).
Proof. reflexivity. Qed.

Lemma app_empty_r s : s +:+ "" = s.
Proof. induction s as [|c s IH]; [reflexivity|]. rewrite app_cons, IH. reflexivity. Qed.

Lemma app_assoc_s s t u : (s +:+ t) +:+ u = s +:+ (t +:+ u).
Proof.
  induction s as [|c s IH]; [reflexivity|]. rewrite !app_cons, IH. reflexivity.
Qed.

Lemma prefix_cons_ne a p c s :
  a <> c -> String.prefix (String a p) (String c s) = false.
Proof.
  intros H. change (String.prefix (String a p) (String c s))
    with (if ascii_dec a c then String.prefix p s else false).
  destruct (ascii_dec a c); [contradiction|reflexivity].
Qed.

Lemma prefix_cons_eq a p s :
  String.prefix (String a p) (String a s) = String.prefix p s.
Proof.
  change (String.prefix (String a p) (String a s))
    with (if ascii_dec a a then String.prefix p s else false).
  destruct (ascii_dec a a); [reflexivity|contradiction].
Qed.

Lemma length_app_s s t :
  String.length (s +:+ t) = String.length s + String.length t.
Proof.
  induction s as [|c s IH]; [reflexivity|]. rewrite app_cons. simpl. rewrite IH.
  reflexivity.
Qed.

(** ** Tokens and blanks (lines 28 and 37) *)

Lemma split_space c s : Py.isspace c = true -> Py.split (String c s) = Py.split s.
Proof. intros H. simpl. rewrite H. reflexivity. Qed.

Lemma split_nonspace c s :
  Py.isspace c = false ->
  Py.split (String c s) = (Py.span_token (String c s)).1 :: Py.split (Py.span_token (String c s)).2.
Proof.
  revert c. induction s as [|c' s IH]; intros c Hc.
  - simpl. rewrite Hc. reflexivity.
  - change (Py.split (String c (String c' s)))
      with (if Py.isspace c then Py.split (String c' s)
            else if Py.isspace c' then String c "" :: Py.split (String c' s)
                 else Py.cons_head c (Py.split (String c' s))).
    change (Py.span_token (String c (String c' s)))
      with (if Py.isspace c then ("", String c (String c' s))
            else let (t, r) := Py.span_token (String c' s) in (String c t, r)).
    rewrite Hc. destruct (Py.isspace c') eqn:Hc'.
    + cbn [Py.span_token]. rewrite Hc'. reflexivity.
    + rewrite (IH c' Hc'). destruct (Py.span_token (String c' s)) as [t r].
      reflexivity.
Qed.

Lemma lstrip_head s c r : Py.lstrip s = String c r -> Py.isspace c = false.
Proof.
  induction s as [|c0 s IH]; simpl; [discriminate|].
  destruct (Py.isspace c0) eqn:H0; [exact IH|]. intros [= <- <-]. exact H0.
Qed.

Lemma split_lstrip s : Py.split (Py.lstrip s) = Py.split s.
Proof.
  induction s as [|c s IH]; [reflexivity|].
  simpl Py.lstrip. destruct (Py.isspace c) eqn:Hc; [|reflexivity].
  rewrite (split_space c s Hc). exact IH.
Qed.

Lemma rstrip_head s c r : Py.rstrip s = String c r -> exists t, s = String c t.
Proof.
  destruct s as [|c0 s]; simpl; [discriminate|].
  destruct (Py.rstrip s); [destruct (Py.isspace c0)|]; intros [= <- <-] || intros [=];
    eexists; reflexivity.
Qed.

Lemma split_rstrip s : Py.split (Py.rstrip s) = Py.split s.
Proof.
  induction s as [|c s IH]; [reflexivity|].
  simpl Py.rstrip. destruct (Py.rstrip s) as [|c2 r2] eqn:Hr.
  - simpl in IH. destruct (Py.isspace c) eqn:Hc.
    + rewrite (split_space c s Hc). exact IH.
    + simpl. rewrite Hc. destruct s as [|c' s']; [reflexivity|].
      rewrite <- IH. destruct (Py.isspace c'); reflexivity.
  - destruct (rstrip_head _ _ _ Hr) as [t ->].
    destruct (Py.isspace c) eqn:Hc.
    + rewrite !(split_space c _ Hc). exact IH.
    + change (Py.split (String c (String c2 r2)))
        with (if Py.isspace c then Py.split (String c2 r2)
              else if Py.isspace c2 then String c "" :: Py.split (String c2 r2)
                   else Py.cons_head c (Py.split (String c2 r2))).
      change (Py.split (String c (String c2 t)))
        with (if Py.isspace c then Py.split (String c2 t)
              else if Py.isspace c2 then String c "" :: Py.split (String c2 t)
                   else Py.cons_head c (Py.split (String c2 t))).
      rewrite IH. reflexivity.
Qed.

Lemma split_max1_length s :
  length (Py.split_max1 s) = Nat.min 2 (length (Py.split s)).
Proof.
  unfold Py.split_max1. rewrite <- (split_lstrip s).
  destruct (Py.lstrip s) as [|c s1] eqn:Hs; [reflexivity|].
  rewrite (split_nonspace c s1 (lstrip_head _ _ _ Hs)).
  destruct (Py.span_token (String c s1)) as [t r]. simpl fst. simpl snd.
  rewrite <- (split_lstrip r).
  destruct (Py.lstrip r) as [|c2 r2] eqn:Hr; [reflexivity|].
  rewrite (split_nonspace c2 r2 (lstrip_head _ _ _ Hr)). reflexivity.
Qed.

(** ** Sequencing *)

Lemma bind_ret {A B} (m : M A) (f : A -> M B) w a w' :
  m w = (Ret a, w') -> (m ≫= f) w = f a w'.
Proof. intros H. unfold mbind, M_bind. rewrite H. reflexivity. Qed.

Lemma bind_exit {A B} (m : M A) (f : A -> M B) w c w' :
  m w = (Exit c, w') -> (m ≫= f) w = (Exit c, w').
Proof. intros H. unfold mbind, M_bind. rewrite H. reflexivity. Qed.

Lemma bind_raise {A B} (m : M A) (f : A -> M B) w e w' :
  m w = (Raise e, w') -> (m ≫= f) w = (Raise e, w').
Proof. intros H. unfold mbind, M_bind. rewrite H. reflexivity. Qed.

Lemma foldM_cons {A S} (body : S -> A -> M S) x l s w :
  foldM body (x :: l) s w
  = match body s x w with
    | (Ret s1, w1) => foldM body l s1 w1
    | (Exit c, w1) => (Exit c, w1)
    | (Raise e, w1) => (Raise e, w1)
    end.
Proof. reflexivity. Qed.

(** ** The metadata loader (lines 34-41) *)

Lemma metadata_line_ok md line w :
  2 <= length (Py.split line) ->
  exists md', metadata_line md line w = (Ret md', w).
Proof.
  intros H. unfold metadata_line.
  pose proof (split_max1_length (Py.rstrip line)) as L.
  rewrite split_rstrip, Nat.min_l in L by exact H.
  destruct (Py.split_max1 (Py.rstrip line)) as [|key [|value [|? ?]]];
    try discriminate L.
  destruct (String.eqb key "chairs"); eexists; reflexivity.
Qed.

Lemma metadata_line_short md line w :
  length (Py.split line) < 2 ->
  metadata_line md line w = (Raise ValueError, w).
Proof.
  intros H. unfold metadata_line.
  pose proof (split_max1_length (Py.rstrip line)) as L.
  rewrite split_rstrip, Nat.min_r in L by lia.
  destruct (Py.split_max1 (Py.rstrip line)) as [|key [|value [|? ?]]];
    try reflexivity; simpl in L; lia.
Qed.

Lemma read_lines_ok lines : forall md w,
  Forall (fun line => 2 <= length (Py.split line)) lines ->
  exists md', foldM metadata_line lines md w = (Ret md', w).
Proof.
  induction lines as [|line rest IH]; intros md w H.
  - exists md. reflexivity.
  - inversion H as [|? ? Hl Hrest]; subst.
    destruct (metadata_line_ok md line w Hl) as [md1 E1].
    destruct (IH md1 w Hrest) as [md2 E2].
    exists md2. simpl. unfold mbind, M_bind. rewrite E1. exact E2.
Qed.

Lemma read_lines_short lines : forall md w,
  Exists (fun line => length (Py.split line) < 2) lines ->
  foldM metadata_line lines md w = (Raise ValueError, w).
Proof.
  induction lines as [|line rest IH]; intros md w H.
  - inversion H.
  - simpl. unfold mbind, M_bind.
    destruct (le_lt_dec 2 (length (Py.split line))) as [Hl|Hl].
    + destruct (metadata_line_ok md line w Hl) as [md1 E1]. rewrite E1.
      apply IH. inversion H as [? ? Hs|? ? Hs]; subst; [lia|exact Hs].
    + rewrite (metadata_line_short md line w Hl). reflexivity.
Qed.

(** C10.  The metadata loader returns a metadata record exactly when every
    line of [meta] has at least two blank-separated tokens.  When some line
    has fewer (a blank line, a key without a value), unpacking the line into
    [key, value] raises [ValueError]: the loader, and with it the whole run,
    ends by that uncaught exception with nothing printed, so the check of the
    required keys and its fatal message are never reached. *)
Theorem metadata_loader_needs_two_tokens :
  forall unicode_to_tex to_bibtex inp lines,
    meta_file inp = Some lines ->
    (Forall (fun line => 2 <= length (Py.split line)) lines ->
     exists md, read_metadata inp (init inp) = (Ret md, init inp))
    /\ (Exists (fun line => length (Py.split line) < 2) lines ->
        read_metadata inp (init inp) = (Raise ValueError, init inp)
        /\ run unicode_to_tex to_bibtex inp = (Raise ValueError, init inp)).
Proof.
  intros u2t tb inp lines Hm. split.
  - intros H. unfold read_metadata. rewrite Hm.
    apply (read_lines_ok lines _ (init inp) H).
  - intros H.
    assert (E : read_metadata inp (init inp) = (Raise ValueError, init inp)).
    { unfold read_metadata. rewrite Hm.
      apply (read_lines_short lines _ (init inp) H). }
    split; [exact E|].
    unfold run, script. apply bind_raise. unfold load. apply bind_raise.
    exact E.
Qed.

Lemma metadata_loader_needs_two_tokens_witness :
  (exists md, read_metadata sample (init sample) = (Ret md, init sample))
  /\ run sample_unicode_to_tex sample_to_bibtex sample_blank_line
     = (Raise ValueError, init sample_blank_line).
Proof.
  split.
  - apply (metadata_loader_needs_two_tokens sample_unicode_to_tex
             sample_to_bibtex sample sample_meta eq_refl).
    unfold sample_meta. simpl map.
    repeat (constructor; [vm_compute; lia|]). constructor.
  - apply (metadata_loader_needs_two_tokens sample_unicode_to_tex
             sample_to_bibtex sample_blank_line (sample_meta ++ [newline])
             eq_refl).
    apply Exists_app. right. apply Exists_cons_hd. vm_compute. lia.
Defined.

(** ** Author-string escaping (lines 23-28) *)

Lemma all_chars_impl (p q : ascii -> bool) s :
  (forall c, p c = true -> q c = true) ->
  all_chars p s = true -> all_chars q s = true.
Proof.
  intros Hpq. induction s as [|c s IH]; simpl; [reflexivity|].
  rewrite !andb_true_iff. intros [Hc Hs]. auto.
Qed.


Lemma token_of_nonspace safe t :
  token_of safe t = true -> all_chars (fun c => negb (Py.isspace c)) t = true.
Proof.
  unfold token_of. rewrite andb_true_iff. intros [_ H].
  revert H. apply all_chars_impl. intros c. rewrite andb_true_iff. tauto.
Qed.

Lemma token_of_safe safe t :
  token_of safe t = true -> all_chars safe t = true.
Proof.
  unfold token_of. rewrite andb_true_iff. intros [_ H].
  revert H. apply all_chars_impl. intros c. rewrite andb_true_iff. tauto.
Qed.


Lemma span_token_app t c r :
  all_chars (fun c => negb (Py.isspace c)) t = true ->
  Py.isspace c = true ->
  Py.span_token (t +:+ String c r) = (t, String c r).
Proof.
  intros Ht Hc. induction t as [|a t IH].
  - simpl. rewrite Hc. reflexivity.
  - simpl in Ht. apply andb_true_iff in Ht as [Ha Ht].
    apply negb_true_iff in Ha. rewrite app_cons. simpl. rewrite Ha, (IH Ht).
    reflexivity.
Qed.







(** ** The PDF registry (lines 114-117) *)

Lemma pdfs_snoc frontmatter found f :
  pdfs frontmatter (found ++ [f])
  = <[paper_pdf_id f := f]> (pdfs frontmatter found).
Proof. unfold pdfs. rewrite foldl_app. reflexivity. Qed.

Lemma pdfs_lookup_other frontmatter found k :
  Forall (fun g => paper_pdf_id g <> k) found ->
  pdfs frontmatter found !! k = ({[ "0" := frontmatter ]} : gmap string string) !! k.
Proof.
  induction found as [|g found IH] using rev_ind; intros H; [reflexivity|].
  apply Forall_app in H as [H1 H2]. inversion H2 as [|? ? Hg _]; subst.
  rewrite pdfs_snoc, lookup_insert_ne by exact Hg. apply IH. exact H1.
Qed.

Lemma pdfs_lookup_last frontmatter pre f post :
  Forall (fun g => paper_pdf_id g <> paper_pdf_id f) post ->
  pdfs frontmatter (pre ++ f :: post) !! paper_pdf_id f = Some f.
Proof.
  induction post as [|g post IH] using rev_ind; intros H.
  - rewrite pdfs_snoc. apply lookup_insert_eq.
  - apply Forall_app in H as [H1 H2]. inversion H2 as [|? ? Hg _]; subst.
    change (pre ++ f :: post ++ [g]) with (pre ++ (f :: post) ++ [g]).
    rewrite app_assoc, pdfs_snoc, lookup_insert_ne by exact Hg.
    apply IH. exact H1.
Qed.

Lemma split_at_last_with (k : string) found :
  Exists (fun g => paper_pdf_id g = k) found ->
  exists pre f post, found = pre ++ f :: post /\ paper_pdf_id f = k /\
                     Forall (fun g => paper_pdf_id g <> k) post.
Proof.
  induction found as [|g found IH]; intros H; [inversion H|].
  destruct (decide (Exists (fun g => paper_pdf_id g = k) found)) as [Hin|Hout].
  - destruct (IH Hin) as (pre & f & post & -> & Hf & Hpost).
    exists (g :: pre), f, post. repeat split; assumption.
  - exists [], g, found. split; [reflexivity|]. split.
    + apply Exists_cons in H as [Hg|Hg]; [exact Hg|contradiction].
    + apply Forall_forall. intros x Hx Hk. apply Hout.
      apply Exists_exists. exists x. split; assumption.
Qed.

(** ** The emitter loop (lines 142-191) *)

Ltac run_m :=
  cbv [mbind M_bind mret M_ret copy emit add_paths print print_stderr
       path_exists makedirs write_file sys_exit raise];
  cbn [trace paths fst snd].

Lemma extends_refl w : extends w w.
Proof. split; [exists []; symmetry; apply app_nil_r|reflexivity]. Qed.

Lemma extends_trans w1 w2 w3 : extends w1 w2 -> extends w2 w3 -> extends w1 w3.
Proof.
  intros [[e1 H1] P1] [[e2 H2] P2]. split.
  - exists (e1 ++ e2). rewrite H2, H1, app_assoc. reflexivity.
  - etransitivity; eassumption.
Qed.

Ltac solve_extends :=
  split;
  [ cbn [trace]; rewrite <- ?app_assoc;
    first [ eexists; reflexivity | exists []; symmetry; apply app_nil_r ]
  | cbn [paths]; set_solver ].

Section Emitter.

Variable unicode_to_tex : string -> string.
Variable to_bibtex : string -> Entry -> encoded.
Variable md : Metadata.
Variable anth : Anthology.
Variable abstracts : gmap (option string) (option string).
Variable registry : gmap string string.

Abbreviation emit_one := (emit_paper unicode_to_tex to_bibtex md anth abstracts registry).

Lemma emit_paper_missing n bibs entry w :
  registry !! entry.1.1 = None ->
  emit_one (n, bibs) entry w
  = (Exit 1%Z, {| trace := trace w ++ [no_pdf_message n]; paths := paths w |}).
Proof. intros H. unfold emit_paper. rewrite H. reflexivity. Qed.

Lemma emit_paper_ok n bibs entry w pdf fid e bib_string :
  registry !! entry.1.1 = Some pdf ->
  Py.format_0d (anthology_paper_width anth) n = Some fid ->
  bib_entry unicode_to_tex md abstracts entry = Some e ->
  to_bibtex (anthology_id (dest_path anth fid)) e = Encoded bib_string ->
  exists w',
    emit_one (n, bibs) entry w = (Ret (S n, bibs ++ [bib_string]), w')
    /\ trace w'
       = trace w
         ++ paper_events pdf (dest_path anth fid) bib_string
              (bool_decide (Py.dirname (bib_path (dest_path anth fid))
                              ∈ list_to_set [dest_path anth fid] ∪ paths w))
    /\ paths w ⊆ paths w'.
Proof.
  intros Hp Hf He Hb. unfold emit_paper. rewrite Hp, Hf. run_m.
  destruct (bool_decide _) eqn:Hd; run_m; rewrite He, Hb; run_m;
    (eexists; split; [reflexivity|]); cbn [trace paths]; unfold paper_events;
    (split; [rewrite <- !app_assoc; reflexivity|set_solver]).
Qed.

Lemma emit_paper_extends st entry w r w' :
  emit_one st entry w = (r, w') -> extends w w'.
Proof.
  destruct st as [n bibs]. unfold emit_paper.
  destruct (registry !! entry.1.1) as [pdf|].
  2:{ run_m. intros [= <- <-]. solve_extends. }
  destruct (Py.format_0d _ n) as [fid|].
  2:{ run_m. intros [= <- <-]. apply extends_refl. }
  run_m.
  destruct (bool_decide _); run_m;
    (destruct (bib_entry _ _ _ _) as [e|];
     [destruct (to_bibtex _ e) as [txt|[]]|]); run_m;
    intros [= <- <-]; solve_extends.
Qed.

Lemma foldM_extends {A S} (body : S -> A -> M S) :
  (forall s x w r w', body s x w = (r, w') -> extends w w') ->
  forall l s w r w', foldM body l s w = (r, w') -> extends w w'.
Proof.
  intros Hb l. induction l as [|x l IH]; intros s w r w' H.
  - injection H as <- <-. apply extends_refl.
  - simpl in H. unfold mbind, M_bind in H.
    destruct (body s x w) as [[s1|c|e] w1] eqn:E.
    + eapply extends_trans; [eapply Hb; exact E|eapply IH; exact H].
    + injection H as <- <-. eapply Hb. exact E.
    + injection H as <- <-. eapply Hb. exact E.
Qed.

Lemma emit_paper_first_event st entry w pdf fid r w' :
  registry !! entry.1.1 = Some pdf ->
  Py.format_0d (anthology_paper_width anth) st.1 = Some fid ->
  emit_one st entry w = (r, w') ->
  exists evs, trace w' = trace w ++ CopyFile pdf (dest_path anth fid) :: evs.
Proof.
  destruct st as [n bibs]. intros Hp Hf. unfold emit_paper.
  simpl in Hf. rewrite Hp, Hf. run_m.
  destruct (bool_decide _); run_m;
    (destruct (bib_entry _ _ _ _) as [e|];
     [destruct (to_bibtex _ e) as [txt|[]]|]); run_m;
    intros [= <- <-]; cbn [trace]; rewrite <- ?app_assoc; eexists; reflexivity.
Qed.

Lemma emit_paper_exit st entry w c w' :
  emit_one st entry w = (Exit c, w') -> c = 1%Z.
Proof.
  destruct st as [n bibs]. unfold emit_paper.
  destruct (registry !! entry.1.1) as [pdf|]; [|run_m; congruence].
  destruct (Py.format_0d _ n) as [fid|]; [|run_m; congruence].
  run_m.
  destruct (bool_decide _); run_m;
    (destruct (bib_entry _ _ _ _) as [e|];
     [destruct (to_bibtex _ e) as [txt|[]]|]); run_m; congruence.
Qed.

Lemma emit_paper_ret st entry w st' w' :
  emit_one st entry w = (Ret st', w') ->
  st'.1 = S st.1 /\ length st'.2 = S (length st.2)
  /\ is_Some (registry !! entry.1.1).
Proof.
  destruct st as [n bibs]. unfold emit_paper.
  destruct (registry !! entry.1.1) as [pdf|]; [|run_m; congruence].
  destruct (Py.format_0d _ n) as [fid|]; [|run_m; congruence].
  run_m.
  destruct (bool_decide _); run_m;
    (destruct (bib_entry _ _ _ _) as [e|];
     [destruct (to_bibtex _ e) as [txt|[]]|]); run_m; try congruence;
    intros [= <- <-]; cbn [fst snd]; rewrite length_app; simpl;
    (split; [reflexivity|split; [lia|eexists; reflexivity]]).
Qed.

Lemma foldM_app {A S} (body : S -> A -> M S) l1 l2 s w :
  foldM body (l1 ++ l2) s w
  = match foldM body l1 s w with
    | (Ret s1, w1) => foldM body l2 s1 w1
    | (Exit c, w1) => (Exit c, w1)
    | (Raise e, w1) => (Raise e, w1)
    end.
Proof.
  revert s w. induction l1 as [|x l1 IH]; intros s w; [reflexivity|].
  simpl. unfold mbind, M_bind.
  destruct (body s x w) as [[s1|c|e] w1]; [apply IH|reflexivity..].
Qed.

Lemma emit_papers_exit l st w c w' :
  foldM emit_one l st w = (Exit c, w') -> c = 1%Z.
Proof.
  revert st w. induction l as [|x l IH]; intros st w; simpl; [discriminate|].
  unfold mbind, M_bind.
  destruct (emit_one st x w) as [[s1|c1|e] w1] eqn:E; [apply IH| |discriminate].
  intros [= <- <-]. eapply emit_paper_exit. exact E.
Qed.

Lemma emit_papers_ret l st w st' w' :
  foldM emit_one l st w = (Ret st', w') ->
  st'.1 = st.1 + length l /\ length st'.2 = length st.2 + length l
  /\ Forall (fun entry => is_Some (registry !! entry.1.1)) l.
Proof.
  revert st w. induction l as [|x l IH]; intros st w; simpl.
  - intros [= <- <-]. repeat split; [lia..|constructor].
  - unfold mbind, M_bind.
    destruct (emit_one st x w) as [[s1|c1|e] w1] eqn:E; [|discriminate..].
    intros H. destruct (IH _ _ H) as (H1 & H2 & H3).
    destruct (emit_paper_ret _ _ _ _ _ E) as (E1 & E2 & E3).
    repeat split; [lia..|constructor; assumption].
Qed.

End Emitter.

(** C9.  The registry is seeded with the frontmatter PDF under "0" before
    the per-paper PDFs are entered, and a later entry under the same key
    replaces an earlier one.  So when [glob] returns a file whose extracted
    id is "0" (such as [pdf/X_2019_paper_0.pdf]), the registry maps "0" to
    the last such file, and the first action of the emitter loop, which is
    the copy for output identifier 0, takes that per-paper file as its
    source rather than the frontmatter PDF. *)
Theorem paper_pdf_zero_replaces_frontmatter :
  forall unicode_to_tex to_bibtex md anth abstracts frontmatter found
         booktitle chairs accepted subs fid w,
    Exists (fun g => paper_pdf_id g = "0") found ->
    Py.format_0d (anthology_paper_width anth) 0 = Some fid ->
    pdfs frontmatter [] !! "0" = Some frontmatter
    /\ paper_pdf_id "pdf/X_2019_paper_0.pdf" = "0"
    /\ exists pre f post,
         found = pre ++ f :: post /\ paper_pdf_id f = "0"
         /\ Forall (fun g => paper_pdf_id g <> "0") post
         /\ pdfs frontmatter found !! "0" = Some f
         /\ exists r w' evs,
              foldM (emit_paper unicode_to_tex to_bibtex md anth abstracts
                       (pdfs frontmatter found))
                    (final_papers booktitle chairs accepted subs) (0, []) w
              = (r, w')
              /\ trace w' = trace w ++ CopyFile f (dest_path anth fid) :: evs.
Proof.
  intros u2t tb md anth abs front found bt ch acc subs fid w Hex Hf.
  split; [reflexivity|]. split; [reflexivity|].
  destruct (split_at_last_with "0" found Hex) as (pre & f & post & -> & Hid & Hpost).
  exists pre, f, post. split; [reflexivity|]. split; [exact Hid|].
  split; [exact Hpost|].
  assert (Hreg : pdfs front (pre ++ f :: post) !! "0" = Some f).
  { pose proof (pdfs_lookup_last front pre f post) as H.
    rewrite Hid in H. apply H. exact Hpost. }
  split; [exact Hreg|].
  rewrite final_papers_eq, foldM_cons.
  set (reg := pdfs front (pre ++ f :: post)) in *.
  destruct (emit_paper u2t tb md anth abs reg (0, []) ("0", bt, ch) w)
    as [r1 w1] eqn:E.
  destruct (emit_paper_first_event u2t tb md anth abs reg (0, []) ("0", bt, ch)
              w f fid r1 w1 Hreg Hf E) as [evs1 Ht1].
  destruct r1 as [st1|c|e].
  - destruct (foldM (emit_paper u2t tb md anth abs reg)
                (omap (fun a => first_match a subs) acc) st1 w1)
      as [r2 w2] eqn:E2.
    exists r2, w2.
    destruct (foldM_extends _ (emit_paper_extends u2t tb md anth abs reg)
                _ _ _ _ _ E2) as [[evs2 Ht2] _].
    exists (evs1 ++ evs2). split; [reflexivity|].
    rewrite Ht2, Ht1, <- app_assoc. reflexivity.
  - exists (Exit c), w1, evs1. split; [reflexivity|exact Ht1].
  - exists (Raise e), w1, evs1. split; [reflexivity|exact Ht1].
Qed.

Lemma paper_pdf_zero_replaces_frontmatter_witness :
  pdfs "pdf/X_2019_frontmatter.pdf"
       ["pdf/X_2019_paper_0.pdf"; "pdf/X_2019_paper_1.pdf"] !! "0"
  = Some "pdf/X_2019_paper_0.pdf".
Proof.
  destruct (paper_pdf_zero_replaces_frontmatter
              sample_unicode_to_tex sample_to_bibtex
              {| chairs := []; fields := ∅ |}
              {| anthology_collection := "W"; anthology_year := "19";
                 anthology_volume := "0"; anthology_paper_width := "2" |}
              ∅ "pdf/X_2019_frontmatter.pdf"
              ["pdf/X_2019_paper_0.pdf"; "pdf/X_2019_paper_1.pdf"]
              "B" [] [] [] "00" {| trace := []; paths := ∅ |})
    as (_ & _ & pre & f & post & Hsplit & Hid & Hpost & Hreg & _).
  - apply Exists_cons_hd. reflexivity.
  - reflexivity.
  - reflexivity.
Defined.

(** C3.  When an entry of the final-paper list has no PDF in the registry,
    the loop never completes.  If the entries before it are processed
    without failure, the run stops at it: the only thing done for it is the
    message [Fatal: no PDF found for paper n] on the error stream, followed
    by [sys.exit(1)], so its PDF is not copied and its record is not written.
    The run of the whole script then ends with status 1 or by an exception,
    and never reaches the volume bibliography.  The frontmatter entry always
    has a PDF in the registry, which is seeded with it. *)
Theorem missing_pdf_is_fatal :
  forall unicode_to_tex to_bibtex,
    (forall md anth abstracts registry pre entry post st w,
       registry !! entry.1.1 = None ->
       foldM (emit_paper unicode_to_tex to_bibtex md anth abstracts registry)
             (pre ++ entry :: post) st w
       = match foldM (emit_paper unicode_to_tex to_bibtex md anth abstracts
                        registry) pre st w with
         | (Ret (n, _), w1) =>
             (Exit 1%Z, {| trace := trace w1 ++ [no_pdf_message n];
                           paths := paths w1 |})
         | (Exit c, w1) => (Exit 1%Z, w1)
         | (Raise e, w1) => (Raise e, w1)
         end)
    /\ (forall inp l w1,
          load inp (init inp) = (Ret l, w1) ->
          Exists (fun entry => registry l !! entry.1.1 = None) (final l) ->
          exists w2,
            (run unicode_to_tex to_bibtex inp = (Exit 1%Z, w2)
             /\ emit_papers unicode_to_tex to_bibtex l w1 = (Exit 1%Z, w2))
            \/ (exists e,
                  run unicode_to_tex to_bibtex inp = (Raise e, w2)
                  /\ emit_papers unicode_to_tex to_bibtex l w1 = (Raise e, w2)))
    /\ (forall frontmatter found, is_Some (pdfs frontmatter found !! "0")).
Proof.
  intros u2t tb. split; [|split].
  - intros md anth abs reg pre entry post st w Hnone.
    rewrite foldM_app.
    destruct (foldM (emit_paper u2t tb md anth abs reg) pre st w)
      as [[[n bibs]|c|e] w1] eqn:E.
    + rewrite foldM_cons.
      rewrite (emit_paper_missing u2t tb md anth abs reg n bibs entry w1 Hnone).
      reflexivity.
    + rewrite (emit_papers_exit u2t tb md anth abs reg _ _ _ _ _ E). reflexivity.
    + reflexivity.
  - intros inp l w1 Hl Hex. unfold run, script.
    rewrite (bind_ret _ _ _ _ _ Hl).
    destruct (emit_papers u2t tb l w1) as [[st|c|e] w2] eqn:E.
    + exfalso. unfold emit_papers in E.
      destruct (emit_papers_ret u2t tb _ _ _ _ _ _ _ _ _ E) as (_ & _ & Hall).
      apply Exists_exists in Hex as (entry & Hin & Hnone).
      rewrite Forall_forall in Hall. destruct (Hall entry Hin) as [pdf Hpdf].
      congruence.
    + unfold emit_papers in E.
      pose proof (emit_papers_exit u2t tb _ _ _ _ _ _ _ _ _ E) as ->.
      exists w2. left. split; [|reflexivity].
      apply bind_exit. exact E.
    + exists w2. right. exists e. split; [|reflexivity].
      apply bind_raise. exact E.
  - intros front found.
    destruct (decide (Exists (fun g => paper_pdf_id g = "0") found)) as [Hex|Hno].
    + destruct (split_at_last_with "0" found Hex) as (pre & f & post & -> & Hid & Hpost).
      exists f. pose proof (pdfs_lookup_last front pre f post) as H.
      rewrite Hid in H. apply H. exact Hpost.
    + exists front. rewrite pdfs_lookup_other; [reflexivity|].
      apply Forall_forall. intros g Hg Hk. apply Hno. apply Exists_exists.
      exists g. split; assumption.
Qed.

Lemma missing_pdf_is_fatal_witness :
  exists w2,
    run sample_unicode_to_tex sample_to_bibtex sample_missing_pdf
    = (Exit 1%Z, w2)
    /\ last (trace w2) = Some (no_pdf_message 1).
Proof.
  destruct (missing_pdf_is_fatal sample_unicode_to_tex sample_to_bibtex)
    as (Hloop & Hrun & _).
  destruct (Hrun sample_missing_pdf sample_missing_pdf_loaded sample_world)
    as (w2 & [[H1 H2]|(e & H1 & H2)]).
  - vm_compute. reflexivity.
  - apply Exists_cons_tl, Exists_cons_hd. vm_compute. reflexivity.
  - exists w2. split; [exact H1|]. vm_compute in H2. injection H2 as <-.
    vm_compute. reflexivity.
  - exfalso. vm_compute in H2. discriminate H2.
Defined.

(** ** The pattern of [bib_url] (line 48) *)

Lemma pushes_closed p cl :
  pushes p {| Re.closed := cl; Re.cur := None |}
  = {| Re.closed := cl; Re.cur := None |}.
Proof. induction p as [|c p IH]; [reflexivity|exact IH]. Qed.

Lemma pushes_open p cl g :
  pushes p {| Re.closed := cl; Re.cur := Some g |}
  = {| Re.closed := cl; Re.cur := Some (g +:+ p) |}.
Proof.
  revert g. induction p as [|c p IH]; intros g; simpl.
  - rewrite app_empty_r. reflexivity.
  - unfold Re.push at 1. cbn [Re.cur Re.closed]. rewrite IH, app_assoc_s.
    reflexivity.
Qed.

Lemma rmatch_chr a re st s l :
  Re.rmatch_from (Re.Chr a :: re) st s = Some l ->
  exists s', s = String a s' /\ Re.rmatch_from re (Re.push a st) s' = Some l.
Proof.
  destruct s as [|c s']; simpl; [discriminate|].
  destruct (Ascii.eqb_spec a c) as [->|]; [|discriminate].
  intros H. exists s'. split; [reflexivity|exact H].
Qed.

Lemma rmatch_dot re st s l :
  Re.rmatch_from (Re.Dot :: re) st s = Some l ->
  exists c s', s = String c s' /\ c <> "010"%char
               /\ Re.rmatch_from re (Re.push c st) s' = Some l.
Proof.
  destruct s as [|c s']; simpl; [discriminate|].
  destruct (Ascii.eqb_spec c "010") as [|Hc]; [discriminate|].
  intros H. exists c, s'. repeat split; assumption.
Qed.

Lemma rmatch_cls p re st s l :
  Re.rmatch_from (Re.Cls p :: re) st s = Some l ->
  exists c s', s = String c s' /\ p c = true
               /\ Re.rmatch_from re (Re.push c st) s' = Some l.
Proof.
  destruct s as [|c s']; simpl; [discriminate|].
  destruct (p c) eqn:Hc; [|discriminate].
  intros H. exists c, s'. repeat split; assumption.
Qed.

Lemma many_sound p k : forall s st l,
  Re.many p k st s = Some l ->
  exists ds s', s = ds +:+ s' /\ all_chars p ds = true
                /\ k (pushes ds st) s' = Some l.
Proof.
  induction s as [|c s IH]; intros st l; simpl.
  - intros H. exists "", "". repeat split. exact H.
  - destruct (p c) eqn:Hc.
    + destruct (Re.many p k (Re.push c st) s) as [r|] eqn:E.
      * intros [= ->]. destruct (IH _ _ E) as (ds & s' & -> & Hds & Hk).
        exists (String c ds), s'. split; [reflexivity|]. split; [|exact Hk].
        simpl. rewrite Hc, Hds. reflexivity.
      * intros H. exists "", (String c s). repeat split. exact H.
    + intros H. exists "", (String c s). repeat split. exact H.
Qed.

Lemma rmatch_plus p re st s l :
  Re.rmatch_from (Re.Plus p :: re) st s = Some l ->
  exists ds s', s = ds +:+ s' /\ ds <> "" /\ all_chars p ds = true
                /\ Re.rmatch_from re (pushes ds st) s' = Some l.
Proof.
  destruct s as [|c s0]; simpl; [discriminate|].
  destruct (p c) eqn:Hc; [|discriminate].
  intros H. destruct (many_sound _ _ _ _ _ H) as (ds & s' & -> & Hds & Hk).
  exists (String c ds), s'. split; [reflexivity|]. split; [discriminate|].
  split; [|exact Hk]. simpl. rewrite Hc, Hds. reflexivity.
Qed.

Lemma many_greedy p k :
  (forall st c r, p c = true -> k st (String c r) = None) ->
  forall ds st s',
    all_chars p ds = true ->
    (forall c r, s' = String c r -> p c = false) ->
    Re.many p k st (ds +:+ s') = k (pushes ds st) s'.
Proof.
  intros Hk. induction ds as [|c ds IH]; intros st s' Hds Hs'.
  - change ("" +:+ s') with s'. destruct s' as [|c r]; [reflexivity|].
    simpl. rewrite (Hs' c r eq_refl). reflexivity.
  - simpl in Hds. apply andb_true_iff in Hds as [Hc Hds].
    rewrite app_cons. simpl. rewrite Hc, (IH _ _ Hds Hs').
    destruct (k (pushes ds (Re.push c st)) s') eqn:E; [reflexivity|].
    apply Hk. exact Hc.
Qed.

Lemma rmatch_open re st s :
  Re.rmatch_from (Re.Open :: re) st s = Re.rmatch_from re (Re.open st) s.
Proof. reflexivity. Qed.

Lemma rmatch_close re st s :
  Re.rmatch_from (Re.Close :: re) st s = Re.rmatch_from re (Re.close st) s.
Proof. reflexivity. Qed.

Ltac re_state H :=
  cbv [Re.push Re.cur Re.start Re.closed Re.open Re.close] in H;
  rewrite ?pushes_open in H;
  cbv [Re.push Re.cur Re.start Re.closed Re.open Re.close] in H.

Ltac re_inv H :=
  re_state H;
  first
    [ rewrite rmatch_open in H
    | rewrite rmatch_close in H
    | apply rmatch_chr in H as (? & -> & H)
    | apply rmatch_dot in H as (? & ? & -> & ? & H)
    | apply rmatch_cls in H as (? & ? & -> & ? & H)
    | apply rmatch_plus in H as (? & ? & -> & ? & ? & H) ].

Lemma bib_url_sound url l :
  Re.rmatch bib_url_re url = Some l ->
  exists c y v wd, l = [c; y; v; wd] /\ bib_url_shape url c y v wd.
Proof.
  unfold Re.rmatch. intros H.
  let r := eval cbv [bib_url_re Re.lit app] in bib_url_re in
    change bib_url_re with r in H.
  repeat re_inv H. re_state H. cbn [Re.rmatch_from] in H.
  injection H as <-.
  match goal with
  | H1 : Py.isupper ?c1 = true, H2 : Py.isdigit ?y1 = true,
    H3 : Py.isdigit ?y2 = true,
    H4 : all_chars Py.isdigit ?v = true, H5 : all_chars Py.isdigit ?wd = true
    |- context [String ?y1 (String ?y2 (String "-" (?v +:+ _ (_ (?wd +:+ _)))))] =>
      exists (String c1 ""), (String y1 (String y2 "")), v, wd
  end.
  split; [reflexivity|].
  do 3 eexists. split; [reflexivity|].
  simpl. repeat match goal with H : _ = true |- _ => rewrite H end.
  repeat split; assumption.
Qed.

Lemma rmatch_chr_eq a re st s :
  Re.rmatch_from (Re.Chr a :: re) st (String a s)
  = Re.rmatch_from re (Re.push a st) s.
Proof. simpl. rewrite Ascii.eqb_refl. reflexivity. Qed.

Lemma rmatch_dot_eq c re st s :
  c <> "010"%char ->
  Re.rmatch_from (Re.Dot :: re) st (String c s)
  = Re.rmatch_from re (Re.push c st) s.
Proof.
  intros Hc. simpl. destruct (Ascii.eqb_spec c "010"); [contradiction|reflexivity].
Qed.

Lemma rmatch_cls_eq p c re st s :
  p c = true ->
  Re.rmatch_from (Re.Cls p :: re) st (String c s)
  = Re.rmatch_from re (Re.push c st) s.
Proof. intros Hc. simpl. rewrite Hc. reflexivity. Qed.

(** A greedy [+] followed by the end of a group and a literal character
    outside the class never has to give characters back. *)
Lemma rmatch_plus_eq p a re st ds s :
  p a = false ->
  ds <> "" -> all_chars p ds = true ->
  Re.rmatch_from (Re.Plus p :: Re.Close :: Re.Chr a :: re) st (ds +:+ String a s)
  = Re.rmatch_from (Re.Close :: Re.Chr a :: re) (pushes ds st) (String a s).
Proof.
  intros Ha Hne Hds. destruct ds as [|c ds]; [contradiction|].
  simpl in Hds. apply andb_true_iff in Hds as [Hc Hds].
  rewrite app_cons.
  change (Re.rmatch_from (Re.Plus p :: Re.Close :: Re.Chr a :: re) st
            (String c (ds +:+ String a s)))
    with (if p c
          then Re.many p (Re.rmatch_from (Re.Close :: Re.Chr a :: re))
                 (Re.push c st) (ds +:+ String a s)
          else None).
  rewrite Hc. change (pushes (String c ds) st) with (pushes ds (Re.push c st)).
  apply many_greedy.
  - intros st' c' r Hc'. simpl.
    destruct (Ascii.eqb_spec a c') as [->|]; [congruence|reflexivity].
  - exact Hds.
  - intros c' r [= <- <-]. exact Ha.
Qed.

Lemma bib_url_complete url c y v wd :
  bib_url_shape url c y v wd ->
  Re.rmatch bib_url_re url = Some [c; y; v; wd].
Proof.
  intros (d1 & d2 & rest & -> & Hd1 & Hd2 & Lc & Hc & Ly & Hy & Hv & Hvd & Hw & Hwd).
  destruct c as [|c1 [|? ?]]; try discriminate Lc.
  destruct y as [|y1 [|y2 [|? ?]]]; try discriminate Ly.
  simpl in Hc, Hy.
  rewrite andb_true_r in Hc. rewrite andb_true_r in Hy.
  apply andb_true_iff in Hy as [Hy1 Hy2].
  unfold Re.rmatch.
  let r := eval cbv [bib_url_re Re.lit app] in bib_url_re in
    change bib_url_re with r.
  repeat (rewrite app_cons || change ("" +:+ ?s) with s).
  repeat (first
    [ rewrite rmatch_chr_eq
    | rewrite rmatch_open
    | rewrite rmatch_close
    | rewrite rmatch_dot_eq by assumption
    | rewrite rmatch_cls_eq by assumption
    | rewrite rmatch_plus_eq by (assumption || reflexivity) ];
    cbv [Re.push Re.cur Re.start Re.closed Re.open Re.close];
    rewrite ?pushes_open;
    cbv [Re.push Re.cur Re.start Re.closed Re.open Re.close]).
  reflexivity.
Qed.

Lemma bib_url_groups url l :
  Re.rmatch bib_url_re url = Some l <->
  exists c y v wd, l = [c; y; v; wd] /\ bib_url_shape url c y v wd.
Proof.
  split; [apply bib_url_sound|].
  intros (c & y & v & wd & -> & H). apply bib_url_complete. exact H.
Qed.

(** What lines 48-52 do with the value [url] of [bib_url]. *)
Lemma parse_bib_url_spec ch fs url w :
  match Re.rmatch bib_url_re url with
  | Some l =>
      exists c y v wd,
        l = [c; y; v; wd]
        /\ parse_bib_url {| chairs := ch; fields := <["bib_url" := url]> fs |} w
           = (Ret {| anthology_collection := c; anthology_year := y;
                     anthology_volume := v; anthology_paper_width := wd |}, w)
  | None =>
      parse_bib_url {| chairs := ch; fields := <["bib_url" := url]> fs |} w
      = (Exit 1%Z,
         {| trace := trace w
                     ++ [Stderr (Py.join " "
                                   ["Fatal: bib_url field (" +:+ url
                                      +:+ ") in 'meta' file has wrong pattern"]
                                 +:+ newline)];
            paths := paths w |})
  end.
Proof.
  destruct (Re.rmatch bib_url_re url) as [l|] eqn:E.
  - destruct (bib_url_sound url l E) as (c & y & v & wd & -> & _).
    exists c, y, v, wd. split; [reflexivity|].
    unfold parse_bib_url, metadata_get. cbn [fields].
    rewrite lookup_insert_eq. run_m. rewrite E. reflexivity.
  - unfold parse_bib_url, metadata_get. cbn [fields].
    rewrite lookup_insert_eq. run_m. rewrite E. reflexivity.
Qed.

(** C4, as the script has it.  The pattern of line 48 names the host
    [www.aclweb.org] (each of its two dots matching any character but a
    newline), so the value [https://host/anthology/W19-0%02d] is rejected.
    The parse is total: for [https://www.aclweb.org/anthology/W19-0%02d] the
    four fields are "W", "19", "0" and "2"; in general a value matches
    exactly when it has the shape [bib_url_shape], and then the four groups
    are returned; every other value ends the run with the message of line 50
    on the error stream and status 1. *)
Theorem bib_url_parse_total :
  (forall url l,
     Re.rmatch bib_url_re url = Some l <->
     exists c y v wd, l = [c; y; v; wd] /\ bib_url_shape url c y v wd)
  /\ Re.rmatch bib_url_re "https://www.aclweb.org/anthology/W19-0%02d"
     = Some ["W"; "19"; "0"; "2"]
  /\ (forall ch fs url w,
        match Re.rmatch bib_url_re url with
        | Some l =>
            exists c y v wd,
              l = [c; y; v; wd]
              /\ parse_bib_url
                   {| chairs := ch; fields := <["bib_url" := url]> fs |} w
                 = (Ret {| anthology_collection := c; anthology_year := y;
                           anthology_volume := v;
                           anthology_paper_width := wd |}, w)
        | None =>
            parse_bib_url
              {| chairs := ch; fields := <["bib_url" := url]> fs |} w
            = (Exit 1%Z,
               {| trace := trace w
                           ++ [Stderr (Py.join " "
                                         ["Fatal: bib_url field (" +:+ url
                                            +:+ ") in 'meta' file has wrong pattern"]
                                       +:+ newline)];
                  paths := paths w |})
        end).
Proof.
  split; [exact bib_url_groups|]. split; [reflexivity|exact parse_bib_url_spec].
Qed.

(** A [bib_url] on another host, [https://host/anthology/W19-0%02d], is not
    parsed into ("W","19","0","2"): the run stops on it. *)
Lemma bib_url_other_host_rejected :
  ~ (exists w',
       parse_bib_url metadata_other_host {| trace := []; paths := ∅ |}
       = (Ret {| anthology_collection := "W"; anthology_year := "19";
                 anthology_volume := "0"; anthology_paper_width := "2" |}, w')).
Proof. intros [w' H]. vm_compute in H. discriminate H. Qed.

(** ** The fatal messages and their streams *)

Lemma check_keys_loop md keys w :
  forM keys (fun key =>
    if negb (metadata_has md key)
    then print ["Fatal: missing key " +:+ dquote +:+ key +:+ dquote
                  +:+ " from " +:+ dquote +:+ "meta" +:+ dquote +:+ " file"];;
         sys_exit 1%Z
    else mret tt) w
  = match List.find (fun key => negb (metadata_has md key)) keys with
    | Some key =>
        (Exit 1%Z, {| trace := trace w ++ [missing_key_message key];
                      paths := paths w |})
    | None => (Ret tt, w)
    end.
Proof.
  unfold forM. induction keys as [|key keys IH]; [reflexivity|].
  rewrite foldM_cons. simpl List.find.
  destruct (negb (metadata_has md key)); [reflexivity|]. exact IH.
Qed.

Lemma check_required_keys_spec md w :
  check_required_keys md w
  = match first_missing_key md with
    | Some key =>
        (Exit 1%Z, {| trace := trace w ++ [missing_key_message key];
                      paths := paths w |})
    | None => (Ret tt, w)
    end.
Proof. apply check_keys_loop. Qed.

Lemma check_full_pdf_spec path w :
  check_full_pdf path w
  = if bool_decide (path ∈ paths w) then (Ret tt, w)
    else (Exit 1%Z,
          {| trace := trace w
                      ++ [Stdout (Py.join " "
                                    ["Fatal: could not find full volume PDF '"
                                       +:+ path +:+ "'"] +:+ newline)];
             paths := paths w |}).
Proof.
  unfold check_full_pdf. run_m. destruct (bool_decide _); reflexivity.
Qed.

Lemma check_frontmatter_pdf_spec path w :
  check_frontmatter_pdf path w
  = if bool_decide (path ∈ paths w) then (Ret tt, w)
    else (Exit 1%Z,
          {| trace := trace w
                      ++ [Stdout (Py.join " "
                                    ["Fatal: could not find frontmatter PDF file '"
                                       +:+ path +:+ "'"] +:+ newline)];
             paths := paths w |}).
Proof.
  unfold check_frontmatter_pdf. run_m. destruct (bool_decide _); reflexivity.
Qed.

Lemma emit_paper_type_error unicode_to_tex to_bibtex md anth abstracts
    registry n bibs entry w pdf fid e :
  registry !! entry.1.1 = Some pdf ->
  Py.format_0d (anthology_paper_width anth) n = Some fid ->
  bib_entry unicode_to_tex md abstracts entry = Some e ->
  to_bibtex (anthology_id (dest_path anth fid)) e = EncodeRaises TypeError ->
  exists w',
    emit_paper unicode_to_tex to_bibtex md anth abstracts registry
      (n, bibs) entry w = (Exit 1%Z, w')
    /\ last (trace w')
       = Some (Stderr (Py.join " " ["Fatal: Error in BibTeX-encoding paper";
                                    entry.1.1] +:+ newline)).
Proof.
  intros Hp Hf He Hb. unfold emit_paper. rewrite Hp, Hf. run_m.
  destruct (bool_decide _); run_m; rewrite He, Hb; run_m;
    (eexists; split; [reflexivity|]); cbn [trace]; apply last_snoc.
Qed.

(** C6 at a [meta] file that lacks the key [abbrev].  The run ends with
    status 1, but the fatal message of line 45 is printed on the standard
    output: nothing is written to the error stream.  The same holds in
    general for a missing required key and for a missing full-volume or
    frontmatter PDF (lines 45, 103 and 110 print without [file=sys.stderr]),
    and a [meta] file without any [chairs] line is not reported at all,
    because [metadata] has the key ['chairs'] from the start.  The other
    three conditions, a [bib_url] that does not match, a final paper without
    a PDF and a [TypeError] of the serialisation, do end the run with status
    1 and a message on the error stream. *)
Theorem fatal_messages_and_streams :
  run sample_unicode_to_tex sample_to_bibtex sample_no_abbrev
  = (Exit 1%Z, {| trace := [missing_key_message "abbrev"];
                  paths := existing sample_no_abbrev |})
  /\ (forall md w key,
        first_missing_key md = Some key ->
        check_required_keys md w
        = (Exit 1%Z, {| trace := trace w ++ [missing_key_message key];
                        paths := paths w |}))
  /\ (forall md, metadata_has md "chairs" = true)
  /\ (forall path w,
        path ∉ paths w ->
        (exists text,
           check_full_pdf path w
           = (Exit 1%Z, {| trace := trace w ++ [Stdout text]; paths := paths w |}))
        /\ (exists text,
              check_frontmatter_pdf path w
              = (Exit 1%Z, {| trace := trace w ++ [Stdout text];
                              paths := paths w |})))
  /\ (forall ch fs url w,
        Re.rmatch bib_url_re url = None ->
        exists text,
          parse_bib_url {| chairs := ch; fields := <["bib_url" := url]> fs |} w
          = (Exit 1%Z, {| trace := trace w ++ [Stderr text]; paths := paths w |}))
  /\ (forall unicode_to_tex to_bibtex md anth abstracts registry n bibs entry w,
        registry !! entry.1.1 = None ->
        exists text,
          emit_paper unicode_to_tex to_bibtex md anth abstracts registry
            (n, bibs) entry w
          = (Exit 1%Z, {| trace := trace w ++ [Stderr text]; paths := paths w |}))
  /\ (forall unicode_to_tex to_bibtex md anth abstracts registry n bibs entry w
             pdf fid e,
        registry !! entry.1.1 = Some pdf ->
        Py.format_0d (anthology_paper_width anth) n = Some fid ->
        bib_entry unicode_to_tex md abstracts entry = Some e ->
        to_bibtex (anthology_id (dest_path anth fid)) e = EncodeRaises TypeError ->
        exists w' text,
          emit_paper unicode_to_tex to_bibtex md anth abstracts registry
            (n, bibs) entry w = (Exit 1%Z, w')
          /\ last (trace w') = Some (Stderr text)).
Proof.
  split; [vm_compute; reflexivity|]. split; [|split; [|split; [|split; [|split]]]].
  - intros md w key H. rewrite check_required_keys_spec, H. reflexivity.
  - intros md. reflexivity.
  - intros path w H. rewrite check_full_pdf_spec, check_frontmatter_pdf_spec.
    rewrite bool_decide_eq_false_2 by exact H.
    split; eexists; reflexivity.
  - intros ch fs url w H. pose proof (parse_bib_url_spec ch fs url w) as Hs.
    rewrite H in Hs. eexists. exact Hs.
  - intros u2t tb md anth abs reg n bibs entry w H.
    rewrite (emit_paper_missing u2t tb md anth abs reg n bibs entry w H).
    eexists. reflexivity.
  - intros u2t tb md anth abs reg n bibs entry w pdf fid e Hp Hf He Hb.
    destruct (emit_paper_type_error u2t tb md anth abs reg n bibs entry w pdf
                fid e Hp Hf He Hb) as (w' & E & L).
    exists w'. eexists. split; [exact E|exact L].
Qed.

(** ** Output identifiers and paths (lines 152-163) *)

Lemma all_chars_app p s t :
  all_chars p (s +:+ t) = all_chars p s && all_chars p t.
Proof.
  induction s as [|c s IH]; [reflexivity|]. rewrite app_cons. simpl.
  rewrite IH, andb_assoc. reflexivity.
Qed.

Lemma all_digits_string_of_uint d :
  all_chars Py.isdigit (NilEmpty.string_of_uint d) = true.
Proof. induction d; simpl; try exact IHd; reflexivity. Qed.

Lemma all_digits_str_of_nat n : all_chars Py.isdigit (Py.str_of_nat n) = true.
Proof. apply all_digits_string_of_uint. Qed.

Lemma all_digits_zeros k : all_chars Py.isdigit (Py.zeros k) = true.
Proof. induction k as [|k IH]; [reflexivity|exact IH]. Qed.

Lemma all_digits_output_id anth i : all_chars Py.isdigit (output_id anth i) = true.
Proof.
  unfold output_id. rewrite all_chars_app, all_digits_zeros, all_digits_str_of_nat.
  reflexivity.
Qed.


Lemma format_0d_Some anth i :
  (Py.int_of_digits (anthology_paper_width anth) <= Py.ssize_t_max)%N ->
  Py.format_0d (anthology_paper_width anth) i = Some (output_id anth i).
Proof.
  intros H. unfold Py.format_0d, output_id.
  destruct (N.ltb_spec Py.ssize_t_max
              (Py.int_of_digits (anthology_paper_width anth))); [lia|reflexivity].
Qed.



Lemma decimal_value_zeros k s :
  decimal_value (Py.zeros k +:+ s) = decimal_value s.
Proof.
  induction k as [|k IH]; [reflexivity|].
  change (Py.zeros (S k) +:+ s) with (String "0" (Py.zeros k +:+ s)).
  rewrite <- IH. unfold decimal_value. simpl.
  destruct (NilEmpty.uint_of_string (Py.zeros k +:+ s)) as [d|]; reflexivity.
Qed.

Lemma decimal_value_str_of_nat n : decimal_value (Py.str_of_nat n) = Some n.
Proof.
  unfold decimal_value, Py.str_of_nat. rewrite NilEmpty.usu. simpl.
  rewrite Unsigned.of_to. reflexivity.
Qed.

Lemma decimal_value_output_id anth i : decimal_value (output_id anth i) = Some i.
Proof. unfold output_id. rewrite decimal_value_zeros. apply decimal_value_str_of_nat. Qed.

Lemma output_id_inj anth i j : output_id anth i = output_id anth j -> i = j.
Proof.
  intros H. pose proof (decimal_value_output_id anth i) as Hi.
  rewrite H, decimal_value_output_id in Hi. congruence.
Qed.

Section Positions.

Variable unicode_to_tex : string -> string.
Variable to_bibtex : string -> Entry -> encoded.
Variable md : Metadata.
Variable anth : Anthology.
Variable abstracts : gmap (option string) (option string).
Variable registry : gmap string string.

Abbreviation emit_one' :=
  (emit_paper unicode_to_tex to_bibtex md anth abstracts registry).





End Positions.



Lemma stem_char_plain c :
  stem_char c = true ->
  Ascii.eqb c "p" = false /\ Ascii.eqb c "/" = false /\ Ascii.eqb c "." = false.
Proof.
  destruct c as [[] [] [] [] [] [] [] []]; vm_compute; intros H;
    try discriminate H; repeat split.
Qed.

Lemma dest_path_stem anth fid :
  dest_path anth fid = "proceedings/cdrom/pdf/" +:+ stem anth fid +:+ ".pdf".
Proof. unfold dest_path, stem. rewrite !app_assoc_s. reflexivity. Qed.

Lemma replace_pdf_stem m :
  all_chars stem_char m = true ->
  Py.replace_go "pdf" "bib" 0 (m +:+ ".pdf") = m +:+ ".bib".
Proof.
  induction m as [|c m IH]; [reflexivity|]. simpl all_chars.
  rewrite andb_true_iff. intros [Hc Hm].
  destruct (stem_char_plain c Hc) as (Hp & _ & _).
  rewrite !app_cons.
  change (Py.replace_go "pdf" "bib" 0 (String c (m +:+ ".pdf")))
    with (if String.prefix "pdf" (String c (m +:+ ".pdf"))
          then "bib" +:+ Py.replace_go "pdf" "bib" 2 (m +:+ ".pdf")
          else String c (Py.replace_go "pdf" "bib" 0 (m +:+ ".pdf"))).
  rewrite (IH Hm), prefix_cons_ne; [reflexivity|].
  intros <-. discriminate Hp.
Qed.

Lemma bib_path_stem m :
  all_chars stem_char m = true ->
  bib_path ("proceedings/cdrom/pdf/" +:+ m +:+ ".pdf")
  = "proceedings/cdrom/bib/" +:+ m +:+ ".bib".
Proof.
  intros Hm. unfold bib_path, Py.replace. simpl Py.is_empty. cbv iota.
  rewrite <- (replace_pdf_stem m Hm). reflexivity.
Qed.

Lemma cut_last_slash_stem m ext :
  all_chars stem_char m = true ->
  Py.cut_last_slash ext = None ->
  Py.cut_last_slash (m +:+ ext) = None.
Proof.
  intros Hm Hext. induction m as [|c m IH]; [exact Hext|].
  simpl in Hm. apply andb_true_iff in Hm as [Hc Hm].
  destruct (stem_char_plain c Hc) as (_ & Hs & _).
  rewrite app_cons. simpl. rewrite (IH Hm), Hs. reflexivity.
Qed.

Lemma dirname_bib_stem m :
  all_chars stem_char m = true ->
  Py.dirname ("proceedings/cdrom/bib/" +:+ m +:+ ".bib") = "proceedings/cdrom/bib".
Proof.
  intros Hm. unfold Py.dirname.
  pose proof (cut_last_slash_stem m ".bib" Hm eq_refl) as Hcut.
  assert (E : Py.cut_last_slash ("proceedings/cdrom/bib/" +:+ m +:+ ".bib")
              = Some ("proceedings/cdrom/bib/", m +:+ ".bib")).
  { repeat rewrite app_cons. change ("" +:+ m +:+ ".bib") with (m +:+ ".bib").
    simpl. rewrite Hcut. reflexivity. }
  rewrite E. reflexivity.
Qed.

Lemma app_inv_tail_s t : forall s s', s +:+ t = s' +:+ t -> s = s'.
Proof.
  induction s as [|c s IH]; intros [|c' s'] H.
  - reflexivity.
  - exfalso. apply (f_equal String.length) in H.
    change ("" +:+ t) with t in H. rewrite app_cons in H. simpl in H.
    rewrite length_app_s in H. lia.
  - exfalso. apply (f_equal String.length) in H.
    change ("" +:+ t) with t in H. rewrite app_cons in H. simpl in H.
    rewrite length_app_s in H. lia.
  - rewrite !app_cons in H. injection H as -> H. f_equal. apply IH. exact H.
Qed.

(** ** The state at the start of the loop (lines 34-140) *)

Lemma bind_Ret_inv {A B} (m : M A) (f : A -> M B) w b w' :
  (m ≫= f) w = (Ret b, w') ->
  exists a w1, m w = (Ret a, w1) /\ f a w1 = (Ret b, w').
Proof.
  unfold mbind, M_bind. destruct (m w) as [[a|c|e] w1]; try discriminate.
  intros H. exists a, w1. split; [reflexivity|exact H].
Qed.

Lemma dir_chain_self s : forall acc, (acc +:+ s) ∈ dir_chain acc s.
Proof.
  induction s as [|c s IH]; intros acc; simpl.
  - rewrite app_empty_r. apply list_elem_of_here.
  - replace (acc +:+ String c s) with ((acc +:+ String c "") +:+ s)
      by (rewrite app_assoc_s; reflexivity).
    destruct (Ascii.eqb_spec c "/") as [->|].
    + apply elem_of_app. right. apply IH.
    + apply IH.
Qed.

Lemma ensure_dir_spec dest_dir w :
  exists w',
    ensure_dir dest_dir w = (Ret tt, w')
    /\ extends w w' /\ dest_dir ∈ paths w'.
Proof.
  unfold ensure_dir. run_m.
  destruct (bool_decide (dest_dir ∈ paths w)) eqn:E; run_m.
  - exists w. split; [reflexivity|]. split; [apply extends_refl|].
    apply bool_decide_eq_true_1 in E. exact E.
  - eexists. split; [reflexivity|]. split; [solve_extends|]. cbn [paths].
    apply elem_of_union_l, elem_of_list_to_set. apply (dir_chain_self dest_dir "").
Qed.

Lemma make_dest_dirs_spec w :
  exists w', make_dest_dirs w = (Ret tt, w') /\ extends w w'
             /\ "proceedings/cdrom/bib" ∈ paths w'.
Proof.
  unfold make_dest_dirs, forM. rewrite foldM_cons. cbv beta.
  destruct (ensure_dir_spec ("proceedings/cdrom" +:+ "/" +:+ "bib") w)
    as (w1 & E1 & X1 & P1).
  rewrite E1, foldM_cons. cbv beta.
  destruct (ensure_dir_spec ("proceedings/cdrom" +:+ "/" +:+ "pdf") w1)
    as (w2 & E2 & X2 & P2).
  rewrite E2. exists w2. split; [reflexivity|].
  split; [eapply extends_trans; eassumption|].
  destruct X2 as [_ X2]. apply (X2 _ P1).
Qed.

Lemma metadata_get_inv md key w v w' :
  metadata_get md key w = (Ret v, w') -> fields md !! key = Some v /\ w' = w.
Proof.
  unfold metadata_get. destruct (fields md !! key); [|discriminate].
  intros [= <- <-]. split; reflexivity.
Qed.

Lemma load_inv inp w l w1 :
  load inp w = (Ret l, w1) ->
  (exists url,
     fields (metadata l) !! "bib_url" = Some url
     /\ bib_url_shape url (anthology_collection (anthology l))
          (anthology_year (anthology l)) (anthology_volume (anthology l))
          (anthology_paper_width (anthology l)))
  /\ fields (metadata l) !! "abbrev" = Some (md_abbrev l)
  /\ fields (metadata l) !! "year" = Some (md_year l)
  /\ (exists booktitle,
        fields (metadata l) !! "booktitle" = Some booktitle
        /\ final l = final_papers booktitle (chairs (metadata l))
                       (accepted l) (submissions l))
  /\ registry l
     = pdfs (frontmatter_pdf_file (md_abbrev l) (md_year l))
            (glob inp (paper_pdf_pattern (md_abbrev l) (md_year l)))
  /\ "proceedings/cdrom/bib" ∈ paths w1.
Proof.
  unfold load. intros H.
  apply bind_Ret_inv in H as (md & wa & Hmd & H).
  apply bind_Ret_inv in H as ([] & wb & Hck & H).
  apply bind_Ret_inv in H as (anth & wc & Hanth & H).
  apply bind_Ret_inv in H as (acc & wd & Hacc & H).
  apply bind_Ret_inv in H as (subs & we & Hsubs & H).
  apply bind_Ret_inv in H as (abs & wf & Habs & H).
  apply bind_Ret_inv in H as (abbrev & wg & Habbrev & H).
  apply bind_Ret_inv in H as (year & wh & Hyear & H).
  apply bind_Ret_inv in H as ([] & wi & Hfull & H).
  apply bind_Ret_inv in H as ([] & wj & Hfront & H).
  apply bind_Ret_inv in H as (bt & wk & Hbt & H).
  apply bind_Ret_inv in H as ([] & wl & Hdirs & H).
  apply bind_Ret_inv in H as ([] & wm & Hprint & H).
  apply bind_Ret_inv in H as ([] & wn & Hcopy & H).
  injection H as <- <-. cbn [metadata anthology accepted submissions abstracts
                              md_abbrev md_year registry final].
  apply metadata_get_inv in Habbrev as [Habbrev _].
  apply metadata_get_inv in Hyear as [Hyear _].
  apply metadata_get_inv in Hbt as [Hbt _].
  split.
  { unfold parse_bib_url in Hanth.
    apply bind_Ret_inv in Hanth as (url & wx & Hurl & Hanth).
    apply metadata_get_inv in Hurl as [Hurl _].
    exists url. split; [exact Hurl|].
    destruct (Re.rmatch bib_url_re url) as [g|] eqn:E; [|discriminate Hanth].
    destruct (bib_url_sound url g E) as (c & y & v & wd' & -> & Hshape).
    injection Hanth as <- _. exact Hshape. }
  split; [exact Habbrev|]. split; [exact Hyear|].
  split; [exists bt; split; [exact Hbt|reflexivity]|].
  split; [reflexivity|].
  destruct (make_dest_dirs_spec wk) as (wl' & E & _ & Hin).
  rewrite E in Hdirs. injection Hdirs as <-.
  revert Hprint Hcopy. run_m. intros [= <-] [= <-]. cbn [paths].
  apply elem_of_union_r. exact Hin.
Qed.

Lemma pdfs_has_zero frontmatter found : is_Some (pdfs frontmatter found !! "0").
Proof.
  destruct (decide (Exists (fun g => paper_pdf_id g = "0") found)) as [Hex|Hno].
  - destruct (split_at_last_with "0" found Hex) as (pre & f & post & -> & Hid & Hpost).
    exists f. pose proof (pdfs_lookup_last frontmatter pre f post) as H.
    rewrite Hid in H. apply H. exact Hpost.
  - exists frontmatter. rewrite pdfs_lookup_other; [reflexivity|].
    apply Forall_forall. intros g Hg Hk. apply Hno. apply Exists_exists.
    exists g. split; assumption.
Qed.

Lemma upper_stem_char s : all_chars Py.isupper s = true -> all_chars stem_char s = true.
Proof.
  apply all_chars_impl. intros c H. unfold stem_char. rewrite H. reflexivity.
Qed.

Lemma digit_stem_char s : all_chars Py.isdigit s = true -> all_chars stem_char s = true.
Proof.
  apply all_chars_impl. intros c H. unfold stem_char. rewrite H.
  rewrite orb_true_r. reflexivity.
Qed.

Lemma stem_chars url anth i :
  bib_url_shape url (anthology_collection anth) (anthology_year anth)
    (anthology_volume anth) (anthology_paper_width anth) ->
  all_chars stem_char (stem anth (output_id anth i)) = true.
Proof.
  intros (d1 & d2 & rest & _ & _ & _ & _ & Hc & _ & Hy & _ & Hv & _ & _).
  unfold stem. rewrite !all_chars_app.
  rewrite (upper_stem_char _ Hc), (digit_stem_char _ Hy), (digit_stem_char _ Hv).
  rewrite (digit_stem_char _ (all_digits_output_id anth i)). reflexivity.
Qed.

Lemma bib_path_dest url anth i :
  bib_url_shape url (anthology_collection anth) (anthology_year anth)
    (anthology_volume anth) (anthology_paper_width anth) ->
  bib_path (dest_path anth (output_id anth i))
  = "proceedings/cdrom/bib/" +:+ stem anth (output_id anth i) +:+ ".bib"
  /\ Py.dirname (bib_path (dest_path anth (output_id anth i)))
     = "proceedings/cdrom/bib".
Proof.
  intros H. pose proof (stem_chars url anth i H) as Hs.
  rewrite dest_path_stem, (bib_path_stem _ Hs). split; [reflexivity|].
  apply dirname_bib_stem. exact Hs.
Qed.

Lemma stem_inj anth i j :
  stem anth (output_id anth i) = stem anth (output_id anth j) -> i = j.
Proof.
  unfold stem. intros H. do 4 apply String.app_inj in H.
  apply (output_id_inj anth). exact H.
Qed.

Lemma dest_path_inj anth i j :
  dest_path anth (output_id anth i) = dest_path anth (output_id anth j) -> i = j.
Proof.
  rewrite !dest_path_stem. intros H. apply String.app_inj in H.
  apply app_inv_tail_s in H. apply (stem_inj anth). exact H.
Qed.

Lemma emit_volume_spec abbrev year full bibs w :
  exists w',
    emit_volume abbrev year full bibs w = (Ret tt, w')
    /\ trace w' = trace w ++ volume_events abbrev year full bibs.
Proof.
  unfold emit_volume. run_m. eexists. split; [reflexivity|]. cbn [trace].
  rewrite <- !app_assoc. reflexivity.
Qed.

(** C7.  Take a run that gets through lines 34-140 (so [meta] is complete,
    [bib_url] matches, and the full-volume and frontmatter PDFs exist), with
    exactly one accepted decision, a submission agreeing with it, a PDF for
    that submission, a width that a format specification may name, and both
    entries serialisable.  Then the final-paper list is the frontmatter entry
    and that paper, the run completes, and after line 140 it does exactly
    this, in this order: for the frontmatter (identifier 0) and then for the
    paper (identifier 1), copy the PDF to
    [proceedings/cdrom/pdf/<stem>.pdf] and write the record to
    [proceedings/cdrom/bib/<stem>.bib]; then write the volume bibliography,
    whose content is the two records joined in that order, and copy the
    full-volume PDF.  The two PDF destinations differ, and so do the two
    bibliography files; no directory has to be created on the way. *)
Theorem one_accepted_paper_end_to_end :
  forall unicode_to_tex to_bibtex inp l w1 a front s pdf1 e0 e1 b0 b1,
    load inp (init inp) = (Ret l, w1) ->
    accepted l = [a] ->
    first_match a (submissions l) = Some s ->
    registry l !! s.1.1 = Some pdf1 ->
    (Py.int_of_digits (anthology_paper_width (anthology l)) <= Py.ssize_t_max)%N ->
    final l !! 0 = Some front ->
    bib_entry unicode_to_tex (metadata l) (abstracts l) front = Some e0 ->
    to_bibtex (anthology_id (dest_path (anthology l) (output_id (anthology l) 0))) e0
    = Encoded b0 ->
    bib_entry unicode_to_tex (metadata l) (abstracts l) s = Some e1 ->
    to_bibtex (anthology_id (dest_path (anthology l) (output_id (anthology l) 1))) e1
    = Encoded b1 ->
    exists pdf0 w2,
      final l = [front; s]
      /\ front.1.1 = "0"
      /\ registry l !! "0" = Some pdf0
      /\ run unicode_to_tex to_bibtex inp = (Ret tt, w2)
      /\ trace w2
         = trace w1
           ++ paper_events pdf0 (dest_path (anthology l) (output_id (anthology l) 0))
                b0 true
           ++ paper_events pdf1 (dest_path (anthology l) (output_id (anthology l) 1))
                b1 true
           ++ volume_events (md_abbrev l) (md_year l)
                (full_pdf_file (md_abbrev l) (md_year l)) [b0; b1]
      /\ Py.join newline [b0; b1] = b0 +:+ newline +:+ b1
      /\ dest_path (anthology l) (output_id (anthology l) 0)
         <> dest_path (anthology l) (output_id (anthology l) 1)
      /\ bib_path (dest_path (anthology l) (output_id (anthology l) 0))
         = "proceedings/cdrom/bib/" +:+ stem (anthology l) (output_id (anthology l) 0)
             +:+ ".bib"
      /\ bib_path (dest_path (anthology l) (output_id (anthology l) 1))
         = "proceedings/cdrom/bib/" +:+ stem (anthology l) (output_id (anthology l) 1)
             +:+ ".bib"
      /\ bib_path (dest_path (anthology l) (output_id (anthology l) 0))
         <> bib_path (dest_path (anthology l) (output_id (anthology l) 1)).
Proof.
  intros u2t tb inp l w1 a front s pdf1 e0 e1 b0 b1
         Hl Hacc Hmatch Hpdf1 Hw Hfront He0 Hb0 He1 Hb1.
  destruct (load_inv inp _ l w1 Hl)
    as ((url & _ & Hshape) & _ & _ & (bt & _ & Hfinal) & Hreg & Hdir).
  assert (Hlist : final l = [front; s]).
  { rewrite Hfinal, final_papers_eq, Hacc in *. simpl in *. rewrite Hmatch in *.
    injection Hfront as <-. reflexivity. }
  assert (Hid : front.1.1 = "0").
  { rewrite Hfinal, final_papers_eq in Hfront. injection Hfront as <-. reflexivity. }
  destruct (pdfs_has_zero (frontmatter_pdf_file (md_abbrev l) (md_year l))
              (glob inp (paper_pdf_pattern (md_abbrev l) (md_year l))))
    as [pdf0 Hpdf0].
  rewrite <- Hreg in Hpdf0.
  destruct (bib_path_dest url (anthology l) 0 Hshape) as [Hbib0 Hdn0].
  destruct (bib_path_dest url (anthology l) 1 Hshape) as [Hbib1 Hdn1].
  assert (Hp0 : registry l !! front.1.1 = Some pdf0) by (rewrite Hid; exact Hpdf0).
  destruct (emit_paper_ok u2t tb (metadata l) (anthology l) (abstracts l)
              (registry l) 0 [] front w1 pdf0 _ e0 b0 Hp0
              (format_0d_Some _ 0 Hw) He0 Hb0) as (wa & Ea & Ta & Pa).
  destruct (emit_paper_ok u2t tb (metadata l) (anthology l) (abstracts l)
              (registry l) 1 ([] ++ [b0]) s wa pdf1 _ e1 b1 Hpdf1
              (format_0d_Some _ 1 Hw) He1 Hb1) as (wb & Eb & Tb & Pb).
  rewrite Hdn0 in Ta. rewrite Hdn1 in Tb.
  rewrite bool_decide_eq_true_2 in Ta by (apply elem_of_union_r; exact Hdir).
  rewrite bool_decide_eq_true_2 in Tb
    by (apply elem_of_union_r, Pa; exact Hdir).
  destruct (emit_volume_spec (md_abbrev l) (md_year l)
              (full_pdf_file (md_abbrev l) (md_year l)) [b0; b1] wb)
    as (wc & Ec & Tc).
  exists pdf0, wc.
  split; [exact Hlist|]. split; [exact Hid|]. split; [exact Hpdf0|].
  split.
  { unfold run, script. rewrite (bind_ret _ _ _ _ _ Hl).
    assert (Eloop : emit_papers u2t tb l w1 = (Ret (2, [b0; b1]), wb)).
    { unfold emit_papers. rewrite Hlist, foldM_cons, Ea, foldM_cons, Eb.
      reflexivity. }
    rewrite (bind_ret _ _ _ _ _ Eloop). exact Ec. }
  split.
  { rewrite Tc, Tb, Ta, <- !app_assoc. reflexivity. }
  split; [reflexivity|].
  split.
  { intros H. apply dest_path_inj in H. discriminate H. }
  split; [exact Hbib0|]. split; [exact Hbib1|].
  rewrite Hbib0, Hbib1. intros H. apply String.app_inj in H.
  apply app_inv_tail_s in H. apply stem_inj in H. discriminate H.
Qed.

Lemma one_accepted_paper_end_to_end_witness :
  exists w2,
    run sample_unicode_to_tex sample_to_bibtex sample = (Ret tt, w2)
    /\ copies_of (trace w2)
       = [("meta", "proceedings/meta");
          ("pdf/X_2019_frontmatter.pdf", "proceedings/cdrom/pdf/W19-000.pdf");
          ("pdf/X_2019_paper_1.pdf", "proceedings/cdrom/pdf/W19-001.pdf");
          ("pdf/X_2019.pdf", "proceedings/cdrom/X-2019.pdf")].
Proof.
  destruct (one_accepted_paper_end_to_end sample_unicode_to_tex
              sample_to_bibtex sample sample_loaded sample_world
              ("1", "T") ("0", "Proceedings of X", ["Ann Chair"; "Bob Chair"])
              ("1", "T", ["A"; "B"]) "pdf/X_2019_paper_1.pdf"
              {| bib_type := "proceedings";
                 bib_fields :=
                   [("author", Some "Ann Chair and Bob Chair");
                    ("title", Some "Proceedings of X");
                    ("year", Some "2019"); ("month", Some "June");
                    ("address", Some "Here"); ("publisher", Some "ACL")] |}
              {| bib_type := "inproceedings";
                 bib_fields :=
                   [("author", Some "A and B"); ("title", Some "T");
                    ("year", Some "2019"); ("month", Some "June");
                    ("address", Some "Here"); ("publisher", Some "ACL");
                    ("booktitle", Some "Proceedings of X")] |}
              ("@proceedings{W19-000}" +:+ newline)
              ("@inproceedings{W19-001}" +:+ newline))
    as (pdf0 & w2 & _ & _ & Hpdf0 & Hrun & Htrace & _).
  - vm_compute; reflexivity.
  - reflexivity.
  - reflexivity.
  - vm_compute; reflexivity.
  - vm_compute; discriminate.
  - reflexivity.
  - vm_compute; reflexivity.
  - vm_compute; reflexivity.
  - vm_compute; reflexivity.
  - vm_compute; reflexivity.
  - exists w2. split; [exact Hrun|]. rewrite Htrace.
    vm_compute in Hpdf0. injection Hpdf0 as <-. vm_compute. reflexivity.
Defined.
(** ** The author rule (line 80) *)

Lemma prefix_cons a p c s :
  String.prefix (String a p) (String c s)
  = if ascii_dec a c then String.prefix p s else false.
Proof. reflexivity. Qed.

Lemma prefix_app_cases p : forall u rest,
  String.prefix p (u +:+ rest) = true ->
  String.prefix p u = true
  \/ exists p2, p = u +:+ p2 /\ Py.is_empty p2 = false
                /\ String.prefix p2 rest = true.
Proof.
  induction p as [|a p IH]; intros u rest H.
  - left. destruct u; reflexivity.
  - destruct u as [|c u].
    + right. exists (String a p). repeat split. exact H.
    + rewrite app_cons, prefix_cons in H. rewrite prefix_cons.
      destruct (ascii_dec a c) as [->|]; [|discriminate H].
      destruct (IH u rest H) as [Hl|(p2 & -> & Hne & Hp2)]; [left; exact Hl|].
      right. exists p2. repeat split; assumption.
Qed.

Lemma replace_go_pass old new m : forall rest,
  no_match_in old m rest = true ->
  Py.replace_go old new 0 (m +:+ rest) = m +:+ Py.replace_go old new 0 rest.
Proof.
  induction m as [|c m IH]; intros rest H; [reflexivity|].
  cbn [no_match_in] in H. apply andb_true_iff in H as [Hc Hm].
  apply negb_true_iff in Hc. rewrite ?app_cons in Hc. rewrite !app_cons.
  change (Py.replace_go old new 0 (String c (m +:+ rest)))
    with (if String.prefix old (String c (m +:+ rest))
          then new +:+ Py.replace_go old new (String.length old - 1) (m +:+ rest)
          else String c (Py.replace_go old new 0 (m +:+ rest))).
  rewrite Hc, (IH rest Hm). reflexivity.
Qed.

Lemma split_go_nonempty sep s : forall k, Py.split_go sep k s <> [].
Proof.
  induction s as [|c s IH]; intros k; [discriminate|].
  destruct k as [|k]; [|apply IH].
  change (Py.split_go sep 0 (String c s))
    with (if String.prefix sep (String c s)
          then "" :: Py.split_go sep (String.length sep - 1) s
          else Py.cons_head c (Py.split_go sep 0 s)).
  destruct (String.prefix sep (String c s)); [discriminate|].
  destruct (Py.split_go sep 0 s); discriminate.
Qed.

Lemma split_go_pass sep m : forall rest,
  no_match_in sep m rest = true ->
  Py.split_go sep 0 (m +:+ rest) = prepend m (Py.split_go sep 0 rest).
Proof.
  induction m as [|c m IH]; intros rest H.
  - change ("" +:+ rest) with rest.
    destruct (Py.split_go sep 0 rest) as [|w ws] eqn:E; [|reflexivity].
    exfalso. exact (split_go_nonempty sep rest 0 E).
  - cbn [no_match_in] in H. apply andb_true_iff in H as [Hc Hm].
    apply negb_true_iff in Hc. rewrite ?app_cons in Hc. rewrite !app_cons.
    change (Py.split_go sep 0 (String c (m +:+ rest)))
      with (if String.prefix sep (String c (m +:+ rest))
            then "" :: Py.split_go sep (String.length sep - 1) (m +:+ rest)
            else Py.cons_head c (Py.split_go sep 0 (m +:+ rest))).
    rewrite Hc, (IH rest Hm).
    destruct (Py.split_go sep 0 rest) as [|w ws]; reflexivity.
Qed.

Lemma no_match_first_char a old m rest :
  all_chars (fun c => negb (Ascii.eqb c a)) m = true ->
  no_match_in (String a old) m rest = true.
Proof.
  induction m as [|c m IH]; [reflexivity|]. cbn [no_match_in all_chars].
  rewrite !andb_true_iff, negb_true_iff. intros [Hc Hm]. split; [|exact (IH Hm)].
  rewrite ?app_cons. apply negb_true_iff, prefix_cons_ne.
  intros <-. rewrite Ascii.eqb_refl in Hc. discriminate Hc.
Qed.

Lemma safe_rest_prefix p2 rest :
  safe_rest rest = true -> String.prefix p2 rest = true ->
  forall h t, p2 = String h t -> h <> "a"%char /\ h <> "n"%char /\ h <> "d"%char.
Proof.
  intros Hs Hp h t ->. destruct rest as [|c r]; [discriminate Hp|].
  rewrite prefix_cons in Hp. destruct (ascii_dec h c) as [->|]; [|discriminate Hp].
  simpl in Hs. rewrite !andb_true_iff, !negb_true_iff in Hs.
  destruct Hs as [[Ha Hn] Hd].
  repeat split; intros ->; discriminate.
Qed.

(** A proper, non-empty end of " and" or of "and" begins with one of the
    letters of "and". *)
Lemma and_suffix_head (u p2 : string) :
  (" and" = u +:+ p2 /\ Py.is_empty u = false \/ "and" = u +:+ p2) ->
  Py.is_empty p2 = false ->
  exists h t, p2 = String h t /\ (h = "a" \/ h = "n" \/ h = "d")%char.
Proof.
  intros H Hne. destruct p2 as [|h t]; [discriminate Hne|]. exists h, t.
  split; [reflexivity|].
  destruct H as [[H Hu]|H].
  - destruct u as [|c0 [|c1 [|c2 [|c3 [|c4 u]]]]]; try discriminate Hu;
      repeat rewrite app_cons in H; change ("" +:+ String h t) with (String h t) in H;
      injection H; intros; subst; try discriminate; auto.
  - destruct u as [|c0 [|c1 [|c2 [|c3 u]]]];
      repeat rewrite app_cons in H; change ("" +:+ String h t) with (String h t) in H;
      injection H; intros; subst; try discriminate; auto.
Qed.

Lemma occurs_cons pat c s :
  occurs pat (String c s) = false ->
  String.prefix pat (String c s) = false /\ occurs pat s = false.
Proof. cbn [occurs]. apply orb_false_iff. Qed.

Lemma no_match_and m : forall rest,
  occurs " and" m = false -> safe_rest rest = true ->
  no_match_in " and" m rest = true.
Proof.
  induction m as [|c m IH]; intros rest Ho Hs; [reflexivity|].
  apply occurs_cons in Ho as [Hp Ho]. cbn [no_match_in].
  rewrite (IH rest Ho Hs), andb_true_r. apply negb_true_iff.
  destruct (String.prefix " and" (String c m +:+ rest)) eqn:E; [|reflexivity].
  exfalso. destruct (prefix_app_cases _ _ _ E) as [Hl|(p2 & Heq & Hne & Hp2)].
  - congruence.
  - destruct (and_suffix_head (String c m) p2 (or_introl (conj Heq eq_refl)) Hne)
      as (h & t & -> & Hh).
    destruct (safe_rest_prefix _ _ Hs Hp2 h t eq_refl) as (Ha & Hn & Hd).
    destruct Hh as [ -> | [ -> | -> ] ]; contradiction.
Qed.

Lemma not_and_prefix b tail :
  String.prefix "and" b = false -> safe_rest tail = true ->
  String.prefix "and" (b +:+ tail) = false.
Proof.
  intros Hb Hs.
  destruct (String.prefix "and" (b +:+ tail)) eqn:E; [|reflexivity].
  exfalso. destruct (prefix_app_cases _ _ _ E) as [Hl|(p2 & Heq & Hne & Hp2)].
  - congruence.
  - destruct (and_suffix_head b p2 (or_intror Heq) Hne) as (h & t & -> & Hh).
    destruct (safe_rest_prefix _ _ Hs Hp2 h t eq_refl) as (Ha & Hn & Hd).
    destruct Hh as [ -> | [ -> | -> ] ]; contradiction.
Qed.

Lemma plain_name_parts n :
  plain_name n = true ->
  all_chars (fun c => negb (Ascii.eqb c ",")) n = true
  /\ occurs " and" n = false /\ String.prefix "and" n = false.
Proof.
  unfold plain_name. rewrite !andb_true_iff, !negb_true_iff. tauto.
Qed.

(** The author field of a non-empty list of names: the first name, then
    " and " before the last name or ", " before the others. *)
Lemma serial_cons a b rest :
  serial (a :: b :: rest)
  = a +:+ (match rest with [] => " and" | _ => "," end)
      +:+ String " " (serial (b :: rest)).
Proof. destruct rest; reflexivity. Qed.

Lemma serial_head_tail a rest :
  exists tail, serial (a :: rest) = a +:+ tail /\ safe_rest tail = true.
Proof.
  destruct rest as [|b rest].
  - exists "". split; [symmetry; apply app_empty_r|reflexivity].
  - rewrite serial_cons. eexists. split; [reflexivity|].
    destruct rest; reflexivity.
Qed.

Lemma serial_not_and a rest :
  plain_name a = true -> String.prefix "and" (serial (a :: rest)) = false.
Proof.
  intros Ha. destruct (plain_name_parts a Ha) as (_ & _ & Hp).
  destruct (serial_head_tail a rest) as (tail & -> & Hs).
  apply not_and_prefix; assumption.
Qed.

Lemma replace_and_space S :
  String.prefix "and" S = false ->
  Py.replace_go " and" "," 0 (String " " S)
  = String " " (Py.replace_go " and" "," 0 S).
Proof.
  intros H.
  change (Py.replace_go " and" "," 0 (String " " S))
    with (if String.prefix " and" (String " " S)
          then "," +:+ Py.replace_go " and" "," 3 S
          else String " " (Py.replace_go " and" "," 0 S)).
  rewrite prefix_cons_eq, H. reflexivity.
Qed.

Lemma replace_serial names :
  names <> [] ->
  Forall (fun n => plain_name n = true) names ->
  Py.replace_go " and" "," 0 (serial names) = Py.join ", " names.
Proof.
  induction names as [|a rest IH]; intros Hne Hall; [contradiction|].
  inversion Hall as [|? ? Ha Hrest]; subst.
  destruct (plain_name_parts a Ha) as (_ & Ho & _).
  destruct rest as [|b rest].
  - simpl. rewrite <- (app_empty_r a) at 1.
    rewrite replace_go_pass by (apply no_match_and; [exact Ho|reflexivity]).
    apply app_empty_r.
  - rewrite serial_cons.
    rewrite replace_go_pass
      by (apply no_match_and; [exact Ho|destruct rest; reflexivity]).
    assert (Hb : plain_name b = true) by (inversion Hrest; assumption).
    pose proof (replace_and_space _ (serial_not_and b rest Hb)) as Hsp.
    change (Py.join ", " (a :: b :: rest))
      with (a +:+ String "," (String " " (Py.join ", " (b :: rest)))).
    rewrite <- (IH ltac:(discriminate) Hrest), <- Hsp.
    destruct rest; reflexivity.
Qed.

Lemma prefix_nil s : String.prefix "" s = true.
Proof. destruct s; reflexivity. Qed.

Lemma split_comma_hit J :
  Py.split_go ", " 0 (String "," (String " " J)) = "" :: Py.split_go ", " 0 J.
Proof.
  change (Py.split_go ", " 0 (String "," (String " " J)))
    with (if String.prefix ", " (String "," (String " " J))
          then "" :: Py.split_go ", " 0 J
          else Py.cons_head "," (Py.split_go ", " 0 (String " " J))).
  rewrite !prefix_cons_eq, prefix_nil. reflexivity.
Qed.

Lemma split_join_names names :
  names <> [] ->
  Forall (fun n => plain_name n = true) names ->
  Py.split_go ", " 0 (Py.join ", " names) = names.
Proof.
  induction names as [|a rest IH]; intros Hne Hall; [contradiction|].
  inversion Hall as [|? ? Ha Hrest]; subst.
  destruct (plain_name_parts a Ha) as (Hc & _ & _).
  destruct rest as [|b rest].
  - simpl. rewrite <- (app_empty_r a) at 1.
    rewrite split_go_pass by (apply no_match_first_char; exact Hc).
    simpl. rewrite app_empty_r. reflexivity.
  - change (Py.join ", " (a :: b :: rest))
      with (a +:+ ", " +:+ Py.join ", " (b :: rest)).
    rewrite split_go_pass by (apply no_match_first_char; exact Hc).
    change (", " +:+ Py.join ", " (b :: rest))
      with (String "," (String " " (Py.join ", " (b :: rest)))).
    rewrite split_comma_hit, (IH ltac:(discriminate) Hrest). simpl. rewrite app_empty_r.
    reflexivity.
Qed.

Lemma split_authors_serial names :
  names <> [] ->
  Forall (fun n => plain_name n = true) names ->
  split_authors (serial names) = names.
Proof.
  intros Hne Hall. unfold split_authors, Py.split_sep, Py.replace.
  simpl Py.is_empty. cbv iota.
  rewrite (replace_serial names Hne Hall). apply split_join_names; assumption.
Qed.

Lemma prefix_longer p q : forall s,
  String.prefix (p +:+ q) s = true -> String.prefix p s = true.
Proof.
  induction p as [|a p IH]; intros s H; [apply prefix_nil|].
  destruct s as [|c s]; [discriminate H|].
  rewrite app_cons, prefix_cons in H. rewrite prefix_cons.
  destruct (ascii_dec a c); [apply IH; exact H|discriminate H].
Qed.

Lemma no_match_longer p q m rest :
  no_match_in p m rest = true -> no_match_in (p +:+ q) m rest = true.
Proof.
  induction m as [|c m IH]; [reflexivity|]. cbn [no_match_in].
  rewrite !andb_true_iff, !negb_true_iff. intros [Hc Hm]. split; [|exact (IH Hm)].
  destruct (String.prefix (p +:+ q) (String c m +:+ rest)) eqn:E; [|reflexivity].
  apply prefix_longer in E. congruence.
Qed.

Lemma replace_conj_hit S :
  Py.replace_go " and " ", " 0 (" and" +:+ String " " S)
  = ", " +:+ Py.replace_go " and " ", " 0 S.
Proof.
  change (Py.replace_go " and " ", " 0 (" and" +:+ String " " S))
    with (if String.prefix " and " (" and" +:+ String " " S)
          then ", " +:+ Py.replace_go " and " ", " 0 S
          else String " " (Py.replace_go " and " ", " 0 ("and" +:+ String " " S))).
  repeat rewrite app_cons. change ("" +:+ String " " S) with (String " " S).
  rewrite !prefix_cons_eq, prefix_nil. reflexivity.
Qed.

Lemma replace_conj_comma S :
  String.prefix "and" S = false ->
  Py.replace_go " and " ", " 0 ("," +:+ String " " S)
  = ", " +:+ Py.replace_go " and " ", " 0 S.
Proof.
  intros H.
  change (Py.replace_go " and " ", " 0 ("," +:+ String " " S))
    with (String ","
            (if String.prefix " and " (String " " S)
             then ", " +:+ Py.replace_go " and " ", " 4 S
             else String " " (Py.replace_go " and " ", " 0 S))).
  rewrite prefix_cons_eq.
  destruct (String.prefix "and " S) eqn:E; [|reflexivity].
  apply (prefix_longer "and" " ") in E. congruence.
Qed.

Lemma replace_serial_by_conjunction names :
  names <> [] ->
  Forall (fun n => plain_name n = true) names ->
  Py.replace_go " and " ", " 0 (serial names) = Py.join ", " names.
Proof.
  induction names as [|a rest IH]; intros Hne Hall; [contradiction|].
  inversion Hall as [|? ? Ha Hrest]; subst.
  destruct (plain_name_parts a Ha) as (_ & Ho & _).
  destruct rest as [|b rest].
  - simpl. rewrite <- (app_empty_r a) at 1.
    rewrite replace_go_pass
      by (apply (no_match_longer " and" " "), no_match_and; [exact Ho|reflexivity]).
    apply app_empty_r.
  - rewrite serial_cons.
    rewrite replace_go_pass
      by (apply (no_match_longer " and" " "), no_match_and;
          [exact Ho|destruct rest; reflexivity]).
    assert (Hb : plain_name b = true) by (inversion Hrest; assumption).
    change (Py.join ", " (a :: b :: rest))
      with (a +:+ ", " +:+ Py.join ", " (b :: rest)).
    rewrite <- (IH ltac:(discriminate) Hrest).
    destruct rest as [|c rest].
    + rewrite replace_conj_hit. reflexivity.
    + rewrite (replace_conj_comma _ (serial_not_and b (c :: rest) Hb)).
      reflexivity.
Qed.

Lemma split_authors_by_conjunction_serial names :
  names <> [] ->
  Forall (fun n => plain_name n = true) names ->
  split_authors_by_conjunction (serial names) = names.
Proof.
  intros Hne Hall. unfold split_authors_by_conjunction, Py.split_sep, Py.replace.
  simpl Py.is_empty. cbv iota.
  rewrite (replace_serial_by_conjunction names Hne Hall).
  apply split_join_names; assumption.
Qed.

(** The submissions loader as the script has it.  A line of the
    submissions file is cut at its tabs after its trailing blanks are
    removed; the first three fields are the id, the author field and the
    title, and the record is [(id, title, authors)]; a line with fewer than
    three fields raises [IndexError].  The author field is normalised by
    replacing every occurrence of " and" by ",", and is then split on
    ", ".  For the author field EasyChair writes for a non-empty list of
    plain names ("A", "A and B", "A, B and C", ...) this gives back the
    names in order, as does rewriting " and " to ", " before splitting; in
    particular "A and B" yields ["A","B"] and "A, B and C" yields
    ["A","B","C"]. *)
Theorem submissions_author_rule :
  (forall subs line w,
     match Py.split_sep tab (Py.rstrip line) with
     | id :: authors :: title :: _ =>
         submissions_line subs line w
         = (Ret (subs ++ [(id, title,
                           Py.split_sep ", " (Py.replace " and" "," authors))]),
            w)
     | _ => submissions_line subs line w = (Raise IndexError, w)
     end)
  /\ (forall names,
        names <> [] ->
        Forall (fun n => plain_name n = true) names ->
        split_authors (serial names) = names
        /\ split_authors_by_conjunction (serial names) = names)
  /\ split_authors "A and B" = ["A"; "B"]
  /\ split_authors "A, B and C" = ["A"; "B"; "C"].
Proof.
  split; [|split; [|split; reflexivity]].
  - intros subs line w. unfold submissions_line.
    change (String "009" "") with tab.
    destruct (Py.split_sep tab (Py.rstrip line)) as [|id [|authors [|title rest]]];
      reflexivity.
  - intros names Hne Hall. split.
    + apply split_authors_serial; assumption.
    + apply split_authors_by_conjunction_serial; assumption.
Qed.

Lemma submissions_author_rule_witness :
  split_authors (serial ["Ann Lee"; "Bo Sand"; "Cy Randall"])
  = ["Ann Lee"; "Bo Sand"; "Cy Randall"].
Proof.
  destruct submissions_author_rule as (_ & H & _).
  apply H; [discriminate|].
  repeat (constructor; [reflexivity|]). constructor.
Defined.

(** C5.  The rule of the claim rewrites the conjunction " and " to the
    delimiter ", " and splits on ", ".  Line 80 replaces " and", without
    the space that ends the conjunction, so a name whose second word begins
    with "and" is cut: from the author field "Bo andersen" the script makes
    the one-name list ["Bo,ersen"], where the rule of the claim gives
    ["Bo andersen"]; the submissions line with that author field is loaded
    with the mangled name. *)
Theorem author_rule_cuts_and_prefix :
  split_authors "Bo andersen" = ["Bo,ersen"]
  /\ split_authors_by_conjunction "Bo andersen" = ["Bo andersen"]
  /\ split_authors "Bo andersen" <> split_authors_by_conjunction "Bo andersen"
  /\ forall subs w,
       submissions_line subs
         ("7" +:+ tab +:+ "Bo andersen" +:+ tab +:+ "T" +:+ newline) w
       = (Ret (subs ++ [("7", "T", ["Bo,ersen"])]), w).
Proof.
  split; [reflexivity|]. split; [reflexivity|]. split; [discriminate|].
  intros subs w. reflexivity.
Qed.

(** C1.  The final-paper list is the frontmatter entry followed, for every
    accepted decision in file order, by the first submission (in the order of
    the submissions file) whose id and title both equal the decision's; a
    decision that no submission agrees with adds nothing, and since the join
    is a pure computation it prints nothing either.  With submissions
    [("1","T",["A","B"])] and accepted [("1","T")] the list after the
    frontmatter entry is the one submission, with authors ["A","B"].  This
    list is the one the script holds when it reaches the emitter loop. *)
Theorem joiner_first_match_wins :
  (forall booktitle chairs accepted subs,
     final_papers booktitle chairs accepted subs
     = ("0", booktitle, chairs) :: omap (fun a => first_match a subs) accepted)
  /\ (forall a subs s,
        first_match a subs = Some s <->
        exists pre post, subs = pre ++ s :: post /\ agrees a s /\
                         Forall (fun s' => ~ agrees a s') pre)
  /\ (forall a subs,
        first_match a subs = None <-> Forall (fun s' => ~ agrees a s') subs)
  /\ (forall booktitle chairs,
        final_papers booktitle chairs [("1", "T")] [("1", "T", ["A"; "B"])]
        = [("0", booktitle, chairs); ("1", "T", ["A"; "B"])])
  /\ (forall inp w l w1,
        load inp w = (Ret l, w1) ->
        exists booktitle,
          fields (metadata l) !! "booktitle" = Some booktitle
          /\ final l
             = ("0", booktitle, chairs (metadata l))
               :: omap (fun a => first_match a (submissions l)) (accepted l)).
Proof.
  split; [exact final_papers_eq|].
  split; [exact first_match_Some_iff|].
  split; [exact first_match_None_iff|].
  split; [reflexivity|].
  intros inp w l w1 H.
  destruct (load_inv inp w l w1 H) as (_ & _ & _ & (bt & Hbt & Hfinal) & _).
  exists bt. split; [exact Hbt|]. rewrite Hfinal. apply final_papers_eq.
Qed.

Lemma joiner_first_match_wins_witness :
  final sample_loaded
  = [("0", "Proceedings of X", ["Ann Chair"; "Bob Chair"]);
     ("1", "T", ["A"; "B"])].
Proof.
  destruct joiner_first_match_wins as (_ & _ & _ & _ & H).
  destruct (H sample (init sample) sample_loaded sample_world) as (bt & Hbt & Hf).
  - vm_compute. reflexivity.
  - reflexivity.
Defined.

(* ===================================================================== *)
(** * Part III: further properties of the script                          *)
(* ===================================================================== *)

(** ** What [meta] is loaded into (lines 34-41) *)

Lemma metadata_line_pair md line w :
  metadata_line md line w
  = match meta_pair line with
    | Some (key, value) =>
        (Ret (if String.eqb key "chairs"
              then {| chairs := chairs md ++ [value]; fields := fields md |}
              else {| chairs := chairs md;
                      fields := <[key := value]> (fields md) |}), w)
    | None => (Raise ValueError, w)
    end.
Proof.
  unfold metadata_line, meta_pair.
  destruct (Py.split_max1 (Py.rstrip line)) as [|key [|value [|? ?]]];
    try reflexivity.
  destruct (String.eqb key "chairs"); reflexivity.
Qed.

Lemma values_of_cons key k v kvs :
  values_of key ((k, v) :: kvs)
  = (if String.eqb k key then [v] else []) ++ values_of key kvs.
Proof. unfold values_of. simpl. destruct (String.eqb k key); reflexivity. Qed.

Lemma read_lines_pairs lines kvs :
  Forall2 (fun line kv => meta_pair line = Some kv) lines kvs ->
  forall md w,
  exists md',
    foldM metadata_line lines md w = (Ret md', w)
    /\ chairs md' = chairs md ++ values_of "chairs" kvs
    /\ forall key,
         key <> "chairs" ->
         fields md' !! key
         = match last (values_of key kvs) with
           | Some v => Some v
           | None => fields md !! key
           end.
Proof.
  induction 1 as [|line [k v] lines kvs Hp _ IH]; intros md w.
  - exists md. split; [reflexivity|]. split; [symmetry; apply app_nil_r|].
    intros key _. reflexivity.
  - rewrite foldM_cons, metadata_line_pair, Hp.
    destruct (String.eqb_spec k "chairs") as [->|Hk].
    + destruct (IH {| chairs := chairs md ++ [v]; fields := fields md |} w)
        as (md' & E & Hc & Hf).
      exists md'. split; [exact E|]. split.
      * rewrite Hc, values_of_cons. simpl. rewrite <- app_assoc. reflexivity.
      * intros key Hkey. rewrite (Hf key Hkey), values_of_cons.
        destruct (String.eqb_spec "chairs" key) as [<-|_]; [contradiction|].
        reflexivity.
    + destruct (IH {| chairs := chairs md; fields := <[k := v]> (fields md) |} w)
        as (md' & E & Hc & Hf).
      exists md'. split; [exact E|]. split.
      * rewrite Hc, values_of_cons. simpl.
        destruct (String.eqb_spec k "chairs") as [->|_]; [contradiction|].
        reflexivity.
      * intros key Hkey. rewrite (Hf key Hkey), values_of_cons. simpl.
        destruct (String.eqb_spec k key) as [->|Hne].
        -- simpl. rewrite last_cons.
           destruct (last (values_of key kvs)); [reflexivity|].
           apply lookup_insert_eq.
        -- simpl. destruct (last (values_of key kvs)); [reflexivity|].
           apply lookup_insert_ne. exact Hne.
Qed.

(** X1.  When every line of [meta] can be unpacked into a key and a value,
    the loader returns, without printing anything, a record in which
    ['chairs'] holds the values of all the [chairs] lines in file order and
    every other key holds the value of the last line that names it (and is
    absent if no line does). *)
Theorem metadata_chairs_accumulate_others_overwrite :
  forall inp lines kvs,
    meta_file inp = Some lines ->
    Forall2 (fun line kv => meta_pair line = Some kv) lines kvs ->
    exists md,
      read_metadata inp (init inp) = (Ret md, init inp)
      /\ chairs md = values_of "chairs" kvs
      /\ forall key, key <> "chairs" ->
                     fields md !! key = last (values_of key kvs).
Proof.
  intros inp lines kvs Hm H. unfold read_metadata. rewrite Hm.
  destruct (read_lines_pairs lines kvs H {| chairs := []; fields := ∅ |} (init inp))
    as (md & E & Hc & Hf).
  exists md. split; [exact E|]. split; [exact Hc|].
  intros key Hkey. rewrite (Hf key Hkey). cbn [fields].
  destruct (last (values_of key kvs)); [reflexivity|apply lookup_empty].
Qed.

Lemma metadata_chairs_accumulate_others_overwrite_witness :
  exists md,
    read_metadata sample (init sample) = (Ret md, init sample)
    /\ chairs md = ["Ann Chair"; "Bob Chair"]
    /\ fields md !! "year" = Some "2019".
Proof.
  destruct (metadata_chairs_accumulate_others_overwrite sample sample_meta
              [("abbrev", "X"); ("title", "T");
               ("booktitle", "Proceedings of X"); ("month", "June");
               ("year", "2019"); ("location", "Here"); ("publisher", "ACL");
               ("chairs", "Ann Chair"); ("chairs", "Bob Chair");
               ("bib_url", "https://www.aclweb.org/anthology/W19-0%02d")]
              eq_refl)
    as (md & E & Hc & Hf).
  - unfold sample_meta. simpl map.
    repeat (constructor; [vm_compute; reflexivity|]). constructor.
  - exists md. split; [exact E|]. split; [exact Hc|].
    rewrite (Hf "year") by discriminate. reflexivity.
Defined.

(** ** Lines and their fields (lines 37, 61 and 78) *)

Lemma rstrip_blanks b : all_chars Py.isspace b = true -> Py.rstrip b = "".
Proof.
  induction b as [|c b IH]; [reflexivity|]. simpl.
  rewrite andb_true_iff. intros [Hc Hb]. rewrite (IH Hb), Hc. reflexivity.
Qed.

Lemma rstrip_app_blanks s b :
  all_chars Py.isspace b = true -> Py.rstrip (s +:+ b) = Py.rstrip s.
Proof.
  intros Hb. induction s as [|c s IH]; [exact (rstrip_blanks b Hb)|].
  rewrite app_cons. simpl. rewrite IH. reflexivity.
Qed.

Lemma rstrip_app_fixed s v :
  v <> "" -> Py.rstrip v = v -> Py.rstrip (s +:+ v) = s +:+ v.
Proof.
  intros Hne Hv. induction s as [|c s IH]; [exact Hv|].
  rewrite app_cons. simpl. rewrite IH.
  destruct (s +:+ v) as [|c' r] eqn:E; [|reflexivity].
  exfalso. destruct s; [exact (Hne E)|discriminate E].
Qed.

Lemma lstrip_app_blanks b s :
  all_chars Py.isspace b = true -> Py.lstrip (b +:+ s) = Py.lstrip s.
Proof.
  induction b as [|c b IH]; [reflexivity|]. simpl all_chars.
  rewrite andb_true_iff. intros [Hc Hb]. rewrite app_cons. simpl.
  rewrite Hc. exact (IH Hb).
Qed.

Lemma split_max1_key_value key sep value :
  token_of (fun _ => true) key = true ->
  sep <> "" -> all_chars Py.isspace sep = true ->
  value <> "" -> Py.lstrip value = value ->
  Py.split_max1 (key +:+ sep +:+ value) = [key; value].
Proof.
  intros Hk Hne Hsep Hv Hl.
  pose proof (token_of_nonspace _ _ Hk) as Hns.
  destruct key as [|c k]; [discriminate Hk|].
  destruct sep as [|b sep']; [contradiction|].
  pose proof Hns as Hc. simpl in Hc. apply andb_true_iff in Hc as [Hc _].
  apply negb_true_iff in Hc.
  pose proof Hsep as Hb. simpl in Hb. apply andb_true_iff in Hb as [Hb _].
  unfold Py.split_max1. rewrite app_cons. simpl Py.lstrip. rewrite Hc.
  rewrite <- app_cons, app_cons with (s := sep').
  rewrite (span_token_app (String c k) b (sep' +:+ value) Hns Hb).
  rewrite <- app_cons, (lstrip_app_blanks _ value Hsep), Hl.
  destruct value; [contradiction|reflexivity].
Qed.

(** X2.  A line of [meta] made of a key without blanks, one or more blanks,
    a value that may contain blanks inside but not at its ends, and any
    trailing blanks (such as the newline) is unpacked into exactly that key
    and that value. *)
Theorem meta_line_round_trip :
  forall key sep value trailing,
    token_of (fun _ => true) key = true ->
    sep <> "" -> all_chars Py.isspace sep = true ->
    trimmed value ->
    all_chars Py.isspace trailing = true ->
    meta_pair (key +:+ sep +:+ value +:+ trailing) = Some (key, value).
Proof.
  intros key sep value trailing Hk Hne Hsep (Hv & Hl & Hr) Ht.
  unfold meta_pair.
  replace (key +:+ sep +:+ value +:+ trailing)
    with ((key +:+ sep +:+ value) +:+ trailing)
    by (rewrite !app_assoc_s; reflexivity).
  rewrite (rstrip_app_blanks _ _ Ht).
  replace (key +:+ sep +:+ value) with ((key +:+ sep) +:+ value)
    by (rewrite !app_assoc_s; reflexivity).
  rewrite (rstrip_app_fixed _ _ Hv Hr), app_assoc_s.
  rewrite (split_max1_key_value key sep value Hk Hne Hsep Hv Hl). reflexivity.
Qed.

Lemma meta_line_round_trip_witness :
  meta_pair ("booktitle" +:+ " " +:+ "Proceedings of X" +:+ newline)
  = Some ("booktitle", "Proceedings of X").
Proof.
  apply meta_line_round_trip; try reflexivity; try discriminate.
  repeat split; discriminate || reflexivity.
Defined.

Lemma split_char_hit a J :
  Py.split_go (String a "") 0 (String a J) = "" :: Py.split_go (String a "") 0 J.
Proof.
  change (Py.split_go (String a "") 0 (String a J))
    with (if String.prefix (String a "") (String a J)
          then "" :: Py.split_go (String a "") 0 J
          else Py.cons_head a (Py.split_go (String a "") 0 J)).
  rewrite prefix_cons_eq, prefix_nil. reflexivity.
Qed.

Lemma split_join_char a row :
  row <> [] ->
  Forall (fun f => all_chars (fun c => negb (Ascii.eqb c a)) f = true) row ->
  Py.split_sep (String a "") (Py.join (String a "") row) = row.
Proof.
  unfold Py.split_sep.
  induction row as [|f rest IH]; intros Hne Hall; [contradiction|].
  inversion Hall as [|? ? Hf Hrest]; subst.
  destruct rest as [|g rest].
  - simpl. rewrite <- (app_empty_r f) at 1.
    rewrite split_go_pass by (apply no_match_first_char; exact Hf).
    simpl. rewrite app_empty_r. reflexivity.
  - change (Py.join (String a "") (f :: g :: rest))
      with (f +:+ String a (Py.join (String a "") (g :: rest))).
    rewrite split_go_pass by (apply no_match_first_char; exact Hf).
    rewrite split_char_hit, (IH ltac:(discriminate) Hrest). simpl.
    rewrite app_empty_r. reflexivity.
Qed.

Lemma join_ends_with_last sep row l :
  last row = Some l -> exists pre, Py.join sep row = pre +:+ l.
Proof.
  induction row as [|f rest IH]; [discriminate|].
  destruct rest as [|g rest].
  - intros [= ->]. exists "". reflexivity.
  - intros H. rewrite last_cons_cons in H. destruct (IH H) as [pre Hpre].
    exists (f +:+ sep +:+ pre).
    change (Py.join sep (f :: g :: rest))
      with (f +:+ sep +:+ Py.join sep (g :: rest)).
    rewrite Hpre, !app_assoc_s. reflexivity.
Qed.

(** A clean row is read back from its line as the same fields. *)
Lemma tsv_line_fields row :
  clean_row row ->
  Py.split_sep tab (Py.rstrip (tsv_line row)) = row.
Proof.
  intros (Hall & l & Hl & Hne & Hr). unfold tsv_line.
  rewrite (rstrip_app_blanks _ newline eq_refl).
  destruct (join_ends_with_last tab row l Hl) as [pre Hpre].
  rewrite Hpre, (rstrip_app_fixed _ _ Hne Hr), <- Hpre.
  apply split_join_char; [intros ->; discriminate Hl|exact Hall].
Qed.
(** ** The accepted decisions and the submissions (lines 57-84) *)

Lemma accepted_line_row acc row w :
  clean_row row -> 2 <= length row ->
  accepted_line acc (tsv_line row) w
  = (Ret (acc ++ option_list (accepted_of_row row)), w).
Proof.
  intros Hrow Hlen. unfold accepted_line.
  change (String "009" "") with tab. rewrite (tsv_line_fields row Hrow).
  unfold accepted_of_row.
  destruct Hrow as (_ & l & Hl & _). rewrite Hl.
  destruct row as [|id [|title rest]]; simpl in Hlen; try lia.
  destruct (String.eqb l "ACCEPT"); [reflexivity|].
  simpl. rewrite app_nil_r. reflexivity.
Qed.

Lemma accepted_rows_fold rows : forall acc w,
  Forall clean_row rows -> Forall (fun row => 2 <= length row) rows ->
  foldM accepted_line (map tsv_line rows) acc w
  = (Ret (acc ++ omap accepted_of_row rows), w).
Proof.
  induction rows as [|row rows IH]; intros acc w Hc Hl.
  - simpl. rewrite app_nil_r. reflexivity.
  - inversion Hc as [|? ? Hc1 Hc2]; inversion Hl as [|? ? Hl1 Hl2]; subst.
    simpl map. rewrite foldM_cons, (accepted_line_row acc row w Hc1 Hl1).
    rewrite (IH _ w Hc2 Hl2). simpl omap.
    destruct (accepted_of_row row); simpl; rewrite <- ?app_assoc; reflexivity.
Qed.

(** X3.  From an accepted-decisions file of clean rows with at least two
    columns each, the script keeps exactly the rows whose last column is
    ACCEPT, in file order, taking the id from the first column and the title
    from the second (columns in between are ignored), and prints how many it
    kept. *)
Theorem accepted_rows_filtered_in_order :
  forall inp rows w,
    accepted_file inp = Some (map tsv_line rows) ->
    Forall clean_row rows ->
    Forall (fun row => 2 <= length row) rows ->
    read_accepted inp w
    = (Ret (omap accepted_of_row rows),
       {| trace :=
            trace w
            ++ [Stdout (Py.join " "
                          ["Found ";
                           Py.str_of_nat (length (omap accepted_of_row rows));
                           " accepted files"] +:+ newline)];
          paths := paths w |}).
Proof.
  intros inp rows w Hf Hc Hl. unfold read_accepted. rewrite Hf.
  cbn [open_read]. run_m.
  rewrite (accepted_rows_fold rows [] w Hc Hl). reflexivity.
Qed.

Lemma accepted_rows_filtered_in_order_witness :
  exists w',
    read_accepted sample (init sample) = (Ret [("1", "T")], w').
Proof.
  eexists.
  apply (accepted_rows_filtered_in_order sample
           [["1"; "T"; "ACCEPT"]; ["2"; "U"; "REJECT"]] (init sample)).
  - reflexivity.
  - repeat (constructor;
            [split; [repeat (constructor; [reflexivity|]); constructor
                    |eexists; split; [reflexivity|split; [discriminate|reflexivity]]]
            |]).
    constructor.
  - repeat (constructor; [simpl; lia|]). constructor.
Defined.

(** X4.  A line of the submissions file that carries an id, the author
    field EasyChair writes for a non-empty list of plain names, and a
    non-empty title without trailing blanks (none of them containing a tab)
    is loaded as the record of that id, that title and exactly those names,
    in order. *)
Theorem submission_line_round_trip :
  forall subs id names title w,
    no_tab id = true -> no_tab (serial names) = true -> no_tab title = true ->
    title <> "" -> Py.rstrip title = title ->
    names <> [] -> Forall (fun n => plain_name n = true) names ->
    submissions_line subs (tsv_line [id; serial names; title]) w
    = (Ret (subs ++ [(id, title, names)]), w).
Proof.
  intros subs id names title w Hid Hau Hti Hne Hr Hnames Hplain.
  unfold submissions_line. change (String "009" "") with tab.
  rewrite tsv_line_fields.
  - rewrite (split_authors_serial names Hnames Hplain). reflexivity.
  - split; [repeat (constructor; [assumption|]); constructor|].
    exists title. split; [reflexivity|]. split; assumption.
Qed.

Lemma submission_line_round_trip_witness :
  submissions_line [] (tsv_line ["7"; "Ann Lee, Bo Sand and Cy Randall"; "A Title"])
    {| trace := []; paths := ∅ |}
  = (Ret [("7", "A Title", ["Ann Lee"; "Bo Sand"; "Cy Randall"])],
     {| trace := []; paths := ∅ |}).
Proof.
  apply (submission_line_round_trip [] "7" ["Ann Lee"; "Bo Sand"; "Cy Randall"]
           "A Title"); try reflexivity; try discriminate.
  repeat (constructor; [reflexivity|]). constructor.
Defined.

(** X5.  A submissions line whose title is empty or blank does not reach
    the title at all: the trailing tab is stripped with the other trailing
    blanks, two fields are left, and reading the third raises [IndexError]
    (no diagnostic is printed). *)
Theorem submission_without_title_raises :
  forall subs id authors blanks w,
    no_tab id = true -> no_tab authors = true ->
    authors <> "" -> Py.rstrip authors = authors ->
    all_chars Py.isspace blanks = true ->
    submissions_line subs (id +:+ tab +:+ authors +:+ tab +:+ blanks) w
    = (Raise IndexError, w).
Proof.
  intros subs id authors blanks w Hid Hau Hne Hr Hb.
  unfold submissions_line. change (String "009" "") with tab.
  replace (id +:+ tab +:+ authors +:+ tab +:+ blanks)
    with ((id +:+ tab +:+ authors) +:+ (tab +:+ blanks))
    by (rewrite !app_assoc_s; reflexivity).
  rewrite rstrip_app_blanks by (rewrite all_chars_app, Hb; reflexivity).
  replace (id +:+ tab +:+ authors) with ((id +:+ tab) +:+ authors)
    by (rewrite !app_assoc_s; reflexivity).
  rewrite (rstrip_app_fixed _ _ Hne Hr), app_assoc_s.
  change (id +:+ tab +:+ authors) with (Py.join tab [id; authors]).
  unfold tab at 1. rewrite split_join_char; [reflexivity|discriminate|].
  repeat (constructor; [assumption|]). constructor.
Qed.

Lemma submission_without_title_raises_witness :
  submissions_line [] ("7" +:+ tab +:+ "Ann Lee" +:+ tab +:+ newline)
    {| trace := []; paths := ∅ |}
  = (Raise IndexError, {| trace := []; paths := ∅ |}).
Proof.
  apply submission_without_title_raises; try reflexivity. discriminate.
Defined.

(** ** A failed load leaves the file system alone (lines 34-126) *)

Lemma only_printed_refl w : only_printed w w.
Proof.
  split; [reflexivity|]. exists []. split; [symmetry; apply app_nil_r|constructor].
Qed.

Lemma only_printed_trans w1 w2 w3 :
  only_printed w1 w2 -> only_printed w2 w3 -> only_printed w1 w3.
Proof.
  intros (P1 & e1 & T1 & F1) (P2 & e2 & T2 & F2). split; [congruence|].
  exists (e1 ++ e2). split; [rewrite T2, T1, app_assoc; reflexivity|].
  apply Forall_app. split; assumption.
Qed.

Lemma bind_inv {A B} (m : M A) (f : A -> M B) w r w' :
  (m ≫= f) w = (r, w') ->
  (exists a w1, m w = (Ret a, w1) /\ f a w1 = (r, w'))
  \/ (exists r0, m w = (r0, w') /\ failure r0 <> None /\ failure r = failure r0).
Proof.
  unfold mbind, M_bind. destruct (m w) as [[a|c|e] w1] eqn:E.
  - intros H. left. exists a, w1. split; [reflexivity|exact H].
  - intros [= <- <-]. right. exists (Exit c). repeat split. discriminate.
  - intros [= <- <-]. right. exists (Raise e). repeat split. discriminate.
Qed.

Lemma tame_ret {A} (a : A) : tame (mret a).
Proof.
  intros w r w' [= <- <-]. split; [apply only_printed_refl|discriminate].
Qed.

Lemma tame_raise {A} e : tame (@raise A e).
Proof.
  intros w r w' [= <- <-]. split; [apply only_printed_refl|discriminate].
Qed.

Lemma tame_exit_1 {A} : tame (@sys_exit A 1%Z).
Proof.
  intros w r w' [= <- <-]. split; [apply only_printed_refl|].
  intros c [= <-]. reflexivity.
Qed.

Lemma tame_bind {A B} (m : M A) (f : A -> M B) :
  tame m -> (forall a, tame (f a)) -> tame (m ≫= f).
Proof.
  intros Hm Hf w r w' H.
  destruct (bind_inv _ _ _ _ _ H) as [(a & w1 & E1 & E2)|(r0 & E1 & _ & Hr)].
  - destruct (Hm _ _ _ E1) as [P1 _]. destruct (Hf a _ _ _ E2) as [P2 C2].
    split; [eapply only_printed_trans; eassumption|exact C2].
  - destruct (Hm _ _ _ E1) as [P1 C1]. split; [exact P1|].
    rewrite Hr. exact C1.
Qed.

Lemma tame_print args : tame (print args).
Proof.
  intros w r w' [= <- <-]. split; [|discriminate].
  split; [reflexivity|]. eexists. split; [reflexivity|].
  repeat constructor.
Qed.

Lemma tame_print_stderr args : tame (print_stderr args).
Proof.
  intros w r w' [= <- <-]. split; [|discriminate].
  split; [reflexivity|]. eexists. split; [reflexivity|].
  repeat constructor.
Qed.

Lemma tame_path_exists p : tame (path_exists p).
Proof.
  intros w r w' [= <- <-]. split; [apply only_printed_refl|discriminate].
Qed.

Lemma tame_foldM {A S} (body : S -> A -> M S) :
  (forall s x, tame (body s x)) -> forall l s, tame (foldM body l s).
Proof.
  intros Hb l. induction l as [|x l IH]; intros s.
  - apply tame_ret.
  - apply tame_bind; [apply Hb|exact IH].
Qed.

Lemma tame_open_read f : tame (open_read f).
Proof. destruct f; [apply tame_ret|apply tame_raise]. Qed.

Lemma tame_metadata_get md key : tame (metadata_get md key).
Proof.
  unfold metadata_get. destruct (fields md !! key); [apply tame_ret|apply tame_raise].
Qed.

Lemma tame_metadata_line md line : tame (metadata_line md line).
Proof.
  unfold metadata_line.
  destruct (Py.split_max1 (Py.rstrip line)) as [|key [|value [|? ?]]];
    try apply tame_raise.
  destruct (String.eqb key "chairs"); apply tame_ret.
Qed.

Lemma tame_read_metadata inp : tame (read_metadata inp).
Proof.
  apply tame_bind; [apply tame_open_read|]. intros lines.
  apply tame_foldM. exact tame_metadata_line.
Qed.

Lemma tame_check_required_keys md : tame (check_required_keys md).
Proof.
  unfold check_required_keys, forM. apply tame_foldM. intros [] key.
  destruct (negb (metadata_has md key)); [|apply tame_ret].
  apply tame_bind; [apply tame_print|]. intros _. apply tame_exit_1.
Qed.

Lemma tame_parse_bib_url md : tame (parse_bib_url md).
Proof.
  apply tame_bind; [apply tame_metadata_get|]. intros url.
  destruct (Re.rmatch bib_url_re url) as [[|c [|y [|v [|wd [|? ?]]]]]|];
    try apply tame_raise; [apply tame_ret|].
  apply tame_bind; [apply tame_print_stderr|]. intros _. apply tame_exit_1.
Qed.

Lemma tame_accepted_line acc line : tame (accepted_line acc line).
Proof.
  unfold accepted_line.
  destruct (last _) as [d|]; [|apply tame_raise].
  destruct (String.eqb d "ACCEPT"); [|apply tame_ret].
  destruct (Py.split_sep _ _) as [|id [|title rest]];
    apply tame_raise || apply tame_ret.
Qed.

Lemma tame_read_accepted inp : tame (read_accepted inp).
Proof.
  apply tame_bind; [apply tame_open_read|]. intros lines.
  apply tame_bind; [apply tame_foldM; exact tame_accepted_line|]. intros acc.
  apply tame_bind; [apply tame_print|]. intros _. apply tame_ret.
Qed.

Lemma tame_submissions_line subs line : tame (submissions_line subs line).
Proof.
  unfold submissions_line.
  destruct (Py.split_sep _ _) as [|id [|authors [|title rest]]];
    apply tame_raise || apply tame_ret.
Qed.

Lemma tame_read_submissions inp : tame (read_submissions inp).
Proof.
  apply tame_bind; [apply tame_open_read|]. intros lines.
  apply tame_bind; [apply tame_foldM; exact tame_submissions_line|]. intros subs.
  apply tame_bind; [apply tame_print|]. intros _. apply tame_ret.
Qed.

Lemma tame_abstracts_row abs row : tame (abstracts_row abs row).
Proof.
  unfold abstracts_row. destruct (row !! "abstract"); [|apply tame_raise].
  destruct (row !! "#"); [apply tame_ret|apply tame_raise].
Qed.

Lemma tame_read_abstracts inp : tame (read_abstracts inp).
Proof.
  apply tame_bind; [apply tame_path_exists|]. intros [|]; [|apply tame_ret].
  apply tame_bind; [apply tame_foldM; exact tame_abstracts_row|]. intros abs.
  apply tame_bind; [apply tame_print|]. intros _. apply tame_ret.
Qed.

Lemma tame_check_full_pdf p : tame (check_full_pdf p).
Proof.
  apply tame_bind; [apply tame_path_exists|]. intros [|]; [apply tame_ret|].
  apply tame_bind; [apply tame_print|]. intros _. apply tame_exit_1.
Qed.

Lemma tame_check_frontmatter_pdf p : tame (check_frontmatter_pdf p).
Proof.
  apply tame_bind; [apply tame_path_exists|]. intros [|]; [apply tame_ret|].
  apply tame_bind; [apply tame_print|]. intros _. apply tame_exit_1.
Qed.

Ltac load_step T H Hq :=
  let a := fresh "a" in let wi := fresh "wi" in
  let Hs := fresh "Hs" in let r0 := fresh "r0" in
  let Hr := fresh "Hr" in
  apply bind_inv in H as [(a & wi & Hs & H)|(r0 & Hs & _ & Hr)];
  [ apply T in Hs as [Hs _];
    pose proof (only_printed_trans _ _ _ Hq Hs); clear Hq Hs
  | apply T in Hs as [Hs ?]; split;
    [ exact (only_printed_trans _ _ _ Hq Hs) | rewrite Hr; assumption ] ].

(** X6.  If the script stops anywhere before it creates the destination
    directories, whether by a fatal message or by an exception, then it has
    only printed: no directory has been created, no file copied or written,
    and the set of existing paths is what it was.  If it stopped by
    [sys.exit], the status is 1. *)
Theorem failed_load_only_printed :
  forall inp w r w',
    load inp w = (r, w') ->
    failure r <> None ->
    only_printed w w' /\ forall c, failure r = Some (inl c) -> c = 1%Z.
Proof.
  intros inp w r w' H Hfail. unfold load in H.
  pose proof (only_printed_refl w) as Hq.
  load_step (tame_read_metadata inp) H Hq. rename H0 into Hq.
  load_step (tame_check_required_keys a) H Hq. rename H0 into Hq.
  load_step (tame_parse_bib_url a) H Hq. rename H0 into Hq.
  load_step (tame_read_accepted inp) H Hq. rename H0 into Hq.
  load_step (tame_read_submissions inp) H Hq. rename H0 into Hq.
  load_step (tame_read_abstracts inp) H Hq. rename H0 into Hq.
  load_step (tame_metadata_get a "abbrev") H Hq. rename H0 into Hq.
  load_step (tame_metadata_get a "year") H Hq. rename H0 into Hq.
  load_step (tame_check_full_pdf (full_pdf_file a5 a6)) H Hq. rename H0 into Hq.
  load_step (tame_check_frontmatter_pdf (frontmatter_pdf_file a5 a6)) H Hq.
  rename H0 into Hq.
  load_step (tame_metadata_get a "booktitle") H Hq. rename H0 into Hq.
  exfalso. apply Hfail.
  destruct (make_dest_dirs_spec wi9) as (wd & Ed & _ & _).
  rewrite (bind_ret _ _ _ _ _ Ed) in H. revert H. run_m.
  intros [= <- _]. reflexivity.
Qed.
Lemma failed_load_only_printed_witness :
  only_printed (init sample_no_abbrev)
    {| trace := [missing_key_message "abbrev"];
       paths := existing sample_no_abbrev |}.
Proof.
  apply (failed_load_only_printed sample_no_abbrev (init sample_no_abbrev)
           (Exit 1%Z)
           {| trace := [missing_key_message "abbrev"];
              paths := existing sample_no_abbrev |}).
  - vm_compute. reflexivity.
  - discriminate.
Defined.

(** X7.  Whenever the script ends by [sys.exit], the status is 1. *)
Theorem exit_status_is_one :
  forall unicode_to_tex to_bibtex inp c w',
    run unicode_to_tex to_bibtex inp = (Exit c, w') -> c = 1%Z.
Proof.
  intros u2t tb inp c w' H. unfold run, script in H.
  apply bind_inv in H as [(l & w1 & Hl & H)|(r0 & Hl & Hf & Hr)].
  - apply bind_inv in H as [(st & w2 & Hs & H)|(r1 & Hs & Hf & Hr)].
    + destruct (emit_volume_spec (md_abbrev l) (md_year l)
                  (full_pdf_file (md_abbrev l) (md_year l)) st.2 w2)
        as (w3 & E & _).
      rewrite E in H. discriminate H.
    + destruct r1 as [?|c1|e1]; [contradiction|injection Hr as ->|discriminate Hr].
      unfold emit_papers in Hs.
      exact (emit_papers_exit u2t tb _ _ _ _ _ _ _ _ _ Hs).
  - destruct (failed_load_only_printed inp _ _ _ Hl Hf) as [_ Hc].
    apply Hc. symmetry. exact Hr.
Qed.

Lemma exit_status_is_one_witness :
  exists c w',
    run sample_unicode_to_tex sample_to_bibtex sample_no_abbrev = (Exit c, w')
    /\ c = 1%Z.
Proof.
  exists 1%Z, {| trace := [missing_key_message "abbrev"];
                 paths := existing sample_no_abbrev |}.
  assert (E : run sample_unicode_to_tex sample_to_bibtex sample_no_abbrev
              = (Exit 1%Z, {| trace := [missing_key_message "abbrev"];
                              paths := existing sample_no_abbrev |}))
    by (vm_compute; reflexivity).
  split; [exact E|].
  exact (exit_status_is_one _ _ _ _ _ E).
Defined.

(** X8.  When the loaded [meta] lacks a required key, the run ends with
    status 1 having done nothing but print the message that names the first
    missing key, in the order abbrev, title, booktitle, month, year,
    location, publisher, chairs, bib_url. *)
Theorem missing_key_stops_the_run :
  forall unicode_to_tex to_bibtex inp md key,
    read_metadata inp (init inp) = (Ret md, init inp) ->
    first_missing_key md = Some key ->
    run unicode_to_tex to_bibtex inp
    = (Exit 1%Z, {| trace := [missing_key_message key];
                    paths := existing inp |}).
Proof.
  intros u2t tb inp md key Hmd Hkey. unfold run, script.
  apply bind_exit. unfold load. rewrite (bind_ret _ _ _ _ _ Hmd).
  apply bind_exit. rewrite check_required_keys_spec, Hkey. reflexivity.
Qed.

Lemma missing_key_stops_the_run_witness :
  run sample_unicode_to_tex sample_to_bibtex sample_no_abbrev
  = (Exit 1%Z, {| trace := [missing_key_message "abbrev"];
                  paths := existing sample_no_abbrev |}).
Proof.
  apply (missing_key_stops_the_run sample_unicode_to_tex sample_to_bibtex
           sample_no_abbrev
           {| chairs := ["Ann Chair"; "Bob Chair"];
              fields :=
                list_to_map
                  [("title", "T"); ("booktitle", "Proceedings of X");
                   ("month", "June"); ("year", "2019"); ("location", "Here");
                   ("publisher", "ACL");
                   ("bib_url", "https://www.aclweb.org/anthology/W19-0%02d")] |}
           "abbrev").
  - vm_compute. reflexivity.
  - vm_compute. reflexivity.
Defined.

(** ** The bibliography entry of a paper (lines 165-181) *)

Lemma required_keys_eq :
  required_keys
  = ["abbrev"; "title"; "booktitle"; "month"; "year"; "location";
     "publisher"; "chairs"; "bib_url"].
Proof. vm_compute. reflexivity. Qed.

Lemma metadata_has_field md key :
  String.eqb key "chairs" = false ->
  metadata_has md key = true -> is_Some (fields md !! key).
Proof.
  unfold metadata_has. intros -> H. simpl in H.
  apply bool_decide_eq_true_1 in H. exact H.
Qed.

Lemma checked_keys_present md :
  first_missing_key md = None ->
  is_Some (fields md !! "abbrev") /\ is_Some (fields md !! "title")
  /\ is_Some (fields md !! "booktitle") /\ is_Some (fields md !! "month")
  /\ is_Some (fields md !! "year") /\ is_Some (fields md !! "location")
  /\ is_Some (fields md !! "publisher") /\ is_Some (fields md !! "bib_url").
Proof.
  unfold first_missing_key. rewrite required_keys_eq. cbn [List.find].
  destruct (metadata_has md "abbrev") eqn:H1; [|discriminate].
  destruct (metadata_has md "title") eqn:H2; [|discriminate].
  destruct (metadata_has md "booktitle") eqn:H3; [|discriminate].
  destruct (metadata_has md "month") eqn:H4; [|discriminate].
  destruct (metadata_has md "year") eqn:H5; [|discriminate].
  destruct (metadata_has md "location") eqn:H6; [|discriminate].
  destruct (metadata_has md "publisher") eqn:H7; [|discriminate].
  destruct (metadata_has md "chairs") eqn:H8; [|discriminate].
  destruct (metadata_has md "bib_url") eqn:H9; [|discriminate].
  intros _. cbn [negb] in *.
  repeat split; apply metadata_has_field; (reflexivity || assumption).
Qed.

Lemma load_checked inp w l w1 :
  load inp w = (Ret l, w1) -> first_missing_key (metadata l) = None.
Proof.
  unfold load. intros H.
  apply bind_Ret_inv in H as (md & wa & Hmd & H).
  apply bind_Ret_inv in H as ([] & wb & Hck & H).
  apply bind_Ret_inv in H as (anth & wc & Hanth & H).
  apply bind_Ret_inv in H as (acc & wd & Hacc & H).
  apply bind_Ret_inv in H as (subs & we & Hsubs & H).
  apply bind_Ret_inv in H as (abs & wf & Habs & H).
  apply bind_Ret_inv in H as (abbrev & wg & Habbrev & H).
  apply bind_Ret_inv in H as (year & wh & Hyear & H).
  apply bind_Ret_inv in H as ([] & wi & Hfull & H).
  apply bind_Ret_inv in H as ([] & wj & Hfront & H).
  apply bind_Ret_inv in H as (bt & wk & Hbt & H).
  apply bind_Ret_inv in H as ([] & wl & Hdirs & H).
  apply bind_Ret_inv in H as ([] & wm & Hprint & H).
  apply bind_Ret_inv in H as ([] & wn & Hcopy & H).
  injection H as <- _. cbn [metadata].
  rewrite check_required_keys_spec in Hck.
  destruct (first_missing_key md); [discriminate Hck|reflexivity].
Qed.

(** X9.  Once the script has got through its loading phase, building the
    bibliography entry of a paper cannot fail, whatever the paper: the
    metadata it reads is there.  The entry is typed [proceedings] for the id
    "0" and [inproceedings] otherwise; its fields are, in this order,
    author (the authors joined by " and " and escaped), title, year, month,
    address (the location) and publisher, then the abstract if the abstract
    table has the paper's id, then the booktitle unless the id is "0". *)
Theorem entry_of_a_loaded_run :
  forall unicode_to_tex inp w l w1 entry,
    load inp w = (Ret l, w1) ->
    exists year month location publisher booktitle,
      fields (metadata l) !! "year" = Some year
      /\ fields (metadata l) !! "month" = Some month
      /\ fields (metadata l) !! "location" = Some location
      /\ fields (metadata l) !! "publisher" = Some publisher
      /\ fields (metadata l) !! "booktitle" = Some booktitle
      /\ bib_entry unicode_to_tex (metadata l) (abstracts l) entry
         = Some (expected_entry unicode_to_tex year month location publisher
                   booktitle (abstracts l !! Some entry.1.1) entry).
Proof.
  intros u2t inp w l w1 [[id title] authors] H.
  destruct (checked_keys_present _ (load_checked inp w l w1 H))
    as (_ & _ & [bt Hbt] & [mo Hmo] & [ye Hye] & [lo Hlo] & [pu Hpu] & _).
  exists ye, mo, lo, pu, bt. repeat (split; [assumption|]).
  unfold bib_entry, expected_entry. cbn [fst snd].
  rewrite Hye, Hmo, Hlo, Hpu. cbn [mbind option_bind].
  destruct (String.eqb id "0") eqn:E.
  - cbn. destruct (abstracts l !! Some id); reflexivity.
  - cbn. rewrite Hbt. cbn.
    destruct (abstracts l !! Some id); cbn; rewrite <- ?app_assoc; reflexivity.
Qed.

Lemma entry_of_a_loaded_run_witness :
  bib_entry sample_unicode_to_tex (metadata sample_loaded)
    (abstracts sample_loaded) ("1", "T", ["A"; "B"])
  = Some {| bib_type := "inproceedings";
            bib_fields :=
              [("author", Some "A and B"); ("title", Some "T");
               ("year", Some "2019"); ("month", Some "June");
               ("address", Some "Here"); ("publisher", Some "ACL");
               ("booktitle", Some "Proceedings of X")] |}.
Proof.
  destruct (entry_of_a_loaded_run sample_unicode_to_tex sample (init sample)
              sample_loaded sample_world ("1", "T", ["A"; "B"]))
    as (ye & mo & lo & pu & bt & Hye & Hmo & Hlo & Hpu & Hbt & He).
  - vm_compute. reflexivity.
  - rewrite He. vm_compute in Hye, Hmo, Hlo, Hpu, Hbt.
    injection Hye as <-. injection Hmo as <-. injection Hlo as <-.
    injection Hpu as <-. injection Hbt as <-. vm_compute. reflexivity.
Defined.

(** ** Which submissions are emitted (lines 120-126) *)

Lemma first_match_member a subs s : first_match a subs = Some s -> s ∈ subs.
Proof.
  intros H. apply first_match_Some_iff in H as (pre & post & -> & _).
  apply elem_of_app. right. apply list_elem_of_here.
Qed.

(** X10.  After the frontmatter entry, the final-paper list holds at most
    one entry per accepted decision, and every entry is a submission of the
    submissions file that agrees in id and title with some accepted
    decision: a submission without an accepted decision is never emitted.
    When every accepted decision has a submission agreeing with it, the
    list has exactly one entry per decision. *)
Theorem only_accepted_submissions_are_final :
  forall booktitle chairs accepted subs,
    exists rest,
      final_papers booktitle chairs accepted subs
      = ("0", booktitle, chairs) :: rest
      /\ length rest <= length accepted
      /\ Forall (fun s => s ∈ subs /\ exists a, a ∈ accepted /\ agrees a s) rest
      /\ (Forall (fun a => exists s, s ∈ subs /\ agrees a s) accepted ->
          length rest = length accepted).
Proof.
  intros bt ch accepted subs.
  exists (omap (fun a => first_match a subs) accepted).
  split; [apply final_papers_eq|].
  induction accepted as [|a accepted IH].
  - repeat split; [reflexivity|constructor].
  - destruct IH as (IH1 & IH2 & IH3).
    simpl omap. destruct (first_match a subs) as [s|] eqn:E.
    + split; [cbn [length]; apply le_n_S; exact IH1|]. split.
      * constructor.
        -- split; [exact (first_match_member _ _ _ E)|].
           exists a. split; [apply list_elem_of_here|].
           exact (first_match_agrees _ _ _ E).
        -- eapply Forall_impl; [exact IH2|].
           intros s' (Hin & a' & Ha' & Hag). split; [exact Hin|].
           exists a'. split; [apply list_elem_of_further; exact Ha'|exact Hag].
      * intros H. inversion H; subst. simpl. f_equal. apply IH3. assumption.
    + split; [etransitivity; [exact IH1|cbn [length]; lia]|]. split.
      * eapply Forall_impl; [exact IH2|].
        intros s' (Hin & a' & Ha' & Hag). split; [exact Hin|].
        exists a'. split; [apply list_elem_of_further; exact Ha'|exact Hag].
      * intros H. inversion H as [|? ? (s & Hs & Hag) _]; subst. exfalso.
        apply first_match_None_iff in E. rewrite Forall_forall in E.
        exact (E s Hs Hag).
Qed.

(** ** The destination directories (lines 133-136) *)

Lemma ensure_dir_present d w : d ∈ paths w -> ensure_dir d w = (Ret tt, w).
Proof.
  intros H. unfold ensure_dir. run_m. rewrite bool_decide_eq_true_2 by exact H.
  reflexivity.
Qed.

Lemma ensure_dir_absent d w :
  d ∉ paths w ->
  ensure_dir d w
  = (Ret tt, {| trace := trace w ++ [MakeDirs d];
                paths := list_to_set (dir_chain "" d) ∪ paths w |}).
Proof.
  intros H. unfold ensure_dir. run_m. rewrite bool_decide_eq_false_2 by exact H.
  reflexivity.
Qed.

Lemma make_dest_dirs_eq w :
  make_dest_dirs w
  = match ensure_dir bib_dir w with
    | (Ret _, w1) => ensure_dir pdf_dir w1
    | (Exit c, w1) => (Exit c, w1)
    | (Raise e, w1) => (Raise e, w1)
    end.
Proof.
  unfold make_dest_dirs, forM. rewrite foldM_cons. cbv beta.
  change ("proceedings/cdrom" +:+ "/" +:+ "bib") with bib_dir.
  destruct (ensure_dir bib_dir w) as [[[]|c|e] w1]; [|reflexivity..].
  rewrite foldM_cons. cbv beta.
  change ("proceedings/cdrom" +:+ "/" +:+ "pdf") with pdf_dir.
  destruct (ensure_dir pdf_dir w1) as [[[]|c|e] w2]; reflexivity.
Qed.

Lemma bib_chain :
  dir_chain "" bib_dir = ["proceedings"; "proceedings/cdrom"; bib_dir].
Proof. vm_compute. reflexivity. Qed.

Lemma pdf_chain :
  dir_chain "" pdf_dir = ["proceedings"; "proceedings/cdrom"; pdf_dir].
Proof. vm_compute. reflexivity. Qed.

Lemma pdf_dir_after_bib (ps : gset string) :
  pdf_dir ∈ list_to_set (dir_chain "" bib_dir) ∪ ps <-> pdf_dir ∈ ps.
Proof.
  rewrite bib_chain, elem_of_union, elem_of_list_to_set.
  split; [|intros H; right; exact H].
  intros [H|H]; [|exact H]. exfalso.
  apply elem_of_cons in H as [H|H]; [discriminate H|].
  apply elem_of_cons in H as [H|H]; [discriminate H|].
  apply elem_of_cons in H as [H|H]; [discriminate H|].
  inversion H.
Qed.

(** The effect of lines 133-136 in the model, where [os.makedirs] has no
    failure. *)
Lemma make_dest_dirs_effect :
  forall w,
    exists w',
      make_dest_dirs w = (Ret tt, w')
      /\ trace w'
         = trace w
           ++ (if bool_decide (bib_dir ∈ paths w) then [] else [MakeDirs bib_dir])
           ++ (if bool_decide (pdf_dir ∈ paths w) then [] else [MakeDirs pdf_dir])
      /\ paths w ⊆ paths w'
      /\ bib_dir ∈ paths w' /\ pdf_dir ∈ paths w'
      /\ (bib_dir ∉ paths w \/ pdf_dir ∉ paths w ->
          "proceedings" ∈ paths w' /\ "proceedings/cdrom" ∈ paths w')
      /\ make_dest_dirs w' = (Ret tt, w').
Proof.
  intros w. rewrite make_dest_dirs_eq.
  destruct (decide (bib_dir ∈ paths w)) as [Hb|Hb];
    destruct (decide (pdf_dir ∈ paths w)) as [Hp|Hp].
  - exists w. rewrite (ensure_dir_present _ _ Hb), (ensure_dir_present _ _ Hp).
    rewrite !bool_decide_eq_true_2 by assumption.
    rewrite make_dest_dirs_eq, (ensure_dir_present _ _ Hb),
      (ensure_dir_present _ _ Hp).
    repeat split; try assumption; try reflexivity.
    + rewrite !app_nil_r. reflexivity.
    + destruct H; contradiction.
    + destruct H; contradiction.
  - rewrite (ensure_dir_present _ _ Hb), (ensure_dir_absent _ _ Hp).
    eexists. split; [reflexivity|]. cbn [trace paths].
    rewrite bool_decide_eq_true_2 by assumption.
    rewrite bool_decide_eq_false_2 by assumption.
    rewrite make_dest_dirs_eq. rewrite pdf_chain.
    rewrite !ensure_dir_present by (cbn [paths]; set_solver).
    split; [reflexivity|]. split; [set_solver|]. split; [set_solver|].
    split; [set_solver|]. split; [intros _; split; set_solver|reflexivity].
  - rewrite (ensure_dir_absent _ _ Hb).
    rewrite ensure_dir_present by (cbn [paths]; set_solver).
    eexists. split; [reflexivity|]. cbn [trace paths].
    rewrite bool_decide_eq_false_2 by assumption.
    rewrite bool_decide_eq_true_2 by assumption.
    rewrite make_dest_dirs_eq, bib_chain.
    rewrite !ensure_dir_present by (cbn [paths]; set_solver).
    split; [rewrite app_nil_r; reflexivity|]. split; [set_solver|].
    split; [set_solver|]. split; [set_solver|].
    split; [intros _; split; set_solver|reflexivity].
  - rewrite (ensure_dir_absent _ _ Hb).
    rewrite ensure_dir_absent
      by (cbn [paths]; rewrite pdf_dir_after_bib; exact Hp).
    eexists. split; [reflexivity|]. cbn [trace paths].
    rewrite !bool_decide_eq_false_2 by assumption.
    rewrite make_dest_dirs_eq, bib_chain, pdf_chain.
    rewrite !ensure_dir_present by (cbn [paths]; set_solver).
    split; [rewrite <- app_assoc; reflexivity|]. split; [set_solver|].
    split; [set_solver|]. split; [set_solver|].
    split; [intros _; split; set_solver|reflexivity].
Qed.

(** X11.  Whenever creating the destination directories completes, it has
    called [os.makedirs] for [proceedings/cdrom/bib] and then for
    [proceedings/cdrom/pdf], each only if the path did not exist, and has
    done nothing else; afterwards both paths exist, together with
    [proceedings] and [proceedings/cdrom] when a directory had to be
    created, every path that existed still does, and doing it again calls
    nothing and changes nothing.  ([os.makedirs] itself can fail, for
    instance when [proceedings] is a regular file; the world does not tell
    files from directories, and the theorem says nothing of that case.) *)
Theorem dest_dirs_created_once :
  forall w w',
    make_dest_dirs w = (Ret tt, w') ->
    trace w'
    = trace w
      ++ (if bool_decide (bib_dir ∈ paths w) then [] else [MakeDirs bib_dir])
      ++ (if bool_decide (pdf_dir ∈ paths w) then [] else [MakeDirs pdf_dir])
    /\ paths w ⊆ paths w'
    /\ bib_dir ∈ paths w' /\ pdf_dir ∈ paths w'
    /\ (bib_dir ∉ paths w \/ pdf_dir ∉ paths w ->
        "proceedings" ∈ paths w' /\ "proceedings/cdrom" ∈ paths w')
    /\ make_dest_dirs w' = (Ret tt, w').
Proof.
  intros w w' H. destruct (make_dest_dirs_effect w) as (w2 & E & Hrest).
  rewrite E in H. injection H as <-. exact Hrest.
Qed.

Lemma dest_dirs_created_once_witness :
  let w' := {| trace := [MakeDirs pdf_dir];
               paths := list_to_set ["proceedings"; "proceedings/cdrom";
                                     pdf_dir; bib_dir] |} in
  bib_dir ∈ paths w' /\ pdf_dir ∈ paths w'
  /\ make_dest_dirs w' = (Ret tt, w').
Proof.
  intros w'.
  destruct (dest_dirs_created_once {| trace := []; paths := {[ bib_dir ]} |} w')
    as (_ & _ & Hb & Hp & _ & Hi).
  - vm_compute. reflexivity.
  - split; [exact Hb|]. split; [exact Hp|exact Hi].
Defined.

(** ** The abstracts table (lines 87-93) *)

Lemma abstracts_row_complete m row id abstract w :
  row !! "#" = Some id -> row !! "abstract" = Some abstract ->
  abstracts_row m row w = (Ret (<[id := abstract]> m), w).
Proof. intros H1 H2. unfold abstracts_row. rewrite H2, H1. reflexivity. Qed.

Lemma abstracts_row_incomplete m row w :
  ~ complete_row row -> abstracts_row m row w = (Raise KeyError, w).
Proof.
  intros H. unfold abstracts_row.
  destruct (row !! "abstract") as [a|] eqn:Ha; [|reflexivity].
  destruct (row !! "#") as [i|] eqn:Hi; [|reflexivity].
  exfalso. apply H. split; [rewrite Hi|rewrite Ha]; eexists; reflexivity.
Qed.

Lemma abstracts_rows_run rows : forall m w,
  Forall complete_row rows ->
  exists m',
    foldM abstracts_row rows m w = (Ret m', w)
    /\ size m' <= size m + length rows
    /\ (forall k v, m' !! k = Some v ->
          m !! k = Some v
          \/ exists r, r ∈ rows /\ r !! "#" = Some k /\ r !! "abstract" = Some v)
    /\ (forall k, Forall (fun r => r !! "#" <> Some k) rows -> m' !! k = m !! k).
Proof.
  induction rows as [|row rows IH]; intros m w Hall.
  - exists m. split; [reflexivity|]. split; [cbn [length]; lia|].
    split; [intros k v H; left; exact H|reflexivity].
  - inversion Hall as [|? ? [[k0 Hid] [ab Hab]] Hall']; subst.
    rewrite foldM_cons, (abstracts_row_complete m row k0 ab w Hid Hab).
    destruct (IH (<[k0 := ab]> m) w Hall') as (m' & E & Hsize & Hfrom & Hkeep).
    exists m'. split; [exact E|]. split; [|split].
    + rewrite map_size_insert in Hsize. cbn [length].
      destruct (m !! k0); unfold id in Hsize; lia.
    + intros k v Hk. destruct (Hfrom k v Hk) as [H|(r & Hr & H1 & H2)].
      * destruct (decide (k0 = k)) as [->|Hne].
        -- rewrite lookup_insert_eq in H. injection H as <-.
           right. exists row. split; [apply list_elem_of_here|].
           split; assumption.
        -- rewrite lookup_insert_ne in H by exact Hne. left. exact H.
      * right. exists r. split; [apply list_elem_of_further; exact Hr|].
        split; assumption.
    + intros k Hk. inversion Hk as [|? ? Hrow Hrest]; subst.
      rewrite (Hkeep k Hrest). apply lookup_insert_ne. congruence.
Qed.

Lemma abstracts_rows_last pre : forall row post m w id abstract,
  Forall complete_row (pre ++ row :: post) ->
  row !! "#" = Some id -> row !! "abstract" = Some abstract ->
  Forall (fun r => r !! "#" <> Some id) post ->
  exists m',
    foldM abstracts_row (pre ++ row :: post) m w = (Ret m', w)
    /\ m' !! id = Some abstract.
Proof.
  induction pre as [|r pre IH]; intros row post m w id abstract Hall Hid Hab Hpost.
  - cbn [app] in *. inversion Hall as [|? ? _ Hall']; subst.
    rewrite foldM_cons, (abstracts_row_complete m row id abstract w Hid Hab).
    destruct (abstracts_rows_run post (<[id := abstract]> m) w Hall')
      as (m' & E & _ & _ & Hkeep).
    exists m'. split; [exact E|]. rewrite (Hkeep id Hpost).
    apply lookup_insert_eq.
  - cbn [app] in *. inversion Hall as [|? ? [[i Hi] [a Ha]] Hall']; subst.
    rewrite foldM_cons, (abstracts_row_complete m r i a w Hi Ha).
    apply (IH row post _ w id abstract Hall' Hid Hab Hpost).
Qed.

(** X12.  When [submission.csv] exists and every row has the columns [#]
    and [abstract], reading the abstracts succeeds and prints one line,
    [Found  <n> abstracts], where [n] is the number of different ids, at
    most the number of rows.  Every entry of the table comes from a row, and
    for an id that occurs in several rows the last row wins. *)
Theorem abstracts_last_row_wins :
  forall inp w pre row post id abstract,
    "submission.csv" ∈ paths w ->
    submission_csv inp = pre ++ row :: post ->
    Forall complete_row (submission_csv inp) ->
    row !! "#" = Some id -> row !! "abstract" = Some abstract ->
    Forall (fun r => r !! "#" <> Some id) post ->
    exists table,
      read_abstracts inp w
      = (Ret table,
         {| trace := trace w
                     ++ [Stdout ("Found  " +:+ Py.str_of_nat (size table)
                                   +:+ " abstracts" +:+ newline)];
            paths := paths w |})
      /\ table !! id = Some abstract
      /\ size table <= length (submission_csv inp)
      /\ forall k v, table !! k = Some v ->
           exists r, r ∈ submission_csv inp
                     /\ r !! "#" = Some k /\ r !! "abstract" = Some v.
Proof.
  intros inp w pre row post id abstract Hex Hrows Hall Hid Hab Hpost.
  destruct (abstracts_rows_run (submission_csv inp) ∅ w Hall)
    as (table & E & Hsize & Hfrom & _).
  exists table. split; [|split; [|split]].
  - unfold read_abstracts. run_m. rewrite bool_decide_eq_true_2 by exact Hex.
    rewrite E. cbn [Py.join]. rewrite !app_assoc_s. reflexivity.
  - rewrite Hrows in Hall, E.
    destruct (abstracts_rows_last pre row post ∅ w id abstract Hall Hid Hab Hpost)
      as (m' & E' & Hm'). rewrite E in E'. injection E' as <-. exact Hm'.
  - rewrite map_size_empty in Hsize. exact Hsize.
  - intros k v Hk. destruct (Hfrom k v Hk) as [H|H]; [|exact H].
    rewrite lookup_empty in H. discriminate H.
Qed.

Lemma abstracts_last_row_wins_witness :
  exists table,
    read_abstracts
      {| meta_file := None; accepted_file := None; submissions_file := None;
         submission_csv :=
           [ {[ "#" := Some "1"; "abstract" := Some "old" ]};
             {[ "#" := Some "2"; "abstract" := Some "other" ]};
             {[ "#" := Some "1"; "abstract" := Some "new" ]} ];
         glob := fun _ => []; existing := {[ "submission.csv" ]} |}
      {| trace := []; paths := {[ "submission.csv" ]} |}
    = (Ret table,
       {| trace := [Stdout ("Found  " +:+ Py.str_of_nat (size table)
                              +:+ " abstracts" +:+ newline)];
          paths := {[ "submission.csv" ]} |})
    /\ table !! Some "1" = Some (Some "new").
Proof.
  destruct (abstracts_last_row_wins
              {| meta_file := None; accepted_file := None;
                 submissions_file := None;
                 submission_csv :=
                   [ {[ "#" := Some "1"; "abstract" := Some "old" ]};
                     {[ "#" := Some "2"; "abstract" := Some "other" ]};
                     {[ "#" := Some "1"; "abstract" := Some "new" ]} ];
                 glob := fun _ => []; existing := {[ "submission.csv" ]} |}
              {| trace := []; paths := {[ "submission.csv" ]} |}
              [ {[ "#" := Some "1"; "abstract" := Some "old" ]};
                {[ "#" := Some "2"; "abstract" := Some "other" ]} ]
              {[ "#" := Some "1"; "abstract" := Some "new" ]} []
              (Some "1") (Some "new"))
    as (table & E & Hl & _).
  - cbn [paths]. set_solver.
  - reflexivity.
  - cbn [submission_csv].
    repeat (constructor; [split; eexists; vm_compute; reflexivity|]).
    constructor.
  - vm_compute. reflexivity.
  - vm_compute. reflexivity.
  - constructor.
  - exists table. split; [exact E|exact Hl].
Defined.

(** X13.  The columns are not optional: when [submission.csv] exists, the
    first row that lacks [#] or [abstract] makes the script fail with
    [KeyError], and nothing has been printed for the abstracts by then. *)
Theorem abstracts_row_without_column_raises :
  forall inp w pre row post,
    "submission.csv" ∈ paths w ->
    submission_csv inp = pre ++ row :: post ->
    Forall complete_row pre ->
    ~ complete_row row ->
    read_abstracts inp w = (Raise KeyError, w).
Proof.
  intros inp w pre row post Hex Hrows Hpre Hrow.
  unfold read_abstracts. run_m. rewrite bool_decide_eq_true_2 by exact Hex.
  rewrite Hrows, foldM_app.
  destruct (abstracts_rows_run pre ∅ w Hpre) as (m & E & _).
  rewrite E, foldM_cons, (abstracts_row_incomplete m row w Hrow). reflexivity.
Qed.

Lemma abstracts_row_without_column_raises_witness :
  read_abstracts
    {| meta_file := None; accepted_file := None; submissions_file := None;
       submission_csv :=
         [ {[ "#" := Some "1"; "abstract" := Some "a" ]};
           {[ "#" := Some "2"; "title" := Some "t" ]} ];
       glob := fun _ => []; existing := {[ "submission.csv" ]} |}
    {| trace := []; paths := {[ "submission.csv" ]} |}
  = (Raise KeyError, {| trace := []; paths := {[ "submission.csv" ]} |}).
Proof.
  apply (abstracts_row_without_column_raises _ _
           [ {[ "#" := Some "1"; "abstract" := Some "a" ]} ]
           {[ "#" := Some "2"; "title" := Some "t" ]} []).
  - cbn [paths]. set_solver.
  - reflexivity.
  - constructor; [split; eexists; vm_compute; reflexivity|constructor].
  - intros [_ [v Hv]]. vm_compute in Hv. discriminate Hv.
Defined.

(** ** The PDF registry (lines 114-117) *)

Lemma cons_head_app c l1 l2 :
  l1 <> [] -> Py.cons_head c (l1 ++ l2) = Py.cons_head c l1 ++ l2.
Proof. destruct l1; [contradiction|reflexivity]. Qed.

Lemma split_char_app a s : forall t,
  Py.split_go (String a "") 0 (s +:+ String a t)
  = Py.split_go (String a "") 0 s ++ Py.split_go (String a "") 0 t.
Proof.
  induction s as [|c s IH]; intros t.
  - change ("" +:+ String a t) with (String a t). rewrite split_char_hit.
    reflexivity.
  - rewrite app_cons.
    change (Py.split_go (String a "") 0 (String c (s +:+ String a t)))
      with (if String.prefix (String a "") (String c (s +:+ String a t))
            then "" :: Py.split_go (String a "") 0 (s +:+ String a t)
            else Py.cons_head c (Py.split_go (String a "") 0 (s +:+ String a t))).
    change (Py.split_go (String a "") 0 (String c s))
      with (if String.prefix (String a "") (String c s)
            then "" :: Py.split_go (String a "") 0 s
            else Py.cons_head c (Py.split_go (String a "") 0 s)).
    rewrite !prefix_cons, !prefix_nil, IH.
    destruct (ascii_dec a c); [reflexivity|].
    apply cons_head_app, split_go_nonempty.
Qed.

Lemma split_char_none a t :
  all_chars (fun c => negb (Ascii.eqb c a)) t = true ->
  Py.split_go (String a "") 0 t = [t].
Proof.
  intros H. rewrite <- (app_empty_r t) at 1.
  rewrite (split_go_pass (String a "") t "" (no_match_first_char a "" t "" H)).
  cbn. rewrite app_empty_r. reflexivity.
Qed.

Lemma replace_suffix_pdf m :
  all_chars (fun c => negb (Ascii.eqb c ".")) m = true ->
  Py.replace ".pdf" "" (m +:+ ".pdf") = m.
Proof.
  intros H. unfold Py.replace. cbn [Py.is_empty].
  rewrite (replace_go_pass ".pdf" "" m ".pdf"
             (no_match_first_char "." "pdf" m ".pdf" H)).
  change (Py.replace_go ".pdf" "" 0 ".pdf") with "". apply app_empty_r.
Qed.

(** X14.  The id under which a PDF is registered is what stands between
    the last underscore of its name and [.pdf]: a file named
    [<anything>_<id>.pdf], where [id] has no underscore and no dot, is
    registered under [id], whatever stands before the underscore. *)
Theorem paper_pdf_id_round_trip :
  forall front id,
    all_chars (fun c => negb (Ascii.eqb c "_")) id = true ->
    all_chars (fun c => negb (Ascii.eqb c ".")) id = true ->
    paper_pdf_id (front +:+ "_" +:+ id +:+ ".pdf") = id.
Proof.
  intros front id Hu Hd. unfold paper_pdf_id, Py.split_sep.
  change ("_" +:+ id +:+ ".pdf") with (String "_" (id +:+ ".pdf")).
  rewrite split_char_app, last_app, split_char_none.
  - cbn [last default]. apply replace_suffix_pdf. exact Hd.
  - rewrite all_chars_app, Hu. reflexivity.
Qed.

Lemma paper_pdf_id_round_trip_witness :
  paper_pdf_id ("pdf/ws_2019_paper" +:+ "_" +:+ "12" +:+ ".pdf") = "12".
Proof. apply paper_pdf_id_round_trip; reflexivity. Defined.

(** X15.  The registry has no PDF for an id exactly when the id is not "0"
    and no file of the glob result carries it; and whatever it has for an id
    is either a file of the glob result that carries the id or, for "0", the
    frontmatter PDF. *)
Theorem registry_lookup :
  forall frontmatter found k,
    (pdfs frontmatter found !! k = None
     <-> k <> "0" /\ Forall (fun g => paper_pdf_id g <> k) found)
    /\ forall f, pdfs frontmatter found !! k = Some f ->
         (f ∈ found /\ paper_pdf_id f = k) \/ (k = "0" /\ f = frontmatter).
Proof.
  intros fm found k. split.
  - split.
    + intros Hn. split.
      * intros ->. destruct (pdfs_has_zero fm found) as [f Hf]. congruence.
      * apply Forall_forall. intros g Hg Hid.
        apply list_elem_of_split in Hg as (l1 & l2 & ->).
        assert (Hex : Exists (fun g' => paper_pdf_id g' = k) (l1 ++ g :: l2)).
        { apply Exists_exists. exists g. split; [|exact Hid].
          apply elem_of_app. right. apply list_elem_of_here. }
        destruct (split_at_last_with k _ Hex) as (pre & f & post & E & Hf & Hpost).
        rewrite E in Hn. rewrite <- Hf in Hn, Hpost.
        rewrite (pdfs_lookup_last fm pre f post Hpost) in Hn. discriminate Hn.
    + intros [Hk Hall]. rewrite (pdfs_lookup_other fm found k Hall).
      apply lookup_singleton_ne. congruence.
  - intros f Hf.
    destruct (decide (Exists (fun g => paper_pdf_id g = k) found)) as [Hex|Hno].
    + destruct (split_at_last_with k found Hex) as (pre & g & post & E & Hg & Hpost).
      left. rewrite E in Hf. rewrite <- Hg in Hf, Hpost.
      rewrite (pdfs_lookup_last fm pre g post Hpost) in Hf. injection Hf as <-.
      split; [|exact Hg]. rewrite E. apply elem_of_app. right.
      apply list_elem_of_here.
    + right. rewrite pdfs_lookup_other in Hf.
      * destruct (decide (k = "0")) as [->|Hne].
        -- rewrite lookup_singleton_eq in Hf. injection Hf as <-.
           split; reflexivity.
        -- rewrite lookup_singleton_ne in Hf by congruence. discriminate Hf.
      * apply Forall_forall. intros g Hg Hk. apply Hno. apply Exists_exists.
        exists g. split; assumption.
Qed.

(** ** The names of the files written for a paper (lines 152-163) *)

Lemma stem_char_no_dot m :
  all_chars stem_char m = true ->
  all_chars (fun c => negb (Ascii.eqb c ".")) m = true.
Proof.
  apply all_chars_impl. intros c H.
  destruct (stem_char_plain c H) as (_ & _ & ->). reflexivity.
Qed.

Lemma basename_pdf_stem m :
  all_chars stem_char m = true ->
  Py.basename ("proceedings/cdrom/pdf/" +:+ m +:+ ".pdf") = m +:+ ".pdf".
Proof.
  intros Hm. unfold Py.basename.
  pose proof (cut_last_slash_stem m ".pdf" Hm eq_refl) as Hcut.
  assert (E : Py.cut_last_slash ("proceedings/cdrom/pdf/" +:+ m +:+ ".pdf")
              = Some ("proceedings/cdrom/pdf/", m +:+ ".pdf")).
  { repeat rewrite app_cons. change ("" +:+ m +:+ ".pdf") with (m +:+ ".pdf").
    simpl. rewrite Hcut. reflexivity. }
  rewrite E. reflexivity.
Qed.

(** X16.  In a run that gets through its loading phase, the paper at
    position [i] of the final list is named after the Anthology identifier
    [<letter><year>-<volume><id>], [id] being the position padded with
    zeros: its PDF goes to [proceedings/cdrom/pdf/<identifier>.pdf], its
    record to [proceedings/cdrom/bib/<identifier>.bib] in the directory
    [proceedings/cdrom/bib], and the key of the record is the identifier.
    The identifier consists of upper-case letters, digits and hyphens. *)
Theorem names_of_a_loaded_run :
  forall inp w l w1 i,
    load inp w = (Ret l, w1) ->
    let anth := anthology l in
    let name := stem anth (output_id anth i) in
    let dest := dest_path anth (output_id anth i) in
    dest = "proceedings/cdrom/pdf/" +:+ name +:+ ".pdf"
    /\ bib_path dest = "proceedings/cdrom/bib/" +:+ name +:+ ".bib"
    /\ Py.dirname (bib_path dest) = "proceedings/cdrom/bib"
    /\ anthology_id dest = name
    /\ all_chars stem_char name = true.
Proof.
  intros inp w l w1 i H anth name dest.
  destruct (load_inv inp w l w1 H) as ((url & _ & Hshape) & _).
  pose proof (stem_chars url anth i Hshape) as Hs.
  destruct (bib_path_dest url anth i Hshape) as [Hb Hd].
  split; [apply dest_path_stem|]. split; [exact Hb|]. split; [exact Hd|].
  split; [|exact Hs].
  unfold anthology_id, dest. rewrite dest_path_stem.
  fold name. rewrite (basename_pdf_stem name Hs).
  apply replace_suffix_pdf, stem_char_no_dot, Hs.
Qed.

Lemma names_of_a_loaded_run_witness :
  anthology_id (dest_path (anthology sample_loaded)
                  (output_id (anthology sample_loaded) 1))
  = stem (anthology sample_loaded) (output_id (anthology sample_loaded) 1).
Proof.
  apply (names_of_a_loaded_run sample (init sample) sample_loaded sample_world 1).
  vm_compute. reflexivity.
Defined.

(** ** The name of the volume PDF (lines 194-201) *)

Lemma prefix_app_l p u rest :
  String.prefix p u = true -> String.prefix p (u +:+ rest) = true.
Proof.
  revert u. induction p as [|a p IH]; intros u H; [apply prefix_nil|].
  destruct u as [|c u]; [discriminate H|].
  rewrite app_cons, prefix_cons. rewrite prefix_cons in H.
  destruct (ascii_dec a c); [apply IH; exact H|discriminate H].
Qed.

Lemma no_bib_across m :
  String.prefix "bib" m = false -> m <> "" ->
  String.prefix "bib" (m +:+ ".bib") = false.
Proof.
  intros Hp Hne.
  destruct (String.prefix "bib" (m +:+ ".bib")) eqn:E; [|reflexivity].
  exfalso.
  destruct (prefix_app_cases "bib" m ".bib" E) as [H|(p2 & Hp2 & He & Hpre)].
  - congruence.
  - destruct m as [|c1 [|c2 [|c3 m]]]; [contradiction|..].
    + rewrite app_cons in Hp2. change ("" +:+ p2) with p2 in Hp2.
      injection Hp2 as <- <-. discriminate Hpre.
    + rewrite !app_cons in Hp2. change ("" +:+ p2) with p2 in Hp2.
      injection Hp2 as <- <- <-. discriminate Hpre.
    + rewrite !app_cons in Hp2. injection Hp2 as <- <- <- Hrest.
      destruct p2 as [|a p2]; [discriminate He|].
      destruct m; discriminate Hrest.
Qed.

Lemma replace_bib_suffix m :
  Py.replace_go "bib" "pdf" 0 (m +:+ ".bib") = m +:+ ".pdf"
  <-> occurs "bib" m = false.
Proof.
  induction m as [|c m IH]; [split; reflexivity|].
  rewrite app_cons.
  change (Py.replace_go "bib" "pdf" 0 (String c (m +:+ ".bib")))
    with (if String.prefix "bib" (String c (m +:+ ".bib"))
          then "pdf" +:+ Py.replace_go "bib" "pdf" 2 (m +:+ ".bib")
          else String c (Py.replace_go "bib" "pdf" 0 (m +:+ ".bib"))).
  cbn [occurs]. rewrite orb_false_iff.
  destruct (String.prefix "bib" (String c (m +:+ ".bib"))) eqn:E.
  - split.
    + intros H. exfalso. rewrite prefix_cons in E.
      destruct (ascii_dec "b" c) as [<-|]; [|discriminate E].
      rewrite app_cons in H. discriminate H.
    + intros [Hp _]. exfalso.
      pose proof (no_bib_across (String c m) Hp) as Hx.
      rewrite app_cons, E in Hx. discriminate Hx. discriminate.
  - rewrite app_cons. split.
    + intros H. injection H as H. split; [|apply IH; exact H].
      destruct (String.prefix "bib" (String c m)) eqn:Ep; [|reflexivity].
      apply (prefix_app_l _ _ ".bib") in Ep. rewrite app_cons in Ep. congruence.
    + intros [_ Ho]. f_equal. apply IH. exact Ho.
Qed.

Lemma dest_pdf_eq abbrev year :
  dest_pdf abbrev year
  = "proceedings/cdrom/"
      +:+ Py.replace_go "bib" "pdf" 0 ((abbrev +:+ "-" +:+ year) +:+ ".bib").
Proof.
  unfold dest_pdf, dest_bib, Py.replace. simpl Py.is_empty. cbv iota.
  rewrite !app_assoc_s.
  apply (replace_go_pass "bib" "pdf" "proceedings/cdrom/").
  apply no_match_first_char. reflexivity.
Qed.

(** X17.  The full-volume PDF is copied to
    [proceedings/cdrom/<abbrev>-<year>.pdf] exactly when "bib" does not
    occur in [<abbrev>-<year>]: the name is made from that of the volume
    bibliography by replacing every "bib", not only the extension. *)
Theorem volume_pdf_name :
  forall abbrev year,
    dest_pdf abbrev year
    = "proceedings/cdrom/" +:+ abbrev +:+ "-" +:+ year +:+ ".pdf"
    <-> occurs "bib" (abbrev +:+ "-" +:+ year) = false.
Proof.
  intros abbrev year. rewrite dest_pdf_eq.
  set (m := abbrev +:+ "-" +:+ year).
  replace ("proceedings/cdrom/" +:+ abbrev +:+ "-" +:+ year +:+ ".pdf")
    with ("proceedings/cdrom/" +:+ m +:+ ".pdf")
    by (unfold m; rewrite !app_assoc_s; reflexivity).
  rewrite <- replace_bib_suffix.
  split; [|intros ->; reflexivity].
  intros H. apply String.app_inj in H. exact H.
Qed.

(** ** What a completed run writes (lines 183-197) *)





Section Writes.

Variable unicode_to_tex : string -> string.
Variable to_bibtex : string -> Entry -> encoded.
Variable md : Metadata.
Variable anth : Anthology.
Variable abstracts : gmap (option string) (option string).
Variable registry : gmap string string.



End Writes.


